(** * redis-client-cache: a shallow embedding of the cache client

    The development follows the TypeScript sources:
    - [src/types/index.ts]: the interfaces ([ISerializer], [SetOptions],
      [ILocalCacheManager], [CacheConfig]) and the class [RedisCacheClient];
    - [src/config.ts]: [defaultConfig];
    - [src/Serializers/MsgpackSerializer.ts]: [MsgpackSerializer];
    - [src/utils/errors.ts]: [CacheError];
    - [src/utils/util.ts]: [initializeClientEvents];
    - the connection manager ([RedisConnectionManager]).

    Modelling decisions.
    - JavaScript values are the inductive [value]; [undefined] and [null]
      are values of their own, as the code tells them apart ([!== undefined],
      [!== null], [??]).  Numbers carried as payloads are integers.
    - The record [mget] returns is a plain object: own properties and a
      prototype.  An assignment to the key ["__proto__"] goes to the accessor
      of [Object.prototype] and creates no own property.
    - Durations are rationals ([Q]).  The expiry sent to the store is the
      quotient [Math.max(x, 1000) / 1000] as it is written on the wire; the
      time to live handed to the local cache is a double, the product taken
      in floating point ([binary64]).
    - The local cache is the Map-backed reading of [ILocalCacheManager]:
      a finite map from physical key to the stored item and the TTL option
      it was stored with.  No time passes in the model, so nothing expires.
    - An [async] method is a resumption: it runs synchronously up to an
      [await] of a store command, where it hands back the client state (other
      operations and listeners may run there), and resumes from the state it
      finds when the command settles.
    - The client is an [EventEmitter]: [emit] hands the event to the
      listeners of the caller, which the model records in a log, and throws
      an ['error'] event that has no listener.  The listeners are taken to
      return normally and to leave the client alone.
    - The libraries [ms] and [msgpackr] are not part of the repository; they
      are parameters of the model. *)

From Stdlib Require Import Ascii QArith Qminmax Qround Qpower Lqa.
From stdpp Require Import gmap strings list fin_maps pretty.


(** ** JavaScript values *)

Inductive value : Type :=
| VUndefined
| VNull
| VBoolean (b : bool)
| VNumber (n : Z)
| VString (s : string)
| VBuffer (bytes : string)
| VBuiltin (name : string).   (* a built-in object, by its well-known name *)

#[global] Instance value_eq_dec : EqDecision value.
Proof. solve_decision. Defined.

(** [a ?? b] *)
Definition nullish (a b : value) : value :=
  match a with
  | VUndefined | VNull => b
  | _ => a
  end.

(** ** Plain objects

    [const result: Record<string, ...> = {}]: an ordinary object with own
    data properties and a prototype, [Object.prototype] at first.  When an
    assignment to ["__proto__"] replaces the prototype by another object (a
    Buffer), the new prototype is kept, but the members that object adds to
    the chain are not part of this model. *)

Definition Object_prototype : value := VBuiltin "Object.prototype".

Definition is_object (v : value) : bool :=
  match v with
  | VBuffer _ | VBuiltin _ => true
  | _ => false
  end.

Definition is_null (v : value) : bool :=
  match v with
  | VNull => true
  | _ => false
  end.

Record object : Type := { own : gmap string value; prototype : value }.

(** [{}] *)
#[global] Instance object_empty : Empty object :=
  {| own := ∅; prototype := Object_prototype |}.

(** [o !! key]: the own property [key] of [o], if there is one. *)
#[global] Instance object_lookup : Lookup string value object :=
  fun key o => own o !! key.

Definition define (o : object) (key : string) (v : value) : object :=
  {| own := <[key := v]> (own o); prototype := prototype o |}.

(** [o[key] = v].  An own property is overwritten.  Otherwise the key
    ["__proto__"] reaches the accessor of [Object.prototype], unless the
    prototype is [null]: its setter replaces the prototype when [v] is an
    object or [null], does nothing for any other value, and in no case
    creates an own property.  Every other key becomes an own property: no
    other member of [Object.prototype] stands in the way of that. *)
Definition assign (o : object) (key : string) (v : value) : object :=
  match own o !! key with
  | Some _ => define o key v
  | None =>
      if String.eqb key "__proto__" && negb (is_null (prototype o)) then
        if is_object v || is_null v then {| own := own o; prototype := v |}
        else o
      else define o key v
  end.

(** The names [Object.prototype] defines, ["__proto__"] apart. *)
Definition Object_prototype_members : list string :=
  ["constructor"; "__defineGetter__"; "__defineSetter__"; "hasOwnProperty";
   "__lookupGetter__"; "__lookupSetter__"; "isPrototypeOf";
   "propertyIsEnumerable"; "toString"; "valueOf"; "toLocaleString"].

Definition inherited (key : string) : value :=
  if String.eqb key "constructor" then VBuiltin "Object"
  else if bool_decide (key ∈ Object_prototype_members)
       then VBuiltin ("Object.prototype." +:+ key)
       else VUndefined.

(** [o[key]]: the own property; otherwise, unless the prototype is [null],
    the prototype itself for ["__proto__"] (the getter of the accessor) and
    what [Object.prototype] provides for any other key. *)
Definition property (o : object) (key : string) : value :=
  match own o !! key with
  | Some v => v
  | None =>
      if is_null (prototype o) then VUndefined
      else if String.eqb key "__proto__" then prototype o
      else inherited key
  end.

(** ** [src/utils/errors.ts] *)

Inductive Error : Type :=
| CacheError (message code : string)
| TypeError (message : string)
| StoreError (message : string).

Module CacheErrors.
Definition NotReady : Error :=
    CacheError "The cache is not ready yet. Please wait for the cache to be ready."
               "CACHE_NOT_READY".
Definition MissingClientId : Error :=
    CacheError "Missing client id." "MISSING_CLIENT_ID".
Definition PingError : Error :=
    CacheError "Client ping error." "PING_ERROR".
End CacheErrors.

(** ** [src/types/index.ts]: interfaces *)

(** [ms.StringValue] *)
Definition TTL : Type := string.

(** A string is truthy when it is not empty. *)
Definition truthy (s : string) : bool := negb (String.eqb s EmptyString).

(** [serialize] is taken to succeed on every value; [deserialize] may
    throw. *)
Record ISerializer : Type := {
  requiresBuffer : bool;
  serialize : value -> string;
  deserialize : string -> Error + value
}.

Module SetOptions.
Record t : Type := { ttl : option TTL }.
End SetOptions.

(** What a cache slot holds: a plain value, or the module-private symbol
    [CACHING_IN_PROGRESS], which no caller can forge. *)
Inductive item : Type :=
| Plain (v : value)
| CACHING_IN_PROGRESS.

#[global] Instance item_eq_dec : EqDecision item.
Proof. solve_decision. Defined.

Record entry : Type := { stored : item; ttl_ms : option Q }.

(** The Map-backed [ILocalCacheManager]. *)
Module ILocalCacheManager.
Definition get (m : gmap string entry) (key : string) : item :=
  match m !! key with
  | Some e => stored e
  | None => Plain VUndefined
  end.
Definition set (m : gmap string entry) (key : string) (v : item)
    (options : option (option Q)) : gmap string entry :=
  <[key := {| stored := v; ttl_ms := mjoin options |}]> m.
Definition delete (m : gmap string entry) (key : string) : gmap string entry :=
  base.delete key m.
Definition clear (m : gmap string entry) : gmap string entry := ∅.
End ILocalCacheManager.

(** [CacheConfig] as the caller supplies it: an optional property is either
    left out ([None]) or set to a value of its type.  A property set to
    [undefined] explicitly is not a configuration of this type. *)
Module CacheConfig.
Record t : Type := {
  uri : string;
  ttl : option TTL;
  prefix : option string;
  serializer : option ISerializer;
  localCacheManager : gmap string entry;
  scanKeysCount : option Z
}.
End CacheConfig.

(** [Required<CacheConfig>] *)
Module Required.
Record t : Type := {
  uri : string;
  ttl : TTL;
  prefix : string;
  serializer : ISerializer;
  localCacheManager : gmap string entry;
  scanKeysCount : Z
}.
End Required.

(** ** The store sessions and the commands sent on them *)

Inductive Session : Type := DataSession | InvalidationSession.

#[global] Instance Session_eq_dec : EqDecision Session.
Proof. solve_decision. Defined.

(** A [RedisClientType] created by [createClient({ url })]. *)
Record RedisClientType : Type := { url : string; session : Session }.

(** The commands the client awaits, indexed by the type of their reply. *)
Inductive command : Type -> Type :=
| SET (key val : string) (EX : Q) : command unit
| TOUCH (keys : list string) : command Z
| MGET (returnBuffers : bool) (keys : list string) : command (list (option string))
| DEL (keys : list string) : command Z
| KEYS (pattern : string) : command (list string)
| SCAN_ITERATOR (MATCH : string) (COUNT : Z) : command (list string)
| TTL_QUERY (key : string) : command Z
| QUIT : command unit.

(** ** [RedisConnectionManager] *)

Record RedisConnectionManager : Type := {
  m_uri : string;
  dataClient : option RedisClientType;
  invalidationClient : option RedisClientType
}.

Definition getDataClient (m : RedisConnectionManager) : option RedisClientType :=
  dataClient m.
Definition getInvalidationClient (m : RedisConnectionManager) : option RedisClientType :=
  invalidationClient m.

(** ** The state of a [RedisCacheClient] *)

Inductive Event : Type :=
| EvError (e : Error)
| EvReconnecting.

Record Client : Type := {
  invalidationClientId : option Z;
  config : Required.t;
  localCacheManager : gmap string entry;
  redisConnectionManager : RedisConnectionManager;
  reconnecting : bool;
  connected : bool;
  default_ttl : Q;                      (* this.#ttl *)
  error_listeners : nat;                (* this.listenerCount("error") *)
  emitted : list Event
}.

Definition with_cache (c : Client) (m : gmap string entry) : Client :=
  {| invalidationClientId := invalidationClientId c; config := config c;
     localCacheManager := m;
     redisConnectionManager := redisConnectionManager c;
     reconnecting := reconnecting c; connected := connected c;
     default_ttl := default_ttl c;
     error_listeners := error_listeners c; emitted := emitted c |}.

Definition with_connected (c : Client) (b : bool) : Client :=
  {| invalidationClientId := invalidationClientId c; config := config c;
     localCacheManager := localCacheManager c;
     redisConnectionManager := redisConnectionManager c;
     reconnecting := reconnecting c; connected := b;
     default_ttl := default_ttl c;
     error_listeners := error_listeners c; emitted := emitted c |}.

Definition with_reconnecting (c : Client) (b : bool) : Client :=
  {| invalidationClientId := invalidationClientId c; config := config c;
     localCacheManager := localCacheManager c;
     redisConnectionManager := redisConnectionManager c;
     reconnecting := b; connected := connected c;
     default_ttl := default_ttl c;
     error_listeners := error_listeners c; emitted := emitted c |}.

(** [this.on("error", listener)], inherited from [EventEmitter].  The
    listeners counted are those attached to stay; a listener attached with
    [once], which is gone after its first event, is not part of the model. *)
Definition on_error (c : Client) : Client :=
  {| invalidationClientId := invalidationClientId c; config := config c;
     localCacheManager := localCacheManager c;
     redisConnectionManager := redisConnectionManager c;
     reconnecting := reconnecting c; connected := connected c;
     default_ttl := default_ttl c;
     error_listeners := S (error_listeners c); emitted := emitted c |}.

(** The listeners are handed an event. *)
Definition deliver (c : Client) (ev : Event) : Client :=
  {| invalidationClientId := invalidationClientId c; config := config c;
     localCacheManager := localCacheManager c;
     redisConnectionManager := redisConnectionManager c;
     reconnecting := reconnecting c; connected := connected c;
     default_ttl := default_ttl c;
     error_listeners := error_listeners c; emitted := emitted c ++ [ev] |}.

(** [this.emit(...)], inherited from [EventEmitter]: an ['error'] event
    that has no listener is thrown; any other event without a listener is
    dropped silently, which the log does not tell apart from a delivery. *)
Definition emit (c : Client) (ev : Event) : Error + Client :=
  match ev with
  | EvError e =>
      if (error_listeners c =? 0)%nat then inl e else inr (deliver c ev)
  | EvReconnecting => inr (deliver c ev)
  end.

(** ** Asynchronous methods as resumptions *)

Inductive Async (A : Type) : Type :=
| Done (r : Error + A) (c : Client)
| Await {R : Type} (on : RedisClientType) (cmd : command R) (c : Client)
        (k : Error + R -> Client -> Async A)
| AwaitAll {R : Type} (on : RedisClientType) (cmds : list (command R)) (c : Client)
        (k : Error + list R -> Client -> Async A).

Arguments Done {A} r c.
Arguments Await {A R} on cmd c k.
Arguments AwaitAll {A R} on cmds c k.

Fixpoint bind {A B : Type} (m : Async A) (f : A -> Client -> Async B) : Async B :=
  match m with
  | Done (inl e) c => Done (inl e) c
  | Done (inr a) c => f a c
  | Await on cmd c k => Await on cmd c (fun r c' => bind (k r c') f)
  | AwaitAll on cmds c k => AwaitAll on cmds c (fun r c' => bind (k r c') f)
  end.

(** The client state an operation leaves when it first yields control: at
    its first [await], or at its end when it never awaits. *)
Definition first_state {A : Type} (m : Async A) : Client :=
  match m with
  | Done _ c => c
  | Await _ _ c _ => c
  | AwaitAll _ _ c _ => c
  end.

(** Whether the operation finished without awaiting the store at all. *)
Definition settled {A : Type} (m : Async A) : option (Error + A) :=
  match m with
  | Done r _ => Some r
  | _ => None
  end.

(** A method call on a session held in a field: calling a method of an absent
    ([undefined]) session throws a [TypeError] on the spot. *)
Definition call {A R : Type} (cl : option RedisClientType) (cmd : command R)
    (c : Client) (k : Error + R -> Client -> Async A) : Async A :=
  match cl with
  | Some on => Await on cmd c k
  | None => k (inl (TypeError "Cannot read properties of undefined")) c
  end.

Definition callAll {A R : Type} (cl : option RedisClientType) (cmds : list (command R))
    (c : Client) (k : Error + list R -> Client -> Async A) : Async A :=
  match cl with
  | Some on => AwaitAll on cmds c k
  | None => k (inl (TypeError "Cannot read properties of undefined")) c
  end.

(** [always P m]: [P] holds of every client state the operation [m] exposes,
    at each suspension and at its end, provided it holds of the state in
    which [m] is resumed each time. *)
Fixpoint always {A : Type} (P : Client -> Prop) (m : Async A) : Prop :=
  match m with
  | Done _ c => P c
  | Await _ _ c k => P c /\ forall r c', P c' -> always P (k r c')
  | AwaitAll _ _ c k => P c /\ forall r c', P c' -> always P (k r c')
  end.

(** The configuration and the default expiry of a client. *)
Definition configured (cfg : Required.t) (d : Q) (c : Client) : Prop :=
  config c = cfg /\ default_ttl c = d.

(** ** Loops *)

(** [for (let i = 0; i < n; i++) body] *)
Definition for_range {S : Type} (n : nat) (body : nat -> S -> S) (s : S) : S :=
  foldl (fun s i => body i s) s (seq 0 n).

(** The same loop inside a [try]: a body that throws ends the loop and keeps
    the state reached so far. *)
Fixpoint for_each_try {S : Type} (indices : list nat)
    (body : nat -> S -> S * option Error) (s : S) : S * option Error :=
  match indices with
  | [] => (s, None)
  | i :: rest =>
      match body i s with
      | (s', None) => for_each_try rest body s'
      | (s', Some e) => (s', Some e)
      end
  end.

Definition for_range_try {S : Type} (n : nat)
    (body : nat -> S -> S * option Error) (s : S) : S * option Error :=
  for_each_try (seq 0 n) body s.

(** ** Strings *)

(** [s.endsWith(suffix)] *)
Definition endsWith (s suffix : string) : bool :=
  String.prefix (String.rev suffix) (String.rev s).

(** [s.slice(n)] *)
Fixpoint slice (n : nat) (s : string) : string :=
  match n, s with
  | O, _ => s
  | S n', String _ s' => slice n' s'
  | S _, EmptyString => EmptyString
  end.

(** Insertion into a JavaScript [Set], which keeps the order of first
    insertion. *)
Definition Set_add (l : list string) (x : string) : list string :=
  if decide (x ∈ l) then l else l ++ [x].

(** ** Numbers

    A JavaScript number is a double.  [binary64 x] is the double nearest to
    the rational [x], ties going to the even significand; the exponent is not
    bounded, the durations at hand being far from the limits of the format. *)

(** The integer part of the binary logarithm of a positive rational. *)
Definition ilog2 (x : Q) : Z :=
  let k := (Z.log2 (Qnum x) - Z.log2 (Zpos (Qden x)))%Z in
  if Qle_bool (2 ^ k) x then k else (k - 1)%Z.

Definition round_half_even (x : Q) : Z :=
  let f := Qfloor x in
  match Qcompare (x - inject_Z f) (1 # 2) with
  | Lt => f
  | Gt => (f + 1)%Z
  | Eq => if Z.even f then f else (f + 1)%Z
  end.

(** A positive rational rounded to 53 significant bits. *)
Definition nearest (x : Q) : Q :=
  let q := (ilog2 x - 52)%Z in
  (inject_Z (round_half_even (x / 2 ^ q)) * 2 ^ q)%Q.

Definition binary64 (x : Q) : Q :=
  let x := Qred x in
  match Qcompare x 0 with
  | Eq => 0%Q
  | Gt => Qred (nearest x)
  | Lt => Qred (- nearest (- x))
  end.

(** ** [src/utils/util.ts] *)

Inductive ClientEvent : Type :=
| OnError (e : Error)
| OnEnd
| OnClose.

(** The listeners [initializeClientEvents] installs on a session: which
    handler runs on which event. *)
Definition initializeClientEvents {H : Type}
    (onError : Error -> H) (onConnectionLost : H) : ClientEvent -> H :=
  fun ev =>
    match ev with
    | OnError e => onError e
    | OnEnd => onConnectionLost
    | OnClose => onConnectionLost
    end.

(** ** [RedisConnectionManager] *)

Module ConnectionManager.

(** [initializeClients]: both sessions are created on the same URI and get
    the same two handlers. *)
Definition initializeClients (uri : string) : RedisConnectionManager :=
  {| m_uri := uri;
     dataClient := Some {| url := uri; session := DataSession |};
     invalidationClient := Some {| url := uri; session := InvalidationSession |} |}.

Definition listeners {H : Type} (onError : Error -> H) (onConnectionLost : H)
    (s : Session) : ClientEvent -> H :=
  match s with
  | DataSession => initializeClientEvents onError onConnectionLost
  | InvalidationSession => initializeClientEvents onError onConnectionLost
  end.

(** [closeClients]: each session is quit when it is there. *)
Definition closeClients (c : Client) : Async unit :=
  let second (c1 : Client) : Async unit :=
    match invalidationClient (redisConnectionManager c1) with
    | Some cl =>
        Await cl QUIT c1 (fun r c2 =>
          match r with
          | inl e => Done (inl e) c2
          | inr _ => Done (inr tt) c2
          end)
    | None => Done (inr tt) c1
    end in
  match dataClient (redisConnectionManager c) with
  | Some cl =>
      Await cl QUIT c (fun r c1 =>
        match r with
        | inl e => Done (inl e) c1
        | inr _ => second c1
        end)
  | None => second c
  end.

End ConnectionManager.

(** ** [src/Serializers/MsgpackSerializer.ts] and [src/config.ts] *)

Section Defaults.
(** [pack] and [unpack] of the library [msgpackr]. *)
Variable pack : value -> string.
Variable unpack : string -> Error + value.

Definition MsgpackSerializer : ISerializer :=
  {| requiresBuffer := true; serialize := pack; deserialize := unpack |}.

Definition defaultConfig : TTL * string * ISerializer * Z :=
  ("1 hour", "cache:", MsgpackSerializer, 10000%Z).

(** [{ ...defaultConfig, ...config }] *)
Definition merge_config (cfg : CacheConfig.t) : Required.t :=
  let '(d_ttl, d_prefix, d_serializer, d_scanKeysCount) := defaultConfig in
  {| Required.uri := CacheConfig.uri cfg;
     Required.ttl := default d_ttl (CacheConfig.ttl cfg);
     Required.prefix := default d_prefix (CacheConfig.prefix cfg);
     Required.serializer := default d_serializer (CacheConfig.serializer cfg);
     Required.localCacheManager := CacheConfig.localCacheManager cfg;
     Required.scanKeysCount :=
       default d_scanKeysCount (CacheConfig.scanKeysCount cfg) |}.
End Defaults.

Definition with_prefix (cfg : Required.t) (p : string) : Required.t :=
  {| Required.uri := Required.uri cfg; Required.ttl := Required.ttl cfg;
     Required.prefix := p;
     Required.serializer := Required.serializer cfg;
     Required.localCacheManager := Required.localCacheManager cfg;
     Required.scanKeysCount := Required.scanKeysCount cfg |}.

(** ** The class [RedisCacheClient] *)

Module RedisCacheClient.
Section Methods.
(** The function [ms] of the library of that name: a duration string to
    milliseconds. *)
Variable ms : TTL -> Q.
Variable pack : value -> string.
Variable unpack : string -> Error + value.

(** The quotient, exactly: this is the number as [EX] carries it to the
    store. *)
Definition getTtlFromString (t : TTL) : Q :=
  (Qmax (ms t) 1000 / 1000)%Q.

(** [convertOptions]: [None] is [undefined]; [Some o] is the object
    [{ ttl: o }].  The product is taken in floating point, on the double
    that [getTtlFromString] returns. *)
Definition convertOptions (options : option SetOptions.t) : option (option Q) :=
  match options with
  | None => None
  | Some o =>
      Some (match SetOptions.ttl o with
            | Some t =>
                if truthy t
                then Some (binary64 (binary64 (getTtlFromString t) * 1000))
                else None
            | None => None
            end)
  end.

Definition new (cfg : CacheConfig.t) : Client :=
  let merged := merge_config pack unpack cfg in
  let merged :=
    if endsWith (Required.prefix merged) ":" then merged
    else with_prefix merged (Required.prefix merged +:+ ":") in
  {| invalidationClientId := None;
     config := merged;
     localCacheManager := Required.localCacheManager merged;
     redisConnectionManager := ConnectionManager.initializeClients (Required.uri merged);
     reconnecting := false;
     connected := false;
     default_ttl := getTtlFromString (Required.ttl merged);
     error_listeners := 0;
     emitted := [] |}.

Definition isReady (c : Client) : Error + unit :=
  if negb (connected c) || reconnecting c then inl CacheErrors.NotReady
  else inr tt.

Definition generateKey (c : Client) (key : string) : string :=
  Required.prefix (config c) +:+ key.

Definition handleClientError (error : Error) (c : Client) : Async unit :=
  match emit c (EvError error) with
  | inl e => Done (inl e) c
  | inr c => Done (inr tt) (with_cache c (ILocalCacheManager.clear (localCacheManager c)))
  end.

(** [handleConnectionLost], up to its first suspension (the [await] of
    [close()] at the head of the reconnect loop); the method in full is
    [Reconnection.handleConnectionLost].  An event other than ['error'] is
    never thrown, so the first branch of the [match] is not taken. *)
Definition handleConnectionLost (c : Client) : Client :=
  let c := with_connected c false in
  if negb (reconnecting c)
  then
    match emit c EvReconnecting with
    | inl _ => c
    | inr c => with_reconnecting c true
    end
  else c.

Definition handleInvalidation (keys : list string) (c : Client) : Client :=
  with_cache c (foldl ILocalCacheManager.delete (localCacheManager c) keys).

(** The listeners of a session, with the handlers the constructor binds:
    the client state a listener leaves when it first yields control. *)
Definition on_session_event (s : Session) (ev : ClientEvent) : Client -> Client :=
  ConnectionManager.listeners
    (fun error c => first_state (handleClientError error c))
    handleConnectionLost s ev.

(** *** [mset], [set] *)

(** The [ttl] constant of [mset]. *)
Definition mset_ttl (options : option SetOptions.t) (c : Client) : Q :=
  match options with
  | Some {| SetOptions.ttl := Some t |} =>
      if truthy t then getTtlFromString t else default_ttl c
  | _ => default_ttl c
  end.

(** The [entries.map] of [mset]: each entry is written to the local cache
    and paired with its serialization. *)
Definition mset_entry (options : option SetOptions.t) (c : Client)
    (acc : gmap string entry * list (string * string)) (e : string * value)
    : gmap string entry * list (string * string) :=
  let '(key, v) := e in
  let fullKey := generateKey c key in
  let serializedValue := serialize (Required.serializer (config c)) v in
  (ILocalCacheManager.set acc.1 fullKey (Plain v) (convertOptions options),
   acc.2 ++ [(fullKey, serializedValue)]).

Definition mset (entries : list (string * value)) (options : option SetOptions.t)
    (c : Client) : Async unit :=
  match isReady c with
  | inl e => Done (inl e) c
  | inr _ =>
    if (length entries =? 0)%nat then Done (inr tt) c
    else
      let ttl := mset_ttl options c in
      let dataClient := getDataClient (redisConnectionManager c) in
      let '(m, serializedEntries) := foldl (mset_entry options c) (localCacheManager c, []) entries in
      let c1 := with_cache c m in
      callAll dataClient (map (fun '(key, v) => SET key v ttl) serializedEntries) c1
        (fun r c2 =>
           match r with
           | inl e => Done (inl e) c2
           | inr _ =>
               call dataClient (TOUCH (map fst serializedEntries)) c2
                 (fun r c3 =>
                    match r with
                    | inl e => Done (inl e) c3
                    | inr _ => Done (inr tt) c3
                    end)
           end)
  end.

Definition set (key : string) (v : value) (options : option SetOptions.t)
    (c : Client) : Async unit :=
  bind (mset [(key, v)] options c) (fun _ c' => Done (inr tt) c').

(** *** [mget], [get] *)

(** The state of the first loop: the local cache, [result], [uncachedKeys]. *)
Definition scan_state : Type := gmap string entry * object * list string.

Definition mget_scan_body (keys fullKeys : list string) (i : nat)
    (st : scan_state) : scan_state :=
  let '(m, result, uncachedKeys) := st in
  let fullKey := fullKeys !!! i in
  let cachedItem := ILocalCacheManager.get m fullKey in
  match cachedItem with
  | CACHING_IN_PROGRESS =>
      (* being fetched by another request *)
      (m, assign result (keys !!! i) VUndefined, uncachedKeys)
  | Plain VUndefined =>
      (ILocalCacheManager.set m fullKey CACHING_IN_PROGRESS None,
       result, uncachedKeys ++ [fullKey])
  | Plain v =>
      (m, assign result (keys !!! i) v, uncachedKeys)
  end.

Definition mget_scan (keys fullKeys : list string) (m : gmap string entry)
    : scan_state :=
  for_range (length fullKeys) (mget_scan_body keys fullKeys) (m, ∅, []).

(** A reply of the store as the JavaScript value it is. *)
Definition raw (ser : ISerializer) (s : string) : value :=
  if requiresBuffer ser then VBuffer s else VString s.

(** The state of the two loops after the read: the local cache and [result]. *)
Definition settle_state : Type := gmap string entry * object.

(** The body of the loop in the [try] block.  [cachedValues !! i] is
    [None] when the reply is shorter than the request ([undefined]),
    [Some None] for [null]. *)
Definition mget_settle_body (ser : ISerializer) (keys fullKeys : list string)
    (cachedValues : list (option string)) (i : nat) (st : settle_state)
    : settle_state * option Error :=
  let '(m, result) := st in
  let key := keys !!! i in
  let fullKey := fullKeys !!! i in
  let cachedValue := cachedValues !! i in
  let cachedItem := ILocalCacheManager.get m fullKey in
  match cachedItem with
  | Plain v =>
      (* cachedItem !== CACHING_IN_PROGRESS *)
      let fromStore :=
        match cachedValue with
        | Some (Some s) => raw ser s
        | Some None => VNull
        | None => VUndefined
        end in
      ((m, assign result key (nullish (nullish fromStore v) VUndefined)), None)
  | CACHING_IN_PROGRESS =>
      match cachedValue with
      | Some None =>
          ((ILocalCacheManager.delete m fullKey, assign result key VUndefined), None)
      | Some (Some s) =>
          match deserialize ser s with
          | inr parsedValue =>
              ((ILocalCacheManager.set m fullKey (Plain parsedValue) None,
                assign result key parsedValue), None)
          | inl e => ((m, result), Some e)
          end
      | None =>
          ((m, result), Some (TypeError "deserialize of undefined"))
      end
  end.

(** The body of the loop in the [catch] block. *)
Definition mget_catch_body (keys fullKeys : list string) (i : nat)
    (st : settle_state) : settle_state :=
  let '(m, result) := st in
  (ILocalCacheManager.delete m (fullKeys !!! i), assign result (keys !!! i) VUndefined).

(** The [catch] block: when the [emit] throws, the loop does not run. *)
Definition mget_catch (keys fullKeys uncachedKeys : list string) (error : Error)
    (result : object) (c : Client) : Async object :=
  match emit c (EvError error) with
  | inl e => Done (inl e) c
  | inr c =>
      let '(m, result) :=
        for_range (length uncachedKeys) (mget_catch_body keys fullKeys)
          (localCacheManager c, result) in
      Done (inr result) (with_cache c m)
  end.

(** What [mget] does once the batched read has settled. *)
Definition mget_settle (keys fullKeys uncachedKeys : list string)
    (result : object) (r : Error + list (option string)) (c : Client)
    : Async object :=
  match r with
  | inr cachedValues =>
      match for_range_try (length uncachedKeys)
              (mget_settle_body (Required.serializer (config c)) keys fullKeys cachedValues)
              (localCacheManager c, result) with
      | ((m, result), None) => Done (inr result) (with_cache c m)
      | ((m, result), Some error) =>
          mget_catch keys fullKeys uncachedKeys error result (with_cache c m)
      end
  | inl error => mget_catch keys fullKeys uncachedKeys error result c
  end.

Definition mget (keys : list string) (c : Client) : Async object :=
  match isReady c with
  | inl e => Done (inl e) c
  | inr _ =>
    let fullKeys := map (generateKey c) keys in
    let dataClient := getDataClient (redisConnectionManager c) in
    let '(m, result, uncachedKeys) := mget_scan keys fullKeys (localCacheManager c) in
    let c1 := with_cache c m in
    if (length uncachedKeys =? 0)%nat then Done (inr result) c1
    else
      call dataClient
        (MGET (requiresBuffer (Required.serializer (config c))) uncachedKeys) c1
        (mget_settle keys fullKeys uncachedKeys result)
  end.

Definition get (key : string) (c : Client) : Async value :=
  bind (mget [key] c) (fun result c' =>
    Done (inr (nullish (property result key) VNull)) c').

(** *** [mdel], [delete] *)

Definition mdel (keys : list string) (c : Client) : Async unit :=
  match isReady c with
  | inl e => Done (inl e) c
  | inr _ =>
    let fullKeys := map (generateKey c) keys in
    let dataClient := getDataClient (redisConnectionManager c) in
    call dataClient (DEL fullKeys) c (fun r c1 =>
      match r with
      | inl e => Done (inl e) c1
      | inr _ =>
          Done (inr tt)
            (with_cache c1 (foldl ILocalCacheManager.delete (localCacheManager c1) fullKeys))
      end)
  end.

Definition delete (key : string) (c : Client) : Async unit :=
  bind (mdel [key] c) (fun _ c' => Done (inr tt) c').

(** *** [clear] *)

Definition clear (c : Client) : Async unit :=
  match isReady c with
  | inl e => Done (inl e) c
  | inr _ =>
    let dataClient := getDataClient (redisConnectionManager c) in
    call dataClient (KEYS (Required.prefix (config c) +:+ "*")) c (fun r c1 =>
      match r with
      | inl e => Done (inl e) c1
      | inr keys =>
          let finish (c2 : Client) : Async unit :=
            Done (inr tt) (with_cache c2 (ILocalCacheManager.clear (localCacheManager c2))) in
          if (0 <? length keys)%nat then
            call dataClient (DEL keys) c1 (fun r c2 =>
              match r with
              | inl e => Done (inl e) c2
              | inr _ => finish c2
              end)
          else finish c1
      end)
  end.

(** *** [keys] *)

(** [None] is the default pattern ["*"].  The [for await] over
    [scanIterator] is one awaited command whose reply is the sequence of
    keys the iterator yields. *)
Definition keys (pattern : option string) (c : Client) : Async (list string) :=
  let pattern := default "*" pattern in
  match isReady c with
  | inl e => Done (inl e) c
  | inr _ =>
    let dataClient := getDataClient (redisConnectionManager c) in
    let prefixLength := String.length (Required.prefix (config c)) in
    let patternWithPrefix := generateKey c pattern in
    call dataClient
      (SCAN_ITERATOR patternWithPrefix (Required.scanKeysCount (config c))) c
      (fun r c1 =>
         match r with
         | inl e => Done (inl e) c1
         | inr yielded =>
             Done (inr (foldl (fun acc key => Set_add acc (slice prefixLength key))
                              [] yielded)) c1
         end)
  end.

(** *** [ttl] *)

Definition ttl (key : string) (c : Client) : Async Z :=
  match isReady c with
  | inl e => Done (inl e) c
  | inr _ =>
    let dataClient := getDataClient (redisConnectionManager c) in
    let fullKey := generateKey c key in
    call dataClient (TTL_QUERY fullKey) c (fun r c1 =>
      match r with
      | inl e => Done (inl e) c1
      | inr t =>
          if (t =? -2)%Z
          then Done (inr t) (with_cache c1 (ILocalCacheManager.delete (localCacheManager c1) fullKey))
          else Done (inr t) c1
      end)
  end.

(** *** [close] *)

Definition close (c : Client) : Async unit :=
  match isReady c with
  | inl e => Done (inl e) c
  | inr _ =>
    bind (ConnectionManager.closeClients c) (fun _ c1 =>
      let c2 := with_connected c1 false in
      Done (inr tt) (with_cache c2 (ILocalCacheManager.clear (localCacheManager c2))))
  end.

(** *** [setLocal] *)

Definition setLocal (key : string) (v : value) (options : option SetOptions.t)
    (c : Client) : Async unit :=
  Done (inr tt)
    (with_cache c
       (ILocalCacheManager.set (localCacheManager c) (generateKey c key) (Plain v)
          (convertOptions options))).

End Methods.
End RedisCacheClient.

(** ** Running an operation to its end *)

(** A backing store: how it answers a command and what it becomes. *)
Record Backend (St : Type) : Type := {
  exec : forall R : Type, RedisClientType -> command R -> St -> (Error + R) * St
}.
Arguments exec {St} b {R} on cmd st.

(** [Promise.all]: every command is issued; the result is the list of the
    replies, or the first rejection. *)
Fixpoint all_settled {R : Type} (rs : list (Error + R)) : Error + list R :=
  match rs with
  | [] => inr []
  | inl e :: _ => inl e
  | inr x :: rest =>
      match all_settled rest with
      | inl e => inl e
      | inr xs => inr (x :: xs)
      end
  end.

Definition exec_all {St R : Type} (b : Backend St) (on : RedisClientType)
    (cmds : list (command R)) (st : St) : list (Error + R) * St :=
  foldl (fun acc cmd =>
           let '(r, st') := exec b on cmd acc.2 in (acc.1 ++ [r], st'))
        ([], st) cmds.

(** The operation runs alone: nothing else touches the client between the
    moment it awaits and the moment it resumes. *)
Fixpoint run {St A : Type} (b : Backend St) (m : Async A) (st : St)
    : (Error + A) * Client * St :=
  match m with
  | Done r c => (r, c, st)
  | Await on cmd c k =>
      let '(r, st') := exec b on cmd st in run b (k r c) st'
  | AwaitAll on cmds c k =>
      let '(rs, st') := exec_all b on cmds st in run b (k (all_settled rs) c) st'
  end.

(** The local write of the first loop of [mget] at a miss. *)
Definition mark (m : gmap string entry) (fullKey : string) : gmap string entry :=
  ILocalCacheManager.set m fullKey CACHING_IN_PROGRESS None.

(** ** What an operation sends to the store *)




(** The parts of the outcome of [run]. *)
Definition outcome {A St : Type} (x : (Error + A) * Client * St) : Error + A := x.1.1.
Definition final {A St : Type} (x : (Error + A) * Client * St) : Client := x.1.2.
Definition backend_state {A St : Type} (x : (Error + A) * Client * St) : St := x.2.

(** A command together with the session it is sent on. *)
Definition issued : Type := Session * { R : Type & command R }.

Definition sent {R : Type} (s : Session) (cmd : command R) : issued :=
  (s, existT R cmd).

(** A backend that also keeps the log of the commands it receives. *)
Definition logging {St : Type} (b : Backend St) : Backend (St * list issued) :=
  {| exec := fun R on cmd st =>
       let '(r, s') := exec b on cmd st.1 in
       (r, (s', st.2 ++ [sent (session on) cmd])) |}.

(** The [QUIT]s that closing the sessions of a client sends: one for each
    session that is there, the data session first. *)
Definition quits (c : Client) : list issued :=
  match dataClient (redisConnectionManager c) with
  | Some cl => [sent (session cl) QUIT]
  | None => []
  end ++
  match invalidationClient (redisConnectionManager c) with
  | Some cl => [sent (session cl) QUIT]
  | None => []
  end.

(** ** Instances for the examples *)

Module Fixtures.

(** The values of [ms] on the duration strings of the examples. *)
Definition ms (t : TTL) : Q :=
  if String.eqb t "1 hour" then 3600000
  else if String.eqb t "2s" then 2000
  else if String.eqb t "1500ms" then 1500
  else if String.eqb t "1001ms" then 1001
  else if String.eqb t "1s" then 1000
  else if String.eqb t "500ms" then 500
  else 0.

(** A stand-in for [msgpackr]: a tag followed by the payload. *)
Definition digit_of (a : Ascii.ascii) : option Z :=
  let n := (Z.of_nat (Ascii.nat_of_ascii a) - 48)%Z in
  if ((0 <=? n) && (n <=? 9))%Z then Some n else None.

Fixpoint parse_digits (s : string) (acc : Z) : option Z :=
  match s with
  | EmptyString => Some acc
  | String a s' =>
      match digit_of a with
      | Some d => parse_digits s' (10 * acc + d)%Z
      | None => None
      end
  end.

Definition pack (v : value) : string :=
  match v with
  | VUndefined => "u"
  | VNull => "n"
  | VBoolean true => "t"
  | VBoolean false => "f"
  | VNumber n => if (0 <=? n)%Z then "i" +:+ pretty n else "j" +:+ pretty (- n)%Z
  | VString s => "s" +:+ s
  | VBuffer b => "b" +:+ b
  | VBuiltin _ => "o"
  end.

Definition unpack (s : string) : Error + value :=
  match s with
  | String "u"%char EmptyString => inr VUndefined
  | String "n"%char EmptyString => inr VNull
  | String "t"%char EmptyString => inr (VBoolean true)
  | String "f"%char EmptyString => inr (VBoolean false)
  | String "i"%char (String a d) =>
      match parse_digits (String a d) 0 with
      | Some n => inr (VNumber n)
      | None => inl (TypeError "malformed input")
      end
  | String "j"%char (String a d) =>
      match parse_digits (String a d) 0 with
      | Some n => inr (VNumber (- n))
      | None => inl (TypeError "malformed input")
      end
  | String "s"%char p => inr (VString p)
  | String "b"%char p => inr (VBuffer p)
  | _ => inl (TypeError "malformed input")
  end.

(** A client built by the constructor from the defaults. *)
Definition cfg : CacheConfig.t :=
  {| CacheConfig.uri := "redis://localhost:6379"; CacheConfig.ttl := None;
     CacheConfig.prefix := None; CacheConfig.serializer := None;
     CacheConfig.localCacheManager := ∅; CacheConfig.scanKeysCount := None |}.

Definition fresh : Client := RedisCacheClient.new ms pack unpack cfg.

(** The state a successful [connect()] leaves: both sessions are up, the
    tracking protocol has run and [connected] is set. *)
Definition connected_client (c : Client) : Client :=
  with_connected c true.

(** The client of the examples: the caller has attached an ['error']
    listener, then connected. *)
Definition client : Client := connected_client (on_error fresh).

(** The same without any listener. *)
Definition unobserved : Client := connected_client fresh.

(** An in-memory stand-in for the backing store: physical key to value and
    expiry in seconds.  Patterns understand [*] and [?]; character classes
    and escapes are taken literally. *)
Fixpoint glob (p k : string) : bool :=
  match p with
  | EmptyString => match k with EmptyString => true | _ => false end
  | String a p' =>
      if Ascii.eqb a "*"%char then
        (fix star (k : string) : bool :=
           glob p' k || match k with
                        | EmptyString => false
                        | String _ k' => star k'
                        end) k
      else
        match k with
        | EmptyString => false
        | String b k' => (Ascii.eqb a "?"%char || Ascii.eqb a b) && glob p' k'
        end
  end.

Definition count_present (db : gmap string (string * Q)) (ks : list string) : Z :=
  Z.of_nat (length (filter (fun k => is_Some (db !! k)) ks)).

Definition store_exec (R : Type) (on : RedisClientType) (cmd : command R)
    (db : gmap string (string * Q)) : (Error + R) * gmap string (string * Q) :=
  match cmd in command R return (Error + R) * gmap string (string * Q) with
  | SET key v ex => (inr tt, <[key := (v, ex)]> db)
  | TOUCH ks => (inr (count_present db ks), db)
  | MGET _ ks => (inr (map (fun k => fst <$> db !! k) ks), db)
  | DEL ks => (inr (count_present db ks), foldl (fun m k => base.delete k m) db ks)
  | KEYS p => (inr (filter (fun k => Is_true (glob p k)) (map fst (map_to_list db))), db)
  | SCAN_ITERATOR p _ =>
      (inr (filter (fun k => Is_true (glob p k)) (map fst (map_to_list db))), db)
  | TTL_QUERY key =>
      (inr (match db !! key with
            | Some (_, ex) => Qfloor ex
            | None => (-2)%Z
            end), db)
  | QUIT => (inr tt, db)
  end.

Definition store : Backend (gmap string (string * Q)) := {| exec := store_exec |}.

(** A store whose every command fails. *)
Definition broken : Backend unit :=
  {| exec := fun R _ _ st => (inl (StoreError "connection lost"), st) |}.

(** The states of the scenarios. *)

(** After [mset([["a", 1], ["b", 2]])] has run against an empty store. *)
Definition after_mset : (Error + unit) * Client * gmap string (string * Q) :=
  run store (RedisCacheClient.mset ms [("a", VNumber 1); ("b", VNumber 2)] None client) ∅.

(** After [set("a", 1)] has run against an empty store. *)
Definition after_set_a : (Error + unit) * Client * gmap string (string * Q) :=
  run store (RedisCacheClient.set ms "a" (VNumber 1) None client) ∅.

(** A store in which another client has written 3 under ["cache:c"]. *)
Definition store_with_c : gmap string (string * Q) :=
  {[ "cache:c" := (pack (VNumber 3), 60%Q) ]}.

(** The client while a [get("k")] of another caller is suspended on its
    store read. *)
Definition fetching_k : Client := first_state (RedisCacheClient.get "k" client).

(** A store with two keys of this client and one key of another namespace. *)
Definition shared_store : gmap string (string * Q) :=
  <[ "other:x" := (pack (VNumber 9), 60%Q) ]> (backend_state after_mset).

(** A client whose prefix holds a pattern character. *)
Definition pattern_client : Client :=
  connected_client
    (on_error
       (RedisCacheClient.new ms pack unpack
          {| CacheConfig.uri := "redis://localhost:6379"; CacheConfig.ttl := None;
             CacheConfig.prefix := Some "c?che:"; CacheConfig.serializer := None;
             CacheConfig.localCacheManager := ∅; CacheConfig.scanKeysCount := None |})).

End Fixtures.

(** ** Patterns

    The characters that [KEYS] and [SCAN ... MATCH] read as part of a glob
    pattern: [*], [?], [[] and the backslash. *)
Definition pattern_characters : list Ascii.ascii :=
  ["*"%char; "?"%char; "["%char; Ascii.ascii_of_nat 92].

Fixpoint literal (p : string) : bool :=
  match p with
  | EmptyString => true
  | String a p' => negb (bool_decide (a ∈ pattern_characters)) && literal p'
  end.

(** ** The invalidation channel *)

(** What the listener of ["__redis__:invalidate"] may be handed: [null], an
    array of physical keys, or something else. *)
Inductive Message : Type :=
| MNull
| MArray (keys : list string)
| MOther (s : string).

(** The listener that [configureTracking] subscribes. *)
Definition invalidation_listener (message : Message) (c : Client) : Client :=
  match message with
  | MNull => c
  | MArray keys => RedisCacheClient.handleInvalidation keys c
  | MOther _ => c
  end.

(** ** Connecting and reconnecting

    [connectClients] of the connection manager and [configureTracking],
    [connect], [attemptReconnect], [handleConnectionLost] of the client.  The
    reconnect loop need not end: it is defined with fuel, which bounds both
    the rounds of the [while] loop and the depth of the calls between
    [connect] and [attemptReconnect]. *)

Module Reconnection.

(** What these methods await on a session, indexed by the type of the
    reply: [connect()], [sendCommand(args)] (a number or [null]),
    [subscribe(channel, listener)], and the store commands of the data
    operations. *)
Inductive request : Type -> Type :=
| CONNECT : request unit
| SEND_COMMAND (args : list string) : request (option Z)
| SUBSCRIBE (channel : string) : request unit
| STORE {R : Type} (cmd : command R) : request R.

(** The resumptions of these methods.  Besides awaiting one request or, with
    [Promise.all], several, a method may await a timer ([Sleep]) and may call
    an [async] method without awaiting it ([Fork]: the method called runs up
    to its first suspension, then the caller goes on).  [OutOfFuel] marks the
    point where the fuel ran out. *)
Inductive Task (A : Type) : Type :=
| Finished (r : Error + A) (c : Client)
| Pending {R : Type} (on : RedisClientType) (req : request R) (c : Client)
    (k : Error + R -> Client -> Task A)
| PendingAll {R : Type} (reqs : list (RedisClientType * request R)) (c : Client)
    (k : Error + list R -> Client -> Task A)
| Sleep (milliseconds : Z) (c : Client) (k : Client -> Task A)
| Fork (child : Task unit) (rest : Task A)
| OutOfFuel (c : Client).

Arguments Finished {A} r c.
Arguments Pending {A R} on req c k.
Arguments PendingAll {A R} reqs c k.
Arguments Sleep {A} milliseconds c k.
Arguments Fork {A} child rest.
Arguments OutOfFuel {A} c.

(** [await m; f] *)
Fixpoint task_bind {A B : Type} (m : Task A) (f : A -> Client -> Task B) : Task B :=
  match m with
  | Finished (inl e) c => Finished (inl e) c
  | Finished (inr a) c => f a c
  | Pending on req c k => Pending on req c (fun r c' => task_bind (k r c') f)
  | PendingAll reqs c k => PendingAll reqs c (fun r c' => task_bind (k r c') f)
  | Sleep ms c k => Sleep ms c (fun c' => task_bind (k c') f)
  | Fork child rest => Fork child (task_bind rest f)
  | OutOfFuel c => OutOfFuel c
  end.

(** [try { m } catch (err) { handler }] *)
Fixpoint task_catch {A : Type} (m : Task A) (handler : Error -> Client -> Task A)
    : Task A :=
  match m with
  | Finished (inl e) c => handler e c
  | Finished (inr a) c => Finished (inr a) c
  | Pending on req c k => Pending on req c (fun r c' => task_catch (k r c') handler)
  | PendingAll reqs c k => PendingAll reqs c (fun r c' => task_catch (k r c') handler)
  | Sleep ms c k => Sleep ms c (fun c' => task_catch (k c') handler)
  | Fork child rest => Fork child (task_catch rest handler)
  | OutOfFuel c => OutOfFuel c
  end.

(** A data operation seen as a task. *)
Fixpoint lift {A : Type} (m : Async A) : Task A :=
  match m with
  | Done r c => Finished r c
  | Await on cmd c k => Pending on (STORE cmd) c (fun r c' => lift (k r c'))
  | AwaitAll on cmds c k =>
      PendingAll (map (fun cmd => (on, STORE cmd)) cmds) c (fun r c' => lift (k r c'))
  end.

(** The client state a task leaves when it first yields control. *)
Fixpoint task_first_state {A : Type} (m : Task A) : Client :=
  match m with
  | Finished _ c => c
  | Pending _ _ c _ => c
  | PendingAll _ c _ => c
  | Sleep _ c _ => c
  | Fork child _ => task_first_state child
  | OutOfFuel c => c
  end.

Definition task_call {A R : Type} (cl : option RedisClientType) (req : request R)
    (c : Client) (k : Error + R -> Client -> Task A) : Task A :=
  match cl with
  | Some on => Pending on req c k
  | None => k (inl (TypeError "Cannot read properties of undefined")) c
  end.

Definition with_invalidationClientId (c : Client) (id : option Z) : Client :=
  {| invalidationClientId := id; config := config c;
     localCacheManager := localCacheManager c;
     redisConnectionManager := redisConnectionManager c;
     reconnecting := reconnecting c; connected := connected c;
     default_ttl := default_ttl c;
     error_listeners := error_listeners c; emitted := emitted c |}.

(** [connectClients]: both sessions are asked to connect at once; the
    session returned is the invalidation session.  The call of [connect()] on
    an absent session throws on the spot; when only the invalidation session
    is absent the data session has been asked to connect already and nobody
    awaits it. *)
Definition connectClients (c : Client) : Task (option RedisClientType) :=
  match dataClient (redisConnectionManager c) with
  | None => Finished (inl (TypeError "Cannot read properties of undefined")) c
  | Some d =>
      match invalidationClient (redisConnectionManager c) with
      | None =>
          Fork (Pending d CONNECT c (fun _ c' => Finished (inr tt) c'))
               (Finished (inl (TypeError "Cannot read properties of undefined")) c)
      | Some i =>
          PendingAll [(d, CONNECT); (i, CONNECT)] c (fun r c1 =>
            match r with
            | inl e => Finished (inl e) c1
            | inr _ => Finished (inr (invalidationClient (redisConnectionManager c1))) c1
            end)
      end
  end.

(** [!id] for a number or [null]. *)
Definition falsy (id : option Z) : bool :=
  match id with
  | None => true
  | Some n => (n =? 0)%Z
  end.

(** [configureTracking] *)
Definition configureTracking (c : Client) : Task unit :=
  let dataClient := getDataClient (redisConnectionManager c) in
  let invalidationClient := getInvalidationClient (redisConnectionManager c) in
  task_call invalidationClient (SEND_COMMAND ["CLIENT"; "ID"]) c (fun r c1 =>
    match r with
    | inl e => Finished (inl e) c1
    | inr id =>
        let c2 := with_invalidationClientId c1 id in
        if falsy id then Finished (inl CacheErrors.MissingClientId) c2
        else
          task_call dataClient
            (SEND_COMMAND ["CLIENT"; "TRACKING"; "ON"; "REDIRECT";
                           pretty (default 0%Z id); "NOLOOP"]) c2
            (fun r c3 =>
               match r with
               | inl e => Finished (inl e) c3
               | inr _ =>
                   task_call invalidationClient (SUBSCRIBE "__redis__:invalidate") c3
                     (fun r c4 =>
                        match r with
                        | inl e => Finished (inl e) c4
                        | inr _ => Finished (inr tt) c4
                        end)
               end)
    end).

(** [this.emit("error", err); rest]: when the [emit] throws, the error
    leaves the block and [rest] does not run. *)
Definition emit_error {A : Type} (err : Error) (c : Client) (rest : Client -> Task A)
    : Task A :=
  match emit c (EvError err) with
  | inl e => Finished (inl e) c
  | inr c' => rest c'
  end.

(** [connect], given the [attemptReconnect] it calls in its [catch]. *)
Definition connect (attemptReconnect : Client -> Task unit) (c : Client) : Task unit :=
  task_catch
    (task_bind (connectClients c) (fun _ c1 =>
       task_bind (configureTracking c1) (fun _ c2 =>
         Finished (inr tt) (with_connected c2 true))))
    (fun err c' => emit_error err c' attemptReconnect).

(** One round of the [while] loop of [attemptReconnect], given the method
    itself for the calls in [connect] and in the [catch]. *)
Definition reconnect_round (self : Client -> Task unit) (c : Client) : Task unit :=
  task_catch
    (task_bind
       (task_catch (lift (RedisCacheClient.close c))
          (fun err c' => emit_error err c' (fun c'' => Finished (inr tt) c'')))
       (fun _ c1 =>
          task_bind (connect self c1) (fun _ c2 =>
            Finished (inr tt) (with_reconnecting c2 false))))
    (fun err c' =>
       emit_error err c' (fun c'' =>
         Sleep 1000 c'' (fun c3 =>
           Fork (self c3) (Finished (inr tt) (task_first_state (self c3)))))).

(** [while (this.reconnecting) { round }] *)
Fixpoint reconnect_loop (self : Client -> Task unit) (rounds : nat) (c : Client)
    : Task unit :=
  if reconnecting c then
    match rounds with
    | O => OutOfFuel c
    | S rounds' =>
        task_bind (reconnect_round self c) (fun _ c' => reconnect_loop self rounds' c')
    end
  else Finished (inr tt) c.

Fixpoint attemptReconnect (fuel : nat) (c : Client) : Task unit :=
  match fuel with
  | O => OutOfFuel c
  | S fuel' =>
      reconnect_loop (attemptReconnect fuel') (S fuel') (with_reconnecting c true)
  end.

(** [handleConnectionLost], in full. *)
Definition handleConnectionLost (fuel : nat) (c : Client) : Task unit :=
  let c := with_connected c false in
  if negb (reconnecting c)
  then
    match emit c EvReconnecting with
    | inl e => Finished (inl e) c
    | inr c' => attemptReconnect fuel c'
    end
  else Finished (inr tt) c.

(** *** Running a task alone *)

(** A server: how it answers a request and what it becomes, and what
    becomes of it while a timer runs. *)
Record Server (St : Type) : Type := {
  answer : forall R : Type, RedisClientType -> request R -> St -> (Error + R) * St;
  elapse : Z -> St -> St
}.
Arguments answer {St} s {R} on req st.
Arguments elapse {St} s milliseconds st.

Definition answer_all {St R : Type} (s : Server St)
    (reqs : list (RedisClientType * request R)) (st : St) : list (Error + R) * St :=
  foldl (fun acc req =>
           let '(r, st') := answer s req.1 req.2 acc.2 in (acc.1 ++ [r], st'))
        ([], st) reqs.

(** The task runs with nothing else touching the client.  [None]: the fuel
    ran out, or the task called a method without awaiting it, which running
    alone does not cover. *)
Fixpoint run_task {St A : Type} (s : Server St) (m : Task A) (st : St)
    : option ((Error + A) * Client * St) :=
  match m with
  | Finished r c => Some (r, c, st)
  | Pending on req c k =>
      let '(r, st') := answer s on req st in run_task s (k r c) st'
  | PendingAll reqs c k =>
      let '(rs, st') := answer_all s reqs st in run_task s (k (all_settled rs) c) st'
  | Sleep ms c k => run_task s (k c) (elapse s ms st)
  | Fork _ _ => None
  | OutOfFuel _ => None
  end.

(** What was asked of the sessions, and the timers awaited. *)
Inductive asked : Type :=
| Asked {R : Type} (s : Session) (req : request R)
| Slept (milliseconds : Z).

(** A server that refuses the next [n] connections of the data session and
    accepts every other connection (a session may be asked to connect again
    after it has connected: nothing closes it in between), answers
    [CLIENT ID] with [id], accepts the other commands of the protocol and
    refuses store commands.  Its state is [n] and the log of what it was
    asked. *)
Definition flaky_answer (id : option Z) (R : Type) (on : RedisClientType)
    (req : request R) (st : nat * list asked) : (Error + R) * (nat * list asked) :=
  let log := st.2 ++ [Asked (session on) req] in
  match req in request R return (Error + R) * (nat * list asked) with
  | CONNECT =>
      match session on, st.1 with
      | DataSession, S n => (inl (StoreError "connection refused"), (n, log))
      | _, _ => (inr tt, (st.1, log))
      end
  | SEND_COMMAND args =>
      match args with
      | ["CLIENT"; "ID"] => (inr id, (st.1, log))
      | _ => (inr None, (st.1, log))
      end
  | SUBSCRIBE _ => (inr tt, (st.1, log))
  | STORE _ => (inl (StoreError "not connected"), (st.1, log))
  end.

Definition flaky (id : option Z) : Server (nat * list asked) :=
  {| answer := flaky_answer id;
     elapse := fun ms st => (st.1, st.2 ++ [Slept ms]) |}.

(** The events of [n] failed rounds of the reconnect loop: each round emits
    the [NotReady] of its [close()] and the error of its [connect()]. *)
Definition failed_rounds (n : nat) : list Event :=
  concat (replicate n [EvError CacheErrors.NotReady;
                       EvError (StoreError "connection refused")]).

(** What [n] refused attempts to connect ask of the two sessions. *)
Definition refused_attempts (n : nat) : list asked :=
  concat (replicate n [Asked DataSession CONNECT; Asked InvalidationSession CONNECT]).

(** What a successful [connect] asks, given the identifier the invalidation
    session reports. *)
Definition handshake (id : Z) : list asked :=
  [Asked DataSession CONNECT;
   Asked InvalidationSession CONNECT;
   Asked InvalidationSession (SEND_COMMAND ["CLIENT"; "ID"]);
   Asked DataSession
     (SEND_COMMAND ["CLIENT"; "TRACKING"; "ON"; "REDIRECT"; pretty id; "NOLOOP"]);
   Asked InvalidationSession (SUBSCRIBE "__redis__:invalidate")].

End Reconnection.

(** * Properties *)



(** ** Readiness *)

Lemma isReady_ok (c : Client) :
  RedisCacheClient.isReady c = inr tt <-> connected c = true /\ reconnecting c = false.
Proof.
  unfold RedisCacheClient.isReady. destruct (connected c), (reconnecting c); simpl; split;
    intros; try discriminate; try tauto; destruct H; discriminate.
Qed.

Lemma isReady_not (c : Client) :
  connected c = false \/ reconnecting c = true ->
  RedisCacheClient.isReady c = inl CacheErrors.NotReady.
Proof.
  unfold RedisCacheClient.isReady. intros [-> | ->]; [done|].
  by destruct (connected c).
Qed.

Lemma isReady_cases (c : Client) :
  RedisCacheClient.isReady c = inr tt \/ RedisCacheClient.isReady c = inl CacheErrors.NotReady.
Proof. unfold RedisCacheClient.isReady. destruct (negb (connected c) || reconnecting c); auto. Qed.

(** ** The local cache *)

Lemma cache_get_set (m : gmap string entry) (k : string) (v : item) o :
  ILocalCacheManager.get (ILocalCacheManager.set m k v o) k = v.
Proof.
  unfold ILocalCacheManager.get, ILocalCacheManager.set.
  by rewrite lookup_insert_eq.
Qed.

Lemma cache_get_set_ne (m : gmap string entry) (k k' : string) (v : item) o :
  k <> k' ->
  ILocalCacheManager.get (ILocalCacheManager.set m k v o) k' = ILocalCacheManager.get m k'.
Proof.
  intros. unfold ILocalCacheManager.get, ILocalCacheManager.set.
  by rewrite lookup_insert_ne.
Qed.

Lemma cache_get_delete (m : gmap string entry) (k : string) :
  ILocalCacheManager.get (ILocalCacheManager.delete m k) k = Plain VUndefined.
Proof.
  unfold ILocalCacheManager.get, ILocalCacheManager.delete.
  by rewrite lookup_delete_eq.
Qed.

Lemma generateKey_inj (c : Client) (k1 k2 : string) :
  RedisCacheClient.generateKey c k1 = RedisCacheClient.generateKey c k2 -> k1 = k2.
Proof. unfold RedisCacheClient.generateKey. apply String.app_inj. Qed.

(** A string is not among the strings of a list given in full. *)
Ltac not_among :=
  let H := fresh in
  intros H; repeat (apply elem_of_cons in H as [H|H]; [discriminate H|]);
  by apply elem_of_nil in H.

(** ** Events *)

Lemma emit_listened (c : Client) (e : Error) :
  error_listeners c <> 0%nat -> emit c (EvError e) = inr (deliver c (EvError e)).
Proof. intros H. unfold emit. by destruct (error_listeners c). Qed.

Lemma emit_unhandled (c : Client) (e : Error) :
  error_listeners c = 0%nat -> emit c (EvError e) = inl e.
Proof. intros H. unfold emit. by rewrite H. Qed.

(** ** Transport errors *)

(** What the handler of a transport error leaves when somebody listens to
    the errors of the client. *)
Lemma error_event_handled (s : Session) (e : Error) (c : Client) :
  error_listeners c <> 0%nat ->
  let c' := RedisCacheClient.on_session_event s (OnError e) c in
  c' = with_cache (deliver c (EvError e)) ∅ /\
  localCacheManager c' = ∅ /\
  connected c' = connected c /\ reconnecting c' = reconnecting c /\
  config c' = config c /\
  redisConnectionManager c' = redisConnectionManager c.
Proof.
  intros Hl.
  assert (Hc' : RedisCacheClient.on_session_event s (OnError e) c
                = first_state (RedisCacheClient.handleClientError e c))
    by by destruct s.
  cbv zeta. rewrite Hc'. unfold RedisCacheClient.handleClientError.
  rewrite emit_listened by done. done.
Qed.

(** C10, as amended.  On an ['error'] event of either session the handler
    installed by [initializeClientEvents] is [handleClientError].  When the
    caller has attached an ['error'] listener to the client, the handler
    emits the error as an ['error'] event and then empties the whole local
    cache, whatever it held and under whatever prefix; nothing else of the
    client changes.  When no listener is attached the [emit] throws: the
    handler fails with the error and the local cache, like the rest of the
    client, is left as it was. *)
Theorem error_event_clears_local_cache (s : Session) (e : Error) (c : Client) :
  let c' := RedisCacheClient.on_session_event s (OnError e) c in
  (error_listeners c <> 0%nat ->
   RedisCacheClient.handleClientError e c = Done (inr tt) c' /\
   localCacheManager c' = ∅ /\
   (forall key : string,
      ILocalCacheManager.get (localCacheManager c') key = Plain VUndefined) /\
   emitted c' = emitted c ++ [EvError e] /\
   connected c' = connected c /\ reconnecting c' = reconnecting c /\
   config c' = config c) /\
  (error_listeners c = 0%nat ->
   RedisCacheClient.handleClientError e c = Done (inl e) c /\ c' = c).
Proof.
  assert (Hc' : RedisCacheClient.on_session_event s (OnError e) c
                = first_state (RedisCacheClient.handleClientError e c))
    by by destruct s.
  cbv zeta. rewrite Hc'. unfold RedisCacheClient.handleClientError. split; intros H.
  - rewrite emit_listened by done. simpl. repeat split; done.
  - rewrite emit_unhandled by done. done.
Qed.

Lemma error_event_clears_local_cache_witness :
  localCacheManager
    (RedisCacheClient.on_session_event DataSession (OnError (StoreError "socket closed"))
       (final Fixtures.after_set_a)) = ∅.
Proof.
  destruct (error_event_clears_local_cache DataSession (StoreError "socket closed")
              (final Fixtures.after_set_a)) as [H _].
  apply H. discriminate.
Defined.

(** C10, the claim as stated fails on a client to which no ['error']
    listener is attached, as it comes from the constructor: the handler
    throws at its [emit] and the entry in the local cache stays. *)
Lemma error_event_without_listener :
  let c := first_state (RedisCacheClient.setLocal Fixtures.ms "k" (VNumber 1) None
                          Fixtures.fresh) in
  let e := StoreError "socket closed" in
  let c' := RedisCacheClient.on_session_event DataSession (OnError e) c in
  error_listeners Fixtures.fresh = 0%nat /\
  RedisCacheClient.handleClientError e c = Done (inl e) c /\
  c' = c /\
  localCacheManager c' !! "cache:k" = Some {| stored := Plain (VNumber 1); ttl_ms := None |} /\
  emitted c' = [].
Proof. vm_compute. repeat split. Qed.

(** ** Readiness of the public operations *)

(** C6, as amended.  On a client that is not Ready (not connected, or
    reconnecting) each of [set], [mset], [get], [mget], [delete], [mdel],
    [clear], [keys] and [ttl] fails with [NotReady] before anything else:
    the client, its local cache included, is left as it was and no command is
    awaited.  [setLocal] has no readiness check: it succeeds and writes its
    entry to the local cache whatever the state. *)
Theorem not_ready_fails_fast (ms : TTL -> Q) (c : Client) :
  connected c = false \/ reconnecting c = true ->
  (forall key v options,
     RedisCacheClient.set ms key v options c = Done (inl CacheErrors.NotReady) c) /\
  (forall entries options,
     RedisCacheClient.mset ms entries options c = Done (inl CacheErrors.NotReady) c) /\
  (forall key, RedisCacheClient.get key c = Done (inl CacheErrors.NotReady) c) /\
  (forall keys, RedisCacheClient.mget keys c = Done (inl CacheErrors.NotReady) c) /\
  (forall key, RedisCacheClient.delete key c = Done (inl CacheErrors.NotReady) c) /\
  (forall keys, RedisCacheClient.mdel keys c = Done (inl CacheErrors.NotReady) c) /\
  RedisCacheClient.clear c = Done (inl CacheErrors.NotReady) c /\
  (forall pattern, RedisCacheClient.keys pattern c = Done (inl CacheErrors.NotReady) c) /\
  (forall key, RedisCacheClient.ttl key c = Done (inl CacheErrors.NotReady) c) /\
  (forall key v options,
     RedisCacheClient.setLocal ms key v options c =
       Done (inr tt)
         (with_cache c
            (ILocalCacheManager.set (localCacheManager c) (RedisCacheClient.generateKey c key)
               (Plain v) (RedisCacheClient.convertOptions ms options)))).
Proof.
  intros H. apply isReady_not in H.
  unfold RedisCacheClient.set, RedisCacheClient.get, RedisCacheClient.delete,
    RedisCacheClient.mset, RedisCacheClient.mget, RedisCacheClient.mdel,
    RedisCacheClient.clear, RedisCacheClient.keys, RedisCacheClient.ttl,
    RedisCacheClient.setLocal.
  rewrite H. simpl. repeat split.
Qed.

Lemma not_ready_fails_fast_witness :
  connected Fixtures.fresh = false /\
  RedisCacheClient.clear Fixtures.fresh = Done (inl CacheErrors.NotReady) Fixtures.fresh.
Proof.
  split; [reflexivity|].
  apply (not_ready_fails_fast Fixtures.ms Fixtures.fresh). left. reflexivity.
Defined.

(** C6, the claim as stated fails for [setLocal]: on a client that was never
    connected it does not throw and it writes to the local cache. *)
Lemma setLocal_ignores_readiness :
  let c := Fixtures.fresh in
  let r := RedisCacheClient.setLocal Fixtures.ms "k" (VNumber 1) None c in
  RedisCacheClient.isReady c = inl CacheErrors.NotReady /\
  settled r = Some (inr tt) /\
  localCacheManager c !! "cache:k" = None /\
  localCacheManager (first_state r) !! "cache:k" =
    Some {| stored := Plain (VNumber 1); ttl_ms := None |}.
Proof. vm_compute. repeat split. Qed.

(** ** The configuration is immutable

    No operation and no handler changes [config] or [#ttl]: in every state
    an operation exposes, at a suspension or at its end, they are what they
    were, whatever runs while it is suspended. *)

Lemma always_bind {A B : Type} (P : Client -> Prop) (m : Async A)
    (f : A -> Client -> Async B) :
  always P m -> (forall a c, P c -> always P (f a c)) -> always P (bind m f).
Proof.
  intros Hm Hf. induction m as [r c|R on cmd c k IH|R on cmds c k IH]; simpl in *.
  - destruct r as [e|a]; [done|]. by apply Hf.
  - destruct Hm as [Hc Hk]. split; [done|]. intros r c' Hc'. apply IH. by apply Hk.
  - destruct Hm as [Hc Hk]. split; [done|]. intros r c' Hc'. apply IH. by apply Hk.
Qed.

Lemma run_always {A St : Type} (P : Client -> Prop) (b : Backend St)
    (m : Async A) (st : St) :
  always P m -> P (final (run b m st)).
Proof.
  revert st.
  induction m as [r c|R on cmd c k IH|R on cmds c k IH]; intros st Hm; simpl in *.
  - done.
  - destruct Hm as [Hc Hk]. destruct (exec b on cmd st) as [r st'].
    apply IH. by apply Hk.
  - destruct Hm as [Hc Hk]. destruct (exec_all b on cmds st) as [r st'].
    apply IH. by apply Hk.
Qed.

Lemma emit_configured (cfg : Required.t) (d : Q) (c c' : Client) (ev : Event) :
  emit c ev = inr c' -> configured cfg d c -> configured cfg d c'.
Proof.
  unfold emit. destruct ev as [e|]; [destruct (error_listeners c =? 0)%nat|];
    intros [= <-]; done.
Qed.

Ltac stable :=
  repeat match goal with
  | H : emit ?c _ = inr ?c', Hc : configured _ _ ?c |- _ =>
      pose proof (emit_configured _ _ _ _ _ H Hc); clear H
  | H : emit (with_cache ?c _) _ = inr ?c', Hc : configured _ _ ?c |- _ =>
      pose proof (emit_configured _ _ _ _ _ H Hc); clear H
  | |- always _ (match ?x with _ => _ end) => destruct x eqn:?
  | |- always _ (if ?x then _ else _) => destruct x eqn:?
  | |- always _ (let '(_, _) := ?x in _) => destruct x eqn:?
  | |- always _ (call _ _ _ _) => unfold call
  | |- always _ (callAll _ _ _ _) => unfold callAll
  | |- always _ (bind _ _) => apply always_bind
  | |- always _ (Done _ _) => simpl
  | |- always _ (Await _ _ _ _) => simpl; split
  | |- always _ (AwaitAll _ _ _ _) => simpl; split
  | |- forall _, _ => intro
  | H : configured _ _ ?c |- configured _ _ _ => exact H
  end.

Section Stable.
Variable ms : TTL -> Q.
Variable cfg : Required.t.
Variable d : Q.

Lemma mset_stable entries options c :
  configured cfg d c ->
  always (configured cfg d) (RedisCacheClient.mset ms entries options c).
Proof. intros Hc. unfold RedisCacheClient.mset. stable. Qed.

Lemma mget_stable keys c :
  configured cfg d c -> always (configured cfg d) (RedisCacheClient.mget keys c).
Proof.
  intros Hc. unfold RedisCacheClient.mget. stable.
  all: unfold RedisCacheClient.mget_settle, RedisCacheClient.mget_catch; stable.
Qed.

Lemma mdel_stable keys c :
  configured cfg d c -> always (configured cfg d) (RedisCacheClient.mdel keys c).
Proof. intros Hc. unfold RedisCacheClient.mdel. stable. Qed.

Lemma clear_stable c :
  configured cfg d c -> always (configured cfg d) (RedisCacheClient.clear c).
Proof. intros Hc. unfold RedisCacheClient.clear. stable. Qed.

Lemma keys_stable pattern c :
  configured cfg d c -> always (configured cfg d) (RedisCacheClient.keys pattern c).
Proof. intros Hc. unfold RedisCacheClient.keys. stable. Qed.

Lemma ttl_stable key c :
  configured cfg d c -> always (configured cfg d) (RedisCacheClient.ttl key c).
Proof. intros Hc. unfold RedisCacheClient.ttl. stable. Qed.

Lemma close_stable c :
  configured cfg d c -> always (configured cfg d) (RedisCacheClient.close c).
Proof.
  intros Hc. unfold RedisCacheClient.close, ConnectionManager.closeClients. stable.
Qed.

Lemma setLocal_stable key v options c :
  configured cfg d c ->
  always (configured cfg d) (RedisCacheClient.setLocal ms key v options c).
Proof. intros Hc. unfold RedisCacheClient.setLocal. stable. Qed.

Lemma set_stable key v options c :
  configured cfg d c ->
  always (configured cfg d) (RedisCacheClient.set ms key v options c).
Proof. intros Hc. unfold RedisCacheClient.set. stable. by apply mset_stable. Qed.

Lemma get_stable key c :
  configured cfg d c -> always (configured cfg d) (RedisCacheClient.get key c).
Proof. intros Hc. unfold RedisCacheClient.get. stable. by apply mget_stable. Qed.

Lemma delete_stable key c :
  configured cfg d c -> always (configured cfg d) (RedisCacheClient.delete key c).
Proof. intros Hc. unfold RedisCacheClient.delete. stable. by apply mdel_stable. Qed.

Lemma handlers_stable (s : Session) (ev : ClientEvent) (keys : list string) c :
  configured cfg d c ->
  configured cfg d (RedisCacheClient.on_session_event s ev c) /\
  configured cfg d (RedisCacheClient.handleInvalidation keys c).
Proof.
  intros Hc. split; [|exact Hc].
  destruct s, ev; simpl; try exact Hc;
    unfold RedisCacheClient.handleClientError, RedisCacheClient.handleConnectionLost,
      emit; simpl;
    by repeat match goal with
       | |- context [(?n =? 0)%nat] => destruct (n =? 0)%nat
       | |- context [reconnecting c] => destruct (reconnecting c)
       end.
Qed.
End Stable.

(** A client keeps the expiry the constructor computed from its configured
    duration. *)
Lemma new_configured ms pack unpack (cfg : CacheConfig.t) :
  let c := RedisCacheClient.new ms pack unpack cfg in
  configured (config c) (RedisCacheClient.getTtlFromString ms (Required.ttl (config c))) c.
Proof.
  intros c. split; [done|].
  subst c. unfold RedisCacheClient.new. simpl. by destruct (endsWith _ _).
Qed.

(** ** Expiry sent to the store *)




(** What the [entries.map] of [mset] computes. *)
Lemma mset_entries_spec ms options c entries m0 l0 :
  foldl (RedisCacheClient.mset_entry ms options c) (m0, l0) entries =
  (foldl (fun m e =>
            ILocalCacheManager.set m (RedisCacheClient.generateKey c e.1)
              (Plain e.2) (RedisCacheClient.convertOptions ms options))
         m0 entries,
   l0 ++ map (fun e => (RedisCacheClient.generateKey c e.1,
                        serialize (Required.serializer (config c)) e.2)) entries).
Proof.
  revert m0 l0. induction entries as [|[k v] entries IH]; intros m0 l0; simpl.
  - by rewrite app_nil_r.
  - rewrite IH. by rewrite <- app_assoc.
Qed.




(** ** Plain objects *)

(** Every key other than ["__proto__"] becomes an own property. *)
Lemma assign_ordinary (o : object) (key : string) (v : value) :
  key <> "__proto__" -> assign o key v = define o key v.
Proof.
  intros Hkey. unfold assign. destruct (own o !! key); [done|].
  destruct (String.eqb_spec key "__proto__"); done.
Qed.

Lemma property_define (o : object) (key : string) (v : value) :
  property (define o key v) key = v.
Proof. unfold property, define. simpl. by rewrite lookup_insert_eq. Qed.

Lemma lookup_define_eq (o : object) (key : string) (v : value) :
  define o key v !! key = Some v.
Proof. unfold lookup, object_lookup, define. simpl. apply lookup_insert_eq. Qed.

Lemma lookup_define_ne (o : object) (key key' : string) (v : value) :
  key <> key' -> define o key v !! key' = o !! key'.
Proof. intros. unfold lookup, object_lookup, define. simpl. by apply lookup_insert_ne. Qed.

Lemma lookup_object_empty (key : string) : (∅ : object) !! key = None.
Proof. done. Qed.

Lemma lookup_assign_eq (o : object) (key : string) (v : value) :
  key <> "__proto__" -> assign o key v !! key = Some v.
Proof. intros. rewrite assign_ordinary by done. apply lookup_define_eq. Qed.

(** An assignment leaves the own properties under the other keys alone. *)
Lemma lookup_assign_ne (o : object) (key key' : string) (v : value) :
  key <> key' -> assign o key v !! key' = o !! key'.
Proof.
  intros Hne. unfold assign.
  destruct (own o !! key); [by apply lookup_define_ne|].
  destruct (String.eqb key "__proto__" && negb (is_null (prototype o)));
    [|by apply lookup_define_ne].
  by destruct (is_object v || is_null v).
Qed.

Lemma prototype_assign (o : object) (key : string) (v : value) :
  key <> "__proto__" -> prototype (assign o key v) = prototype o.
Proof. intros. by rewrite assign_ordinary. Qed.

(** On an object whose prototype is not [null] and which has no own
    property ["__proto__"], assigning a primitive value other than [null] to
    ["__proto__"] changes nothing, and reading ["__proto__"] gives the
    prototype. *)
Lemma assign_proto_primitive (o : object) (v : value) :
  o !! "__proto__" = None -> prototype o <> VNull ->
  is_object v = false -> v <> VNull ->
  assign o "__proto__" v = o.
Proof.
  unfold lookup, object_lookup, assign. intros -> Hproto Hobj Hnull.
  destruct (prototype o); try done; simpl; rewrite Hobj; by destruct v.
Qed.

Lemma property_proto (o : object) :
  o !! "__proto__" = None -> prototype o <> VNull ->
  property o "__proto__" = prototype o.
Proof.
  unfold lookup, object_lookup, property. intros -> Hnull.
  by destruct (prototype o).
Qed.

(** ** Read-your-write *)

Lemma with_cache_same (c : Client) : with_cache c (localCacheManager c) = c.
Proof. by destruct c. Qed.

Lemma isReady_with_cache (c : Client) m :
  RedisCacheClient.isReady (with_cache c m) = RedisCacheClient.isReady c.
Proof. reflexivity. Qed.

(** The state in which [set] first yields control: the entry is in the local
    cache, nothing has been acknowledged by the store yet. *)
Lemma set_first_state ms key v options c :
  RedisCacheClient.isReady c = inr tt ->
  first_state (RedisCacheClient.set ms key v options c) =
  with_cache c
    (ILocalCacheManager.set (localCacheManager c) (RedisCacheClient.generateKey c key) (Plain v)
       (RedisCacheClient.convertOptions ms options)).
Proof.
  intros Hready. unfold RedisCacheClient.set, RedisCacheClient.mset.
  rewrite Hready. simpl.
  unfold getDataClient. by destruct (dataClient (redisConnectionManager c)).
Qed.

(** Run alone, [set] ends in that same state, whatever the store answers. *)
Lemma set_final_state ms key v options c St (b : Backend St) (st : St) :
  RedisCacheClient.isReady c = inr tt ->
  (run b (RedisCacheClient.set ms key v options c) st).1.2 =
  first_state (RedisCacheClient.set ms key v options c).
Proof.
  intros Hready. unfold RedisCacheClient.set, RedisCacheClient.mset.
  rewrite Hready. simpl.
  unfold getDataClient. destruct (dataClient (redisConnectionManager c)) as [cl|];
    simpl; [|done].
  unfold exec_all. simpl. destruct (exec b cl _ st) as [[e|[]] st1]; simpl; [done|].
  by destruct (exec b cl _ st1) as [[e|n] st2].
Qed.

(** A key whose slot holds a defined plain value is served from the local
    cache: no command is awaited and the client is left as it was. *)
Lemma get_hit (key : string) (v : value) (c : Client) :
  RedisCacheClient.isReady c = inr tt ->
  ILocalCacheManager.get (localCacheManager c) (RedisCacheClient.generateKey c key) = Plain v ->
  v <> VUndefined ->
  key <> "__proto__" ->
  RedisCacheClient.get key c = Done (inr (nullish v VNull)) c.
Proof.
  intros Hready Hget Hv Hkey. unfold RedisCacheClient.get, RedisCacheClient.mget.
  rewrite Hready. simpl. unfold RedisCacheClient.mget_scan, for_range. simpl.
  rewrite Hget.
  destruct v; try done; simpl; rewrite assign_ordinary by done;
    rewrite property_define; simpl; by rewrite with_cache_same.
Qed.

(** X26.  The key ["__proto__"] is not served like the others.  In Ready
    state, when the local cache holds for it a value that is neither an
    object nor [null] (nor [undefined]), [get("__proto__")] ends without any
    store access and leaves the client as it was, but the assignment
    [result["__proto__"] = v] creates no property: what [get] returns is
    [Object.prototype], not the cached value. *)
Lemma get_hit_proto (v : value) (c : Client) :
  RedisCacheClient.isReady c = inr tt ->
  ILocalCacheManager.get (localCacheManager c) (RedisCacheClient.generateKey c "__proto__")
    = Plain v ->
  v <> VUndefined -> v <> VNull -> is_object v = false ->
  RedisCacheClient.get "__proto__" c = Done (inr Object_prototype) c.
Proof.
  intros Hready Hget Hv Hnull Hobj. unfold RedisCacheClient.get, RedisCacheClient.mget.
  rewrite Hready. simpl. unfold RedisCacheClient.mget_scan, for_range. simpl.
  rewrite Hget.
  destruct v; try done; simpl; by rewrite with_cache_same.
Qed.

(** X20.  [get] never hands [undefined] to its caller, whatever the state
    of the client and whatever the store answers: [result[key] ?? null]. *)
Lemma get_never_undefined (key : string) (c : Client) St (b : Backend St) (st : St) :
  (run b (RedisCacheClient.get key c) st).1.1 <> inr VUndefined.
Proof.
  unfold RedisCacheClient.get.
  generalize (RedisCacheClient.mget [key] c). intros m. revert st.
  induction m as [r c0|R on cmd c0 k IH|R on cmds c0 k IH]; intros st; simpl.
  - destruct r as [e|result]; simpl; [done|].
    by destruct (property result key).
  - destruct (exec b on cmd st) as [r st']. apply IH.
  - destruct (exec_all b on cmds st) as [r st']. apply IH.
Qed.

Lemma get_hit_proto_witness :
  let c := first_state (RedisCacheClient.setLocal Fixtures.ms "__proto__" (VString "x") None
                          Fixtures.client) in
  RedisCacheClient.get "__proto__" c = Done (inr Object_prototype) c.
Proof.
  apply (get_hit_proto (VString "x")); reflexivity || discriminate.
Defined.

(** C5, as amended.  In Ready state, for every key other than ["__proto__"]
    and every value other than [undefined], once [set(k, v)] has made its
    synchronous local write (at its first suspension, before any store
    acknowledgment) a [get(k)] returns [v] from the local cache without any
    store access; the same holds once [set] has run to its end, whatever the
    store answered. *)
Theorem read_your_write (ms : TTL -> Q) (c : Client) (key : string) (v : value)
    (options : option SetOptions.t) :
  RedisCacheClient.isReady c = inr tt ->
  key <> "__proto__" ->
  v <> VUndefined ->
  let c1 := first_state (RedisCacheClient.set ms key v options c) in
  ILocalCacheManager.get (localCacheManager c1) (RedisCacheClient.generateKey c key) = Plain v /\
  RedisCacheClient.get key c1 = Done (inr v) c1 /\
  forall St (b : Backend St) (st : St),
    let c2 := (run b (RedisCacheClient.set ms key v options c) st).1.2 in
    RedisCacheClient.get key c2 = Done (inr v) c2.
Proof.
  intros Hready Hkey Hv c1.
  assert (Hc1 : c1 = with_cache c
    (ILocalCacheManager.set (localCacheManager c) (RedisCacheClient.generateKey c key) (Plain v)
       (RedisCacheClient.convertOptions ms options))) by by apply set_first_state.
  assert (Hget : RedisCacheClient.get key c1 = Done (inr v) c1).
  { replace (inr v : Error + value) with (inr (nullish v VNull) : Error + value)
      by by destruct v.
    apply get_hit; [by rewrite Hc1| |done|done].
    rewrite Hc1. simpl. apply cache_get_set. }
  split; [rewrite Hc1; simpl; apply cache_get_set|].
  split; [done|].
  intros St b st c2. subst c2. by rewrite set_final_state.
Qed.

Lemma read_your_write_witness :
  let c1 := first_state (RedisCacheClient.set Fixtures.ms "k" (VNumber 1) None
                           Fixtures.client) in
  RedisCacheClient.get "k" c1 = Done (inr (VNumber 1)) c1.
Proof.
  apply (read_your_write Fixtures.ms Fixtures.client "k" (VNumber 1) None).
  - reflexivity.
  - discriminate.
  - discriminate.
Defined.

(** C5, the claim as stated fails for [v = undefined] and for the key
    ["__proto__"].  After [set("k", undefined)] the local cache reads as a
    miss, so [get("k")] goes to the store and ends with [null], which is not
    the value written.  After [set("__proto__", 1)] the value is in the local
    cache, but [get("__proto__")] returns [Object.prototype]: the assignment
    [result["__proto__"] = 1] creates no property and the read finds the
    prototype. *)
Lemma undefined_is_not_read_back :
  let c1 := first_state (RedisCacheClient.set Fixtures.ms "k" VUndefined None
                           Fixtures.client) in
  let c2 := first_state (RedisCacheClient.set Fixtures.ms "__proto__" (VNumber 1) None
                           Fixtures.client) in
  RedisCacheClient.isReady Fixtures.client = inr tt /\
  settled (RedisCacheClient.get "k" c1) = None /\
  (run Fixtures.store (RedisCacheClient.get "k" c1) ∅).1.1 = inr VNull /\
  (run Fixtures.store (RedisCacheClient.get "k" c1)
     {[ "cache:k" := (Fixtures.pack VUndefined, 3600%Q) ]}).1.1 = inr VNull /\
  ILocalCacheManager.get (localCacheManager c2) "cache:__proto__" = Plain (VNumber 1) /\
  RedisCacheClient.get "__proto__" c2 = Done (inr Object_prototype) c2.
Proof. vm_compute. repeat split. Qed.

(** ** [get] of a single key *)

(** A key whose slot holds the marker: [get] answers [null] at once, awaits
    nothing and leaves the client, marker included, as it was. *)
Lemma get_in_flight (key : string) (c : Client) :
  RedisCacheClient.isReady c = inr tt ->
  key <> "__proto__" ->
  ILocalCacheManager.get (localCacheManager c) (RedisCacheClient.generateKey c key)
    = CACHING_IN_PROGRESS ->
  RedisCacheClient.get key c = Done (inr VNull) c.
Proof.
  intros Hready Hkey Hget. unfold RedisCacheClient.get, RedisCacheClient.mget.
  rewrite Hready. simpl. unfold RedisCacheClient.mget_scan, for_range. simpl.
  rewrite Hget. simpl. rewrite assign_ordinary by done.
  rewrite property_define. simpl. by rewrite with_cache_same.
Qed.

(** A key that misses the local cache: [get] marks it and awaits one [MGET]
    of its physical key on the data session. *)
Lemma get_miss (key : string) (c : Client) (cl : RedisClientType) :
  RedisCacheClient.isReady c = inr tt ->
  dataClient (redisConnectionManager c) = Some cl ->
  ILocalCacheManager.get (localCacheManager c) (RedisCacheClient.generateKey c key)
    = Plain VUndefined ->
  let fullKey := RedisCacheClient.generateKey c key in
  let c1 := with_cache c
              (ILocalCacheManager.set (localCacheManager c) fullKey CACHING_IN_PROGRESS None) in
  RedisCacheClient.get key c =
    Await cl (MGET (requiresBuffer (Required.serializer (config c))) [fullKey]) c1
      (fun r c' =>
         bind (RedisCacheClient.mget_settle [key] [fullKey] [fullKey] ∅ r c')
              (fun result c'' =>
                 Done (inr (nullish (property result key) VNull)) c'')).
Proof.
  intros Hready Hcl Hget fullKey c1. subst fullKey c1.
  unfold RedisCacheClient.get, RedisCacheClient.mget.
  rewrite Hready. simpl. unfold RedisCacheClient.mget_scan, for_range. simpl.
  rewrite Hget. simpl. unfold getDataClient. rewrite Hcl. reflexivity.
Qed.

(** How a single-key fetch settles while its marker is still in place: a
    value is deserialized, cached and returned; no value deletes the slot and
    gives [undefined]; a failed read, or a value that does not deserialize,
    is emitted as an error, after which the slot is deleted and the key gets
    [undefined]; when nobody listens to errors the [emit] throws and the
    call fails, the marker staying where it is. *)
Lemma mget_settle_single (key fullKey : string) (c : Client) :
  key <> "__proto__" ->
  ILocalCacheManager.get (localCacheManager c) fullKey = CACHING_IN_PROGRESS ->
  (forall s v,
     deserialize (Required.serializer (config c)) s = inr v ->
     RedisCacheClient.mget_settle [key] [fullKey] [fullKey] ∅ (inr [Some s]) c =
       Done (inr (define ∅ key v))
            (with_cache c (ILocalCacheManager.set (localCacheManager c) fullKey (Plain v) None))) /\
  RedisCacheClient.mget_settle [key] [fullKey] [fullKey] ∅ (inr [None]) c =
    Done (inr (define ∅ key VUndefined))
         (with_cache c (ILocalCacheManager.delete (localCacheManager c) fullKey)) /\
  (forall r e,
     r = inl e \/
     (exists s, r = inr [Some s] /\ deserialize (Required.serializer (config c)) s = inl e) ->
     (error_listeners c <> 0%nat ->
      RedisCacheClient.mget_settle [key] [fullKey] [fullKey] ∅ r c =
        Done (inr (define ∅ key VUndefined))
             (with_cache (deliver c (EvError e))
                (ILocalCacheManager.delete (localCacheManager c) fullKey))) /\
     (error_listeners c = 0%nat ->
      RedisCacheClient.mget_settle [key] [fullKey] [fullKey] ∅ r c = Done (inl e) c)).
Proof.
  intros Hkey Hget. split; [|split].
  - intros s v Hs. unfold RedisCacheClient.mget_settle, for_range_try. simpl.
    rewrite Hget, Hs. by rewrite assign_ordinary.
  - unfold RedisCacheClient.mget_settle, for_range_try. simpl.
    rewrite Hget. by rewrite assign_ordinary.
  - intros r e Hr.
    assert (Hcatch : RedisCacheClient.mget_settle [key] [fullKey] [fullKey] ∅ r c =
                     RedisCacheClient.mget_catch [key] [fullKey] [fullKey] e ∅ c).
    { destruct Hr as [->|(s & -> & Hs)]; [done|].
      unfold RedisCacheClient.mget_settle, for_range_try. simpl.
      rewrite Hget, Hs. by rewrite with_cache_same. }
    rewrite Hcatch. unfold RedisCacheClient.mget_catch. split; intros Hl.
    + rewrite emit_listened by done. unfold for_range. simpl.
      by rewrite assign_ordinary.
    + by rewrite emit_unhandled.
Qed.

(** X19.  Two simultaneous [get(k)] for a key other than ["__proto__"] that
    is absent from the local cache: the first awaits one [MGET]; the second,
    started while the first is suspended, finds the marker, answers [null]
    and awaits nothing. *)
Lemma get_deduplicated (key : string) (c : Client) (cl : RedisClientType) :
  RedisCacheClient.isReady c = inr tt ->
  dataClient (redisConnectionManager c) = Some cl ->
  key <> "__proto__" ->
  ILocalCacheManager.get (localCacheManager c) (RedisCacheClient.generateKey c key)
    = Plain VUndefined ->
  let first := RedisCacheClient.get key c in
  let c1 := first_state first in
  settled first = None /\
  RedisCacheClient.get key c1 = Done (inr VNull) c1.
Proof.
  intros Hready Hcl Hkey Hget first c1. subst first c1.
  rewrite (get_miss key c cl) by done. simpl. split; [done|].
  apply get_in_flight; [done|done|]. simpl. apply cache_get_set.
Qed.

(** The step of the first loop of [mget] at a slot that holds the marker:
    the key gets [undefined] in [result], it is not added to [uncachedKeys]
    and the local cache is not written. *)
Lemma mget_scan_in_flight (keys fullKeys : list string) (i : nat)
    (m : gmap string entry) (result : object) (uncachedKeys : list string) :
  ILocalCacheManager.get m (fullKeys !!! i) = CACHING_IN_PROGRESS ->
  RedisCacheClient.mget_scan_body keys fullKeys i (m, result, uncachedKeys) =
    (m, assign result (keys !!! i) VUndefined, uncachedKeys).
Proof. intros H. unfold RedisCacheClient.mget_scan_body. by rewrite H. Qed.

(** ** [mget] of keys that all miss

    When every requested key misses the local localCacheManager (and no key is asked
    twice), [uncachedKeys] is [fullKeys] and the indices of the two lists
    agree: the call then resolves every key under its own physical key. *)

Lemma for_range_S {S : Type} (n : nat) (body : nat -> S -> S) (s : S) :
  for_range (Datatypes.S n) body s = body n (for_range n body s).
Proof. unfold for_range. rewrite seq_S, foldl_app. reflexivity. Qed.

Lemma for_each_try_snoc {S : Type} (l : list nat) (i : nat)
    (body : nat -> S -> S * option Error) (s : S) :
  for_each_try (l ++ [i]) body s =
  match for_each_try l body s with
  | (s', None) => body i s'
  | (s', Some e) => (s', Some e)
  end.
Proof.
  revert s. induction l as [|j l IH]; intros s; simpl.
  - by destruct (body i s) as [s' [e|]].
  - destruct (body j s) as [s' [e|]]; [done|]. apply IH.
Qed.

Lemma for_range_try_S {S : Type} (n : nat)
    (body : nat -> S -> S * option Error) (s : S) :
  for_range_try (Datatypes.S n) body s =
  match for_range_try n body s with
  | (s', None) => body n s'
  | (s', Some e) => (s', Some e)
  end.
Proof. unfold for_range_try. rewrite seq_S. apply for_each_try_snoc. Qed.

Lemma cache_get_delete_ne (m : gmap string entry) (k k' : string) :
  k <> k' ->
  ILocalCacheManager.get (ILocalCacheManager.delete m k) k' = ILocalCacheManager.get m k'.
Proof.
  intros. unfold ILocalCacheManager.get, ILocalCacheManager.delete.
  by rewrite lookup_delete_ne.
Qed.

Lemma get_foldl_mark_notin (m : gmap string entry) (l : list string) (x : string) :
  x ∉ l -> ILocalCacheManager.get (foldl mark m l) x = ILocalCacheManager.get m x.
Proof.
  revert m. induction l as [|y l IH]; intros m Hx; simpl; [done|].
  apply not_elem_of_cons in Hx as [Hxy Hxl].
  rewrite IH by done. by apply cache_get_set_ne.
Qed.

Lemma get_foldl_mark_in (m : gmap string entry) (l : list string) (x : string) :
  x ∈ l -> ILocalCacheManager.get (foldl mark m l) x = CACHING_IN_PROGRESS.
Proof.
  revert m. induction l as [|y l IH]; intros m Hx; simpl; [by apply elem_of_nil in Hx|].
  destruct (decide (x ∈ l)) as [Hin|Hnin]; [by apply IH|].
  rewrite get_foldl_mark_notin by done.
  apply elem_of_cons in Hx as [->|Hx]; [apply cache_get_set|done].
Qed.

Section Scan.
Variable c : Client.
Variable keys : list string.
Hypothesis Hnodup : NoDup keys.
Hypothesis Hmiss : forall k, k ∈ keys ->
  ILocalCacheManager.get (localCacheManager c) (RedisCacheClient.generateKey c k) = Plain VUndefined.

Lemma fullKeys_NoDup : NoDup (map (RedisCacheClient.generateKey c) keys).
Proof. apply NoDup_fmap_2; [|done]. intros x y. apply generateKey_inj. Qed.

(** After [n] rounds of the first loop the first [n] physical keys are
    marked and collected, and [result] is still empty. *)
Lemma scan_prefix (n : nat) :
  let fullKeys := map (RedisCacheClient.generateKey c) keys in
  n <= length fullKeys ->
  for_range n (RedisCacheClient.mget_scan_body keys fullKeys) (localCacheManager c, ∅, []) =
  (foldl mark (localCacheManager c) (take n fullKeys), ∅, take n fullKeys).
Proof.
  intros fullKeys. induction n as [|n IH]; intros Hn; [done|].
  rewrite for_range_S, IH by lia.
  destruct (lookup_lt_is_Some_2 fullKeys n) as [x Hx]; [lia|].
  unfold RedisCacheClient.mget_scan_body.
  rewrite (list_lookup_total_correct _ _ _ Hx).
  rewrite get_foldl_mark_notin.
  - assert (Hk : exists k, k ∈ keys /\ x = RedisCacheClient.generateKey c k).
    { apply list_elem_of_lookup_2 in Hx. subst fullKeys.
      apply list_elem_of_fmap in Hx as (k & -> & Hk). eauto. }
    destruct Hk as (k & Hk & ->). rewrite Hmiss by done.
    rewrite (take_S_r _ _ _ Hx), foldl_app. reflexivity.
  - intros Hin. apply list_elem_of_lookup in Hin as [j Hj].
    apply lookup_take_Some in Hj as [Hj Hlt].
    pose proof (NoDup_lookup _ _ _ _ fullKeys_NoDup Hj Hx). lia.
Qed.

(** [mget] of such keys marks each of them and awaits one [MGET] of all the
    physical keys, in the order asked. *)
Lemma mget_all_misses (cl : RedisClientType) :
  RedisCacheClient.isReady c = inr tt ->
  dataClient (redisConnectionManager c) = Some cl ->
  keys <> [] ->
  let fullKeys := map (RedisCacheClient.generateKey c) keys in
  RedisCacheClient.mget keys c =
    Await cl (MGET (requiresBuffer (Required.serializer (config c))) fullKeys)
      (with_cache c (foldl mark (localCacheManager c) fullKeys))
      (RedisCacheClient.mget_settle keys fullKeys fullKeys ∅).
Proof.
  intros Hready Hcl Hne fullKeys. subst fullKeys.
  pose proof (scan_prefix (length (map (RedisCacheClient.generateKey c) keys))) as Hscan.
  cbv zeta in Hscan. rewrite firstn_all in Hscan.
  unfold RedisCacheClient.mget, RedisCacheClient.mget_scan. rewrite Hready.
  rewrite Hscan by done.
  destruct keys as [|k ks]; [done|]. simpl.
  unfold getDataClient. by rewrite Hcl.
Qed.
End Scan.

Section Settle.
Variable ser : ISerializer.
Variable gk : string -> string.
Hypothesis gk_inj : forall x y, gk x = gk y -> x = y.
Variable keys : list string.
Hypothesis Hnodup : NoDup keys.
Hypothesis Hordinary : "__proto__" ∉ keys.

Lemma ordinary_key (n : nat) (k : string) : keys !! n = Some k -> k <> "__proto__".
Proof. intros Hk ->. apply Hordinary. by eapply list_elem_of_lookup_2. Qed.

Lemma distinct_keys (n i : nat) (k k' : string) :
  keys !! n = Some k -> i <> n -> keys !! i = Some k' -> k' <> k /\ gk k' <> gk k.
Proof.
  intros Hk Hi Hk'. assert (k' <> k).
  { intros ->. apply Hi. by eapply NoDup_lookup. }
  split; [done|]. intros E. by apply gk_inj in E.
Qed.

(** After [n] rounds of the loop in the [try] block, started with every key
    of the call still marked: the first [n] keys are resolved, each under its
    own physical key, and the others are still marked. *)
Lemma settle_prefix (vs : list (option string)) (m0 : gmap string entry) (n : nat) :
  length vs = length keys ->
  (forall s, Some s ∈ vs -> exists v, deserialize ser s = inr v) ->
  (forall k, k ∈ keys -> ILocalCacheManager.get m0 (gk k) = CACHING_IN_PROGRESS) ->
  n <= length keys ->
  exists m r,
    for_range_try n (RedisCacheClient.mget_settle_body ser keys (map gk keys) vs) (m0, ∅)
      = ((m, r), None) /\
    (forall i k, i < n -> keys !! i = Some k ->
       match vs !! i with
       | Some (Some s) =>
           exists v, deserialize ser s = inr v /\ r !! k = Some v /\
                     ILocalCacheManager.get m (gk k) = Plain v
       | _ => r !! k = Some VUndefined /\ m !! gk k = None
       end) /\
    (forall i k, n <= i -> keys !! i = Some k ->
       ILocalCacheManager.get m (gk k) = CACHING_IN_PROGRESS).
Proof.
  intros Hlen Hdes Hmark. induction n as [|n IH]; intros Hn.
  - exists m0, ∅. split; [done|]. split; [intros; lia|].
    intros i k _ Hk. apply Hmark. by eapply list_elem_of_lookup_2.
  - destruct IH as (m & r & Hrun & Hdone & Htodo); [lia|].
    rewrite for_range_try_S, Hrun.
    destruct (lookup_lt_is_Some_2 keys n) as [k Hk]; [lia|].
    destruct (lookup_lt_is_Some_2 vs n) as [o Ho]; [lia|].
    assert (Hfk : map gk keys !! n = Some (gk k)) by by rewrite list_lookup_fmap, Hk.
    pose proof (distinct_keys n) as Hother.
    pose proof (ordinary_key n k Hk) as Hord.
    unfold RedisCacheClient.mget_settle_body.
    rewrite (list_lookup_total_correct _ _ _ Hk), (list_lookup_total_correct _ _ _ Hfk).
    rewrite (Htodo n k) by done. rewrite Ho.
    destruct o as [s|].
    + destruct (Hdes s) as [v Hv]; [by eapply list_elem_of_lookup_2|].
      rewrite Hv. eexists _, _. split; [reflexivity|]. split.
      * intros i k' Hi Hk'. destruct (decide (i = n)) as [->|Hne].
        -- rewrite Ho. assert (k' = k) as -> by congruence.
           exists v. split; [done|].
           split; [by apply lookup_assign_eq|apply cache_get_set].
        -- destruct (Hother i k k' Hk Hne Hk') as [Hkk Hgk].
           specialize (Hdone i k' ltac:(lia) Hk').
           destruct (vs !! i) as [[s'|]|];
             [destruct Hdone as (v' & ? & ? & ?); exists v'; split; [done|]
             |destruct Hdone|destruct Hdone];
             (split; [by rewrite lookup_assign_ne|]);
             [by rewrite cache_get_set_ne
             |unfold ILocalCacheManager.set; by rewrite lookup_insert_ne
             |unfold ILocalCacheManager.set; by rewrite lookup_insert_ne].
      * intros i k' Hi Hk'. destruct (Hother i k k' Hk ltac:(lia) Hk') as [Hkk Hgk].
        rewrite cache_get_set_ne by done. apply (Htodo i); [lia|done].
    + eexists _, _. split; [reflexivity|]. split.
      * intros i k' Hi Hk'. destruct (decide (i = n)) as [->|Hne].
        -- rewrite Ho. assert (k' = k) as -> by congruence.
           split; [by apply lookup_assign_eq|apply lookup_delete_eq].
        -- destruct (Hother i k k' Hk Hne Hk') as [Hkk Hgk].
           specialize (Hdone i k' ltac:(lia) Hk').
           destruct (vs !! i) as [[s'|]|];
             [destruct Hdone as (v' & ? & ? & ?); exists v'; split; [done|]
             |destruct Hdone|destruct Hdone];
             (split; [by rewrite lookup_assign_ne|]);
             [by rewrite cache_get_delete_ne
             |unfold ILocalCacheManager.delete; by rewrite lookup_delete_ne
             |unfold ILocalCacheManager.delete; by rewrite lookup_delete_ne].
      * intros i k' Hi Hk'. destruct (Hother i k k' Hk ltac:(lia) Hk') as [Hkk Hgk].
        rewrite cache_get_delete_ne by done. apply (Htodo i); [lia|done].
Qed.

(** After [n] rounds of the loop in the [catch] block the first [n] keys
    are deleted from the local cache and [undefined] in [result]. *)
Lemma catch_prefix (m0 : gmap string entry) (r0 : object) (n : nat) :
  n <= length keys ->
  exists m r,
    for_range n (RedisCacheClient.mget_catch_body keys (map gk keys)) (m0, r0) = (m, r) /\
    forall i k, i < n -> keys !! i = Some k ->
      r !! k = Some VUndefined /\ m !! gk k = None.
Proof.
  induction n as [|n IH]; intros Hn.
  - exists m0, r0. split; [done|]. intros; lia.
  - destruct IH as (m & r & Hrun & Hdone); [lia|].
    rewrite for_range_S, Hrun.
    destruct (lookup_lt_is_Some_2 keys n) as [k Hk]; [lia|].
    assert (Hfk : map gk keys !! n = Some (gk k)) by by rewrite list_lookup_fmap, Hk.
    unfold RedisCacheClient.mget_catch_body.
    rewrite (list_lookup_total_correct _ _ _ Hk), (list_lookup_total_correct _ _ _ Hfk).
    eexists _, _. split; [reflexivity|].
    intros i k' Hi Hk'. unfold ILocalCacheManager.delete.
    destruct (decide (i = n)) as [->|Hne].
    + assert (k' = k) as -> by congruence.
      split; [apply lookup_assign_eq; by eapply ordinary_key|apply lookup_delete_eq].
    + destruct (distinct_keys n i k k' Hk Hne Hk') as [Hkk Hgk].
      destruct (Hdone i k' ltac:(lia) Hk').
      split; [by rewrite lookup_assign_ne|by rewrite lookup_delete_ne].
Qed.
End Settle.

(** How the batched read of keys that all missed settles, provided the
    markers are still in place when it does: every key whose reply is a value
    is deserialized, cached under its physical key and returned; every key
    whose reply is [null] has its slot deleted and is [undefined]. *)
Lemma mget_settle_all_misses (c : Client) (keys : list string)
    (vs : list (option string)) :
  NoDup keys ->
  "__proto__" ∉ keys ->
  length vs = length keys ->
  (forall s, Some s ∈ vs -> exists v, deserialize (Required.serializer (config c)) s = inr v) ->
  (forall k, k ∈ keys ->
     ILocalCacheManager.get (localCacheManager c) (RedisCacheClient.generateKey c k)
       = CACHING_IN_PROGRESS) ->
  let fullKeys := map (RedisCacheClient.generateKey c) keys in
  exists m result,
    RedisCacheClient.mget_settle keys fullKeys fullKeys ∅ (inr vs) c =
      Done (inr result) (with_cache c m) /\
    forall i k, keys !! i = Some k ->
      match vs !! i with
      | Some (Some s) =>
          exists v, deserialize (Required.serializer (config c)) s = inr v /\
                    result !! k = Some v /\
                    ILocalCacheManager.get m (RedisCacheClient.generateKey c k) = Plain v
      | _ => result !! k = Some VUndefined /\
             m !! RedisCacheClient.generateKey c k = None
      end.
Proof.
  intros Hnodup Hord Hlen Hdes Hmark fullKeys.
  destruct (settle_prefix (Required.serializer (config c)) (RedisCacheClient.generateKey c)
              (generateKey_inj c) keys Hnodup Hord vs (localCacheManager c) (length keys)
              Hlen Hdes Hmark) as (m & r & Hrun & Hdone & _); [done|].
  exists m, r. split.
  - unfold RedisCacheClient.mget_settle. subst fullKeys.
    rewrite length_map, Hrun. reflexivity.
  - intros i k Hk. apply Hdone; [|done]. by eapply lookup_lt_Some.
Qed.

(** When the batched read of such keys fails and somebody listens to
    errors, the call does not throw: the error is emitted, every key of the
    batch is deleted from the local cache and is [undefined] in the record
    returned. *)
Lemma mget_settle_all_misses_failed (c : Client) (keys : list string) (e : Error) :
  NoDup keys ->
  "__proto__" ∉ keys ->
  error_listeners c <> 0%nat ->
  let fullKeys := map (RedisCacheClient.generateKey c) keys in
  exists m result,
    RedisCacheClient.mget_settle keys fullKeys fullKeys ∅ (inl e) c =
      Done (inr result) (with_cache (deliver c (EvError e)) m) /\
    forall k, k ∈ keys ->
      result !! k = Some VUndefined /\ m !! RedisCacheClient.generateKey c k = None.
Proof.
  intros Hnodup Hord Hl fullKeys.
  destruct (catch_prefix (RedisCacheClient.generateKey c) (generateKey_inj c) keys
              Hnodup Hord (localCacheManager c) ∅ (length keys)) as (m & r & Hrun & Hdone);
    [done|].
  exists m, r. split.
  - unfold RedisCacheClient.mget_settle, RedisCacheClient.mget_catch. subst fullKeys.
    rewrite emit_listened by done.
    rewrite length_map. simpl. rewrite Hrun. reflexivity.
  - intros k Hk. apply list_elem_of_lookup in Hk as [i Hi].
    apply (Hdone i); [|done]. by eapply lookup_lt_Some.
Qed.

(** When nobody listens to errors, a failed read makes [mget] fail with the
    error of the read, whatever the keys: the [catch] block throws at its
    [emit] and the markers stay where they are. *)
Lemma mget_settle_unhandled (c : Client) (keys fullKeys uncachedKeys : list string)
    (result : object) (e : Error) :
  error_listeners c = 0%nat ->
  RedisCacheClient.mget_settle keys fullKeys uncachedKeys result (inl e) c = Done (inl e) c.
Proof.
  intros Hl. unfold RedisCacheClient.mget_settle, RedisCacheClient.mget_catch.
  by rewrite emit_unhandled.
Qed.

(** ** [mget] when a miss follows a hit or a marked key

    The loops that run after the batched read range over the indices of
    [uncachedKeys] but read [keys[i]] and [fullKeys[i]]: the first requested
    keys, not the keys that were sent to the store.  The two agree only when
    the misses are the leading keys of the call. *)

(** With a hit asked before a miss, whatever the store answers (values, no
    value, or a failure), the call run alone returns without a property for
    the missed key and leaves that key's marker in the local cache (on a
    client with an ['error'] listener: without one a failure is thrown). *)
Lemma mget_hit_then_miss (c : Client) (cl : RedisClientType) (hit miss : string)
    (v : value) (r : Error + list (option string)) :
  RedisCacheClient.isReady c = inr tt ->
  dataClient (redisConnectionManager c) = Some cl ->
  error_listeners c <> 0%nat ->
  hit <> miss ->
  ILocalCacheManager.get (localCacheManager c) (RedisCacheClient.generateKey c hit) = Plain v ->
  v <> VUndefined ->
  ILocalCacheManager.get (localCacheManager c) (RedisCacheClient.generateKey c miss)
    = Plain VUndefined ->
  exists k c1,
    RedisCacheClient.mget [hit; miss] c =
      Await cl (MGET (requiresBuffer (Required.serializer (config c)))
                  [RedisCacheClient.generateKey c miss]) c1 k /\
    exists result c2,
      k r c1 = Done (inr result) c2 /\
      result !! miss = None /\
      ILocalCacheManager.get (localCacheManager c2) (RedisCacheClient.generateKey c miss)
        = CACHING_IN_PROGRESS.
Proof.
  intros Hready Hcl Hl Hne Hhit Hv Hmiss.
  assert (Hgk : RedisCacheClient.generateKey c hit <> RedisCacheClient.generateKey c miss).
  { intros E. by apply generateKey_inj in E. }
  unfold RedisCacheClient.mget. rewrite Hready. simpl.
  unfold RedisCacheClient.mget_scan, for_range. simpl.
  rewrite Hhit.
  destruct v; [done|..]; unfold RedisCacheClient.mget_scan_body; simpl;
    rewrite Hmiss; simpl; unfold getDataClient; rewrite Hcl;
    simpl; (eexists _, _; split; [reflexivity|]);
    unfold RedisCacheClient.mget_settle, RedisCacheClient.mget_catch,
      for_range_try, for_range; simpl;
    (destruct r as [e|vs];
     [ destruct (error_listeners c) as [|n'] eqn:El; [done|]; simpl;
       eexists _, _; split; [reflexivity|]; simpl;
       split; [by rewrite !lookup_assign_ne|];
       rewrite cache_get_delete_ne by done; apply cache_get_set
     | rewrite cache_get_set_ne by done; rewrite Hhit;
       eexists _, _; split; [reflexivity|]; simpl;
       split; [by rewrite !lookup_assign_ne|];
       apply cache_get_set ]).
Qed.

(** C1, evaluated on the scenario of the claim and on a second input.
    After [mset([["a",1],["b",2]])], [mget("a","b","c")] returns a record with
    [a] and [b] only, and the slot of ["cache:c"], which this call marked, is
    not deleted: it still holds the marker.  With [a] cached and 3 stored
    under ["cache:c"], [mget("a","c")] returns the undeserialized reply for
    [c] under [a], nothing under [c], caches nothing for [c] and leaves its
    marker. *)
Theorem mget_miss_behind_hit_is_not_resolved :
  (let r := run Fixtures.store
              (RedisCacheClient.mget ["a"; "b"; "c"] (final Fixtures.after_mset))
              (backend_state Fixtures.after_mset) in
   exists result,
     outcome r = inr result /\
     result !! "a" = Some (VNumber 1) /\
     result !! "b" = Some (VNumber 2) /\
     result !! "c" = None /\
     ILocalCacheManager.get (localCacheManager (final r)) "cache:c" = CACHING_IN_PROGRESS) /\
  (let r := run Fixtures.store
              (RedisCacheClient.mget ["a"; "c"] (final Fixtures.after_set_a))
              (Fixtures.store_with_c ∪ backend_state Fixtures.after_set_a) in
   exists result,
     outcome r = inr result /\
     result !! "a" = Some (VBuffer (Fixtures.pack (VNumber 3))) /\
     result !! "c" = None /\
     ILocalCacheManager.get (localCacheManager (final r)) "cache:a" = Plain (VNumber 1) /\
     ILocalCacheManager.get (localCacheManager (final r)) "cache:c" = CACHING_IN_PROGRESS).
Proof.
  split; eexists; (split; [vm_compute; reflexivity|]); vm_compute; repeat split.
Qed.

(** C2, evaluated.  With [a] cached and [c] not, [mget("a","c")] against a
    store whose read fails does not throw and emits the error, but its
    [catch] loop deletes the slot of the hit ["cache:a"] and overwrites the
    value returned for [a] with [undefined], while the marker it set under
    ["cache:c"], the one key of the batch, stays. *)
Theorem mget_failure_clears_the_wrong_keys :
  let c := final Fixtures.after_set_a in
  let r := run Fixtures.broken (RedisCacheClient.mget ["a"; "c"] c) tt in
  ILocalCacheManager.get (localCacheManager c) "cache:a" = Plain (VNumber 1) /\
  localCacheManager c !! "cache:c" = None /\
  exists result,
    outcome r = inr result /\
    result !! "a" = Some VUndefined /\
    result !! "c" = None /\
    localCacheManager (final r) !! "cache:a" = None /\
    ILocalCacheManager.get (localCacheManager (final r)) "cache:c" = CACHING_IN_PROGRESS /\
    emitted (final r) = [EvError (StoreError "connection lost")].
Proof.
  split; [vm_compute; reflexivity|]. split; [vm_compute; reflexivity|].
  eexists. split; [vm_compute; reflexivity|]. vm_compute. repeat split.
Qed.

(** C3, evaluated.  With [a] cached, [mget("a","c")] marks ["cache:c"] and
    returns, on the normal path as on the error path, with the marker still
    under ["cache:c"] although no fetch is outstanding.  From then on
    [get("c")] answers [null] without reading the store, even when the store
    holds a value for the key. *)
Theorem marker_outlives_its_fetch :
  let c := final Fixtures.after_set_a in
  let normal := run Fixtures.store (RedisCacheClient.mget ["a"; "c"] c) ∅ in
  let failed := run Fixtures.broken (RedisCacheClient.mget ["a"; "c"] c) tt in
  localCacheManager c !! "cache:c" = None /\
  localCacheManager (final normal) !! "cache:c"
    = Some {| stored := CACHING_IN_PROGRESS; ttl_ms := None |} /\
  localCacheManager (final failed) !! "cache:c"
    = Some {| stored := CACHING_IN_PROGRESS; ttl_ms := None |} /\
  settled (RedisCacheClient.get "c" (final normal)) = Some (inr VNull) /\
  outcome (run Fixtures.store (RedisCacheClient.get "c" (final normal))
             Fixtures.store_with_c) = inr VNull.
Proof. vm_compute. repeat split. Qed.

(** C4, evaluated.  While a [get("k")] of another caller is suspended, the
    slot of ["cache:k"] holds the marker.  An [mget("k","c")] started then
    leaves ["cache:k"] out of its batched read, as it should, but when the
    read settles it stores the value fetched for [c] under ["cache:k"], over
    the marker, and returns it for [k]. *)
Theorem mget_overwrites_a_foreign_marker :
  let c := Fixtures.fetching_k in
  let r := run (logging Fixtures.store) (RedisCacheClient.mget ["k"; "c"] c)
             (Fixtures.store_with_c, []) in
  ILocalCacheManager.get (localCacheManager c) "cache:k" = CACHING_IN_PROGRESS /\
  (backend_state r).2 =
    [sent DataSession (MGET true ["cache:c"])] /\
  exists result,
    outcome r = inr result /\
    result !! "k" = Some (VNumber 3) /\
    result !! "c" = None /\
    ILocalCacheManager.get (localCacheManager (final r)) "cache:k" = Plain (VNumber 3) /\
    ILocalCacheManager.get (localCacheManager (final r)) "cache:c" = CACHING_IN_PROGRESS.
Proof.
  split; [vm_compute; reflexivity|]. split; [vm_compute; reflexivity|].
  eexists. split; [vm_compute; reflexivity|]. vm_compute. repeat split.
Qed.

(** ** [clear] *)

(** What [KEYS prefix*] matches when the prefix has no pattern character:
    the keys that start with the prefix. *)
Lemma glob_star (k : string) : Fixtures.glob "*" k = true.
Proof. induction k as [|a k IH]; [done|]. simpl. simpl in IH. by rewrite IH. Qed.

Lemma glob_literal_prefix (p k : string) :
  literal p = true -> Fixtures.glob (p +:+ "*") k = String.prefix p k.
Proof.
  revert k. induction p as [|a p IH]; intros k Hp.
  - rewrite glob_star. by destruct k.
  - cbn [literal] in Hp. apply andb_prop in Hp as [Ha Hp].
    apply negb_true_iff, bool_decide_eq_false in Ha.
    assert (Hstar : Ascii.eqb a "*" = false).
    { apply Ascii.eqb_neq. intros ->. apply Ha. by left. }
    assert (Hany : Ascii.eqb a "?" = false).
    { apply Ascii.eqb_neq. intros ->. apply Ha. right. by left. }
    change (String a p +:+ "*") with (String a (p +:+ "*")).
    cbn [Fixtures.glob]. rewrite Hstar.
    destruct k as [|b k]; [done|]. rewrite Hany. cbn [orb String.prefix].
    rewrite IH by done. destruct (Ascii.ascii_dec a b) as [->|Hne].
    + by rewrite Ascii.eqb_refl.
    + apply Ascii.eqb_neq in Hne. by rewrite Hne.
Qed.

Lemma foldl_base_delete_lookup {V : Type} (m : gmap string V) (keys : list string)
    (key : string) :
  foldl (fun m k => base.delete k m) m keys !! key =
  if decide (key ∈ keys) then None else m !! key.
Proof.
  revert m. induction keys as [|k keys IH]; intros m; cbn [foldl].
  - destruct (decide (key ∈ [])) as [H|H]; [by apply elem_of_nil in H|done].
  - rewrite IH.
    destruct (decide (key ∈ keys)) as [Hin|Hnin].
    + rewrite decide_True by (by right). done.
    + destruct (decide (key = k)) as [->|Hne].
      * rewrite decide_True by (by left). apply lookup_delete_eq.
      * rewrite decide_False.
        -- by rewrite lookup_delete_ne.
        -- intros [?|?]%elem_of_cons; done.
Qed.

Lemma elem_of_matching {V : Type} (db : gmap string V) (P : string -> bool) (key : string) :
  key ∈ filter (fun k => Is_true (P k)) (map fst (map_to_list db)) <->
  P key = true /\ is_Some (db !! key).
Proof.
  rewrite list_elem_of_filter, list_elem_of_fmap. split.
  - intros [HP ([k v] & -> & Hkv)]. apply elem_of_map_to_list in Hkv.
    split; [by apply Is_true_eq_true|by exists v].
  - intros [HP [v Hv]]. split; [by apply Is_true_eq_left|].
    exists (key, v). split; [done|]. by apply elem_of_map_to_list.
Qed.

(** C7, as amended.  In Ready state [clear()] asks the data session for the
    keys matching [prefix*] with one [KEYS] command (no cursor-based scan, the
    configured batch size plays no part), deletes at the store exactly the
    keys of the reply with one [DEL] (none when the reply is empty), and then
    empties the whole local cache, whatever it holds when the store has
    answered.  When the prefix has no pattern character ([*], [?], [[] or the
    backslash), the keys deleted at the store are exactly the keys that carry
    the prefix: run alone against a store that answers [KEYS] with the keys
    matching the pattern, every key starting with the prefix is gone and
    every other key is as before. *)
Theorem clear_keys_then_del (c : Client) (cl : RedisClientType) :
  RedisCacheClient.isReady c = inr tt ->
  dataClient (redisConnectionManager c) = Some cl ->
  (exists k,
     RedisCacheClient.clear c = Await cl (KEYS (Required.prefix (config c) +:+ "*")) c k /\
     (forall c1, k (inr []) c1 = Done (inr tt) (with_cache c1 ∅)) /\
     (forall key keys c1, exists k2,
        k (inr (key :: keys)) c1 = Await cl (DEL (key :: keys)) c1 k2 /\
        forall n c2, k2 (inr n) c2 = Done (inr tt) (with_cache c2 ∅))) /\
  (literal (Required.prefix (config c)) = true ->
   forall db : gmap string (string * Q),
     let r := run Fixtures.store (RedisCacheClient.clear c) db in
     outcome r = inr tt /\
     (forall key,
        backend_state r !! key =
        if String.prefix (Required.prefix (config c)) key then None else db !! key) /\
     localCacheManager (final r) = ∅).
Proof.
  intros Hready Hcl. split.
  - unfold RedisCacheClient.clear. rewrite Hready.
    unfold getDataClient. rewrite Hcl. simpl.
    eexists. split; [reflexivity|]. split; [done|].
    intros key keys c1. simpl. eexists. split; [reflexivity|]. done.
  - intros Hlit db r. subst r.
    unfold RedisCacheClient.clear. rewrite Hready.
    unfold getDataClient. rewrite Hcl. cbn [call run exec Fixtures.store Fixtures.store_exec].
    set (p := Required.prefix (config c)).
    set (matched := filter _ _).
    assert (Hkeys : forall key,
              key ∈ matched <-> String.prefix p key = true /\ is_Some (db !! key)).
    { intros key. subst matched. rewrite elem_of_matching.
      by rewrite glob_literal_prefix. }
    clearbody matched. destruct matched as [|k0 rest].
    + cbn. split; [done|]. split; [|done]. intros key.
      destruct (String.prefix p key) eqn:Hp; [|done].
      destruct (db !! key) as [x|] eqn:Hx; [|done].
      exfalso. apply (elem_of_nil key). apply Hkeys. split; [done|by exists x].
    + cbn. split; [done|]. split; [|done]. intros key.
      change (foldl (fun m k => base.delete k m) (base.delete k0 db) rest)
        with (foldl (fun m k => base.delete k m) db (k0 :: rest)).
      rewrite foldl_base_delete_lookup.
      destruct (decide (key ∈ k0 :: rest)) as [Hin|Hnin].
      * apply Hkeys in Hin as [-> _]. done.
      * destruct (String.prefix p key) eqn:Hp; [|done].
        destruct (db !! key) as [x|] eqn:Hx; [|done].
        exfalso. apply Hnin. apply Hkeys. split; [done|by exists x].
Qed.

Lemma clear_keys_then_del_witness :
  exists k,
    RedisCacheClient.clear Fixtures.client =
      Await {| url := "redis://localhost:6379"; session := DataSession |}
        (KEYS "cache:*") Fixtures.client k.
Proof.
  destruct (clear_keys_then_del Fixtures.client
              {| url := "redis://localhost:6379"; session := DataSession |}
              eq_refl eq_refl) as [(k & Hk & _) _].
  exists k. exact Hk.
Defined.

(** C7, the claim as stated fails on the enumeration and, for some
    prefixes, on the keys deleted.  [clear()] sends [KEYS] and [DEL], never a
    scan, while [keys()] is the operation that scans with the configured
    count; on a store shared with another namespace the keys under
    ["cache:"] go, the other key stays, and the local cache ends empty.  But
    a prefix is sent as part of a pattern: with the prefix ["c?che:"],
    [clear()] deletes the key ["cache:x"], which does not carry that
    prefix. *)
Lemma clear_does_not_scan :
  let c := final Fixtures.after_mset in
  let r := run (logging Fixtures.store) (RedisCacheClient.clear c)
             (Fixtures.shared_store, []) in
  let r' := run (logging Fixtures.store) (RedisCacheClient.keys None c)
              (Fixtures.shared_store, []) in
  let other : gmap string (string * Q) :=
    {[ "cache:x" := (Fixtures.pack (VNumber 9), 60%Q) ]} in
  let r2 := run (logging Fixtures.store) (RedisCacheClient.clear Fixtures.pattern_client)
              (other, []) in
  (backend_state r).2 =
    [sent DataSession (KEYS "cache:*");
     sent DataSession (DEL ["cache:a"; "cache:b"])] /\
  (backend_state r').2 = [sent DataSession (SCAN_ITERATOR "cache:*" 10000)] /\
  map fst (map_to_list (backend_state r).1) = ["other:x"] /\
  localCacheManager (final r) = ∅ /\
  Required.prefix (config Fixtures.pattern_client) = "c?che:" /\
  String.prefix "c?che:" "cache:x" = false /\
  (backend_state r2).2 =
    [sent DataSession (KEYS "c?che:*"); sent DataSession (DEL ["cache:x"])] /\
  (backend_state r2).1 = ∅.
Proof. vm_compute. repeat split. Qed.

(** ** [close] *)

Lemma run_logging_await {St A R : Type} (b : Backend St) (on : RedisClientType)
    (cmd : command R) (c : Client) (k : Error + R -> Client -> Async A)
    (st : St) (log : list issued) :
  run (logging b) (Await on cmd c k) (st, log) =
  run (logging b) (k (exec b on cmd st).1 c)
      ((exec b on cmd st).2, log ++ [sent (session on) cmd]).
Proof. simpl. by destruct (exec b on cmd st). Qed.

(** C8, as amended.  [close()] checks readiness first: on a client that is
    not Ready (already closed, never connected, or reconnecting) it raises
    [NotReady] and changes nothing.  On a Ready client it quits each session
    that is there, the data session first, tolerating the absence of either
    or both, and when the quits succeed it leaves the client disconnected
    with the local cache empty. *)
Theorem close_when_ready (c : Client) :
  (connected c = false \/ reconnecting c = true ->
   RedisCacheClient.close c = Done (inl CacheErrors.NotReady) c) /\
  (RedisCacheClient.isReady c = inr tt ->
   forall St (b : Backend St) (st : St) (log : list issued),
     (forall on s, (exec b on QUIT s).1 = inr tt) ->
     let r := run (logging b) (RedisCacheClient.close c) (st, log) in
     outcome r = inr tt /\
     connected (final r) = false /\
     localCacheManager (final r) = ∅ /\
     (backend_state r).2 = log ++ quits c).
Proof.
  split.
  - intros H. unfold RedisCacheClient.close. by rewrite (isReady_not c H).
  - intros Hready St b st log Hquit.
    unfold RedisCacheClient.close, ConnectionManager.closeClients, quits.
    rewrite Hready.
    destruct (dataClient (redisConnectionManager c)) as [d|]; cbn [bind].
    + rewrite run_logging_await, Hquit.
      destruct (invalidationClient (redisConnectionManager c)) as [i|]; cbn [bind].
      * rewrite run_logging_await, Hquit. cbn. by rewrite <- app_assoc.
      * cbn. done.
    + destruct (invalidationClient (redisConnectionManager c)) as [i|]; cbn [bind].
      * rewrite run_logging_await, Hquit. cbn. done.
      * cbn. by rewrite app_nil_r.
Qed.

Lemma close_when_ready_witness :
  localCacheManager (final (run (logging Fixtures.store) (RedisCacheClient.close Fixtures.client)
                  (∅, []))) = ∅.
Proof.
  destruct (close_when_ready Fixtures.client) as [_ H].
  apply (H eq_refl _ Fixtures.store ∅ []).
  intros on s. reflexivity.
Defined.

(** C8, the claim as stated fails on a client that is already closed: the
    second [close()] raises [NotReady]; so does the [close()] at the head of
    the reconnect loop, which runs with [reconnecting] set. *)
Lemma close_twice_raises :
  let r := run Fixtures.store (RedisCacheClient.close Fixtures.client) ∅ in
  outcome r = inr tt /\
  connected (final r) = false /\
  settled (RedisCacheClient.close (final r)) = Some (inl CacheErrors.NotReady) /\
  settled (RedisCacheClient.close
             (RedisCacheClient.handleConnectionLost Fixtures.client))
    = Some (inl CacheErrors.NotReady).
Proof. vm_compute. repeat split. Qed.

(** * Further properties of the code *)

(** ** Invalidation *)

Lemma foldl_delete_lookup (m : gmap string entry) (keys : list string) (key : string) :
  foldl ILocalCacheManager.delete m keys !! key =
  if decide (key ∈ keys) then None else m !! key.
Proof.
  revert m. induction keys as [|k keys IH]; intros m; cbn [foldl].
  - destruct (decide (key ∈ [])) as [H|H]; [by apply elem_of_nil in H|done].
  - rewrite IH. unfold ILocalCacheManager.delete.
    destruct (decide (key ∈ keys)) as [Hin|Hnin].
    + rewrite decide_True by (by right). done.
    + destruct (decide (key = k)) as [->|Hne].
      * rewrite decide_True by (by left). apply lookup_delete_eq.
      * rewrite decide_False.
        -- by rewrite lookup_delete_ne.
        -- intros [?|?]%elem_of_cons; done.
Qed.

(** X1.  A batch of physical keys on the invalidation channel deletes from
    the local cache exactly the slots it names and leaves every other slot,
    the readiness flags and the event log alone; a [null] message (flush
    everything) and any message that is not an array change nothing. *)
Theorem invalidation_message_effect (keys : list string) (c : Client) (key s : string) :
  let c' := invalidation_listener (MArray keys) c in
  localCacheManager c' !! key =
    (if decide (key ∈ keys) then None else localCacheManager c !! key) /\
  connected c' = connected c /\ reconnecting c' = reconnecting c /\
  emitted c' = emitted c /\
  invalidation_listener MNull c = c /\
  invalidation_listener (MOther s) c = c.
Proof.
  simpl. split; [apply foldl_delete_lookup|done].
Qed.

(** X2.  Invalidation consistency: once [set(k, v)] has made its local
    write, an invalidation batch that names the physical key of [k] makes the
    next [get(k)] miss the local cache and read the store again. *)
Theorem invalidated_key_is_refetched (ms : TTL -> Q) (c : Client) (cl : RedisClientType)
    (key : string) (v : value) (options : option SetOptions.t) (batch : list string) :
  RedisCacheClient.isReady c = inr tt ->
  dataClient (redisConnectionManager c) = Some cl ->
  RedisCacheClient.generateKey c key ∈ batch ->
  let c1 := first_state (RedisCacheClient.set ms key v options c) in
  let c2 := invalidation_listener (MArray batch) c1 in
  localCacheManager c2 !! RedisCacheClient.generateKey c key = None /\
  exists c3 k,
    RedisCacheClient.get key c2 =
      Await cl (MGET (requiresBuffer (Required.serializer (config c)))
                  [RedisCacheClient.generateKey c key]) c3 k.
Proof.
  intros Hready Hcl Hin c1 c2.
  assert (Hc1 : c1 = with_cache c
    (ILocalCacheManager.set (localCacheManager c) (RedisCacheClient.generateKey c key)
       (Plain v) (RedisCacheClient.convertOptions ms options)))
    by by apply set_first_state.
  assert (Hgone : localCacheManager c2 !! RedisCacheClient.generateKey c key = None).
  { subst c2. simpl. rewrite foldl_delete_lookup. by rewrite decide_True. }
  split; [done|].
  assert (Hcfg : config c2 = config c) by (subst c2; by rewrite Hc1).
  pose proof (get_miss key c2 cl) as Hget. cbv zeta in Hget.
  unfold RedisCacheClient.generateKey in *. rewrite Hcfg in Hget.
  eexists _, _. apply Hget.
  - subst c2. rewrite Hc1. exact Hready.
  - subst c2. rewrite Hc1. exact Hcl.
  - unfold ILocalCacheManager.get. by rewrite Hgone.
Qed.

Lemma invalidated_key_is_refetched_witness :
  let c1 := first_state (RedisCacheClient.set Fixtures.ms "k" (VNumber 1) None
                           Fixtures.client) in
  localCacheManager (invalidation_listener (MArray ["cache:k"]) c1) !! "cache:k" = None.
Proof.
  apply (invalidated_key_is_refetched Fixtures.ms Fixtures.client
           {| url := "redis://localhost:6379"; session := DataSession |}
           "k" (VNumber 1) None ["cache:k"]).
  - reflexivity.
  - reflexivity.
  - by left.
Defined.

(** ** Connection loss *)

(** X3.  An ['end'] or a ['close'] event of either session runs
    [handleConnectionLost].  Up to its first suspension it leaves the client
    not Ready, emits ['reconnecting'] only when no reconnection was already
    under way, keeps the local cache as it is, and a second such event
    changes nothing more. *)
Theorem connection_lost_effect (s : Session) (c : Client) :
  let c' := RedisCacheClient.on_session_event s OnEnd c in
  RedisCacheClient.on_session_event s OnClose c = c' /\
  RedisCacheClient.isReady c' = inl CacheErrors.NotReady /\
  connected c' = false /\ reconnecting c' = true /\
  localCacheManager c' = localCacheManager c /\
  emitted c' = (if reconnecting c then emitted c else emitted c ++ [EvReconnecting]) /\
  RedisCacheClient.on_session_event s OnEnd c' = c' /\
  RedisCacheClient.on_session_event s OnClose c' = c'.
Proof.
  destruct s, c as [id cfg m mgr rec conn d ev]; destruct rec; simpl;
    repeat split; reflexivity.
Qed.

(** ** The constructor *)

Lemma rev_app_app (s1 s2 acc : string) :
  String.rev_app (s1 +:+ s2) acc = String.rev_app s2 (String.rev_app s1 acc).
Proof. revert acc. induction s1 as [|a s1 IH]; intros acc; simpl; [done|apply IH]. Qed.

Lemma endsWith_colon_app (p : string) : endsWith (p +:+ ":") ":" = true.
Proof.
  unfold endsWith, String.rev. rewrite rev_app_app. simpl.
  by destruct (String.rev_app p EmptyString).
Qed.

(** X4.  Given a configuration whose optional properties are each left out
    or set to a value of their type, the constructor yields a client whose
    prefix ends with [":"]: the supplied prefix (["cache:"] when none is
    supplied) is kept when it already ends so and gets a [":"] appended
    otherwise.  The new client is not Ready, has no ['error'] listener, has
    emitted nothing, holds both sessions on the configured URI and uses the
    supplied local cache. *)
Theorem new_client_state ms pack unpack (cfg : CacheConfig.t) :
  let c := RedisCacheClient.new ms pack unpack cfg in
  let p := default "cache:" (CacheConfig.prefix cfg) in
  endsWith (Required.prefix (config c)) ":" = true /\
  (Required.prefix (config c) = p \/ Required.prefix (config c) = p +:+ ":") /\
  (endsWith p ":" = true -> Required.prefix (config c) = p) /\
  RedisCacheClient.isReady c = inl CacheErrors.NotReady /\
  error_listeners c = 0%nat /\
  emitted c = [] /\
  localCacheManager c = CacheConfig.localCacheManager cfg /\
  dataClient (redisConnectionManager c)
    = Some {| url := CacheConfig.uri cfg; session := DataSession |} /\
  invalidationClient (redisConnectionManager c)
    = Some {| url := CacheConfig.uri cfg; session := InvalidationSession |}.
Proof.
  unfold RedisCacheClient.new, merge_config. simpl.
  destruct (endsWith (default "cache:" (CacheConfig.prefix cfg)) ":") eqn:E; simpl.
  - repeat split; auto.
  - repeat split; auto; try discriminate. apply endsWith_colon_app.
Qed.

(** ** [mset] *)

Lemma exec_all_logging_aux {St R : Type} (b : Backend St) (on : RedisClientType)
    (cmds : list (command R)) (rs0 : list (Error + R)) (st : St) (log : list issued) :
  foldl (fun acc cmd =>
           let '(r, st') := exec (logging b) on cmd acc.2 in (acc.1 ++ [r], st'))
        (rs0, (st, log)) cmds =
  let x := foldl (fun acc cmd =>
                    let '(r, st') := exec b on cmd acc.2 in (acc.1 ++ [r], st'))
                 (rs0, st) cmds in
  (x.1, (x.2, log ++ map (sent (session on)) cmds)).
Proof.
  revert rs0 st log. induction cmds as [|cmd cmds IH]; intros rs0 st log; simpl.
  - by rewrite app_nil_r.
  - destruct (exec b on cmd st) as [r st'] eqn:E. simpl.
    rewrite IH. simpl. by rewrite <- app_assoc.
Qed.

Lemma exec_all_logging {St R : Type} (b : Backend St) (on : RedisClientType)
    (cmds : list (command R)) (st : St) (log : list issued) :
  exec_all (logging b) on cmds (st, log) =
  ((exec_all b on cmds st).1,
   ((exec_all b on cmds st).2, log ++ map (sent (session on)) cmds)).
Proof. unfold exec_all. apply exec_all_logging_aux. Qed.

Lemma mset_first_state ms entries options c :
  RedisCacheClient.isReady c = inr tt ->
  first_state (RedisCacheClient.mset ms entries options c) =
  with_cache c
    (foldl (fun m e =>
              ILocalCacheManager.set m (RedisCacheClient.generateKey c e.1)
                (Plain e.2) (RedisCacheClient.convertOptions ms options))
           (localCacheManager c) entries).
Proof.
  intros Hready. unfold RedisCacheClient.mset. rewrite Hready.
  destruct entries as [|e entries]; [by rewrite with_cache_same|].
  change (length (e :: entries) =? 0)%nat with false. cbv iota.
  rewrite mset_entries_spec. unfold getDataClient.
  by destruct (dataClient (redisConnectionManager c)).
Qed.

Lemma foldl_set_lookup_notin (f : string -> string) o (entries : list (string * value))
    (m : gmap string entry) (fk : string) :
  fk ∉ map (fun e => f e.1) entries ->
  foldl (fun m e => ILocalCacheManager.set m (f e.1) (Plain e.2) o) m entries !! fk
    = m !! fk.
Proof.
  revert m. induction entries as [|[k v] entries IH]; intros m Hnin; simpl; [done|].
  simpl in Hnin. apply not_elem_of_cons in Hnin as [Hne Hnin].
  rewrite IH by done. unfold ILocalCacheManager.set. by rewrite lookup_insert_ne.
Qed.

(** X5.  The local write of [mset] is optimistic and is never taken back: in
    Ready state, when no key is written twice, every entry reads back from the
    local cache as soon as [mset] first yields, slots of other keys are left
    alone, and whatever the store then answers, a rejected write included, the
    client ends in that very state. *)
Theorem mset_local_write_is_kept (ms : TTL -> Q) (c : Client)
    (entries : list (string * value)) (options : option SetOptions.t) :
  RedisCacheClient.isReady c = inr tt ->
  NoDup (map fst entries) ->
  let m := RedisCacheClient.mset ms entries options c in
  (forall k v, (k, v) ∈ entries ->
     ILocalCacheManager.get (localCacheManager (first_state m))
       (RedisCacheClient.generateKey c k) = Plain v) /\
  (forall fk, fk ∉ map (fun e => RedisCacheClient.generateKey c e.1) entries ->
     localCacheManager (first_state m) !! fk = localCacheManager c !! fk) /\
  (forall St (b : Backend St) (st : St), final (run b m st) = first_state m).
Proof.
  intros Hready Hnodup m. subst m. rewrite mset_first_state by done. simpl.
  split; [|split].
  - generalize (localCacheManager c). induction entries as [|[k0 v0] entries IH];
      intros m0 k v Hin; [by apply elem_of_nil in Hin|].
    apply NoDup_cons in Hnodup as [Hk0 Hnodup]. simpl.
    apply elem_of_cons in Hin as [[= -> ->]|Hin].
    + unfold ILocalCacheManager.get. rewrite foldl_set_lookup_notin.
      * unfold ILocalCacheManager.set. by rewrite lookup_insert_eq.
      * intros Hin. apply list_elem_of_fmap in Hin as ([k' v'] & Heq & Hin').
        apply generateKey_inj in Heq. simpl in Heq. subst k'.
        apply Hk0. apply list_elem_of_fmap. by exists (k0, v').
    + by apply IH.
  - intros fk Hfk. by apply foldl_set_lookup_notin.
  - intros St b st. unfold RedisCacheClient.mset. rewrite Hready.
    destruct entries as [|e entries]; [simpl; by rewrite with_cache_same|].
    change (length (e :: entries) =? 0)%nat with false. cbv iota.
    rewrite mset_entries_spec. unfold getDataClient.
    destruct (dataClient (redisConnectionManager c)) as [cl|]; [|done].
    cbn [callAll run]. destruct (exec_all b cl _ st) as [rs st1].
    destruct (all_settled rs) as [e'|oks]; [done|].
    cbn [call run]. by destruct (exec b cl _ st1) as [[e'|n] st2].
Qed.

Lemma mset_local_write_is_kept_witness :
  ILocalCacheManager.get
    (localCacheManager
       (first_state (RedisCacheClient.mset Fixtures.ms
                       [("a", VNumber 1); ("b", VNumber 2)] None Fixtures.client)))
    (RedisCacheClient.generateKey Fixtures.client "b") = Plain (VNumber 2).
Proof.
  apply (mset_local_write_is_kept Fixtures.ms Fixtures.client
           [("a", VNumber 1); ("b", VNumber 2)] None).
  - reflexivity.
  - simpl. apply NoDup_cons. split; [|apply NoDup_singleton].
    intros H. by apply list_elem_of_singleton in H.
  - right. by left.
Defined.

(** X6.  What a non-empty [mset] sends, run alone: one [SET] per entry, in
    order, each with the physical key, the serialized value and the expiry in
    force, all issued whatever their outcome; then, only when every [SET] was
    accepted, one [TOUCH] of all the physical keys.  When a [SET] is rejected
    the call fails with the first rejection and no [TOUCH] is sent. *)
Theorem mset_commands (ms : TTL -> Q) (c : Client) (cl : RedisClientType)
    (entries : list (string * value)) (options : option SetOptions.t)
    (St : Type) (b : Backend St) (st : St) (log : list issued) :
  RedisCacheClient.isReady c = inr tt ->
  dataClient (redisConnectionManager c) = Some cl ->
  entries <> [] ->
  let sets := map (fun e => SET (RedisCacheClient.generateKey c e.1)
                               (serialize (Required.serializer (config c)) e.2)
                               (RedisCacheClient.mset_ttl ms options c)) entries in
  let touch := TOUCH (map (fun e => RedisCacheClient.generateKey c e.1) entries) in
  let r := run (logging b) (RedisCacheClient.mset ms entries options c) (st, log) in
  match all_settled (exec_all b cl sets st).1 with
  | inr _ =>
      (backend_state r).2 =
        log ++ map (sent (session cl)) sets ++ [sent (session cl) touch]
  | inl e =>
      (backend_state r).2 = log ++ map (sent (session cl)) sets /\
      outcome r = inl e
  end.
Proof.
  intros Hready Hcl Hne sets touch r. subst r.
  unfold RedisCacheClient.mset. rewrite Hready.
  destruct entries as [|e0 entries]; [done|].
  change (length (e0 :: entries) =? 0)%nat with false. cbv iota.
  rewrite mset_entries_spec. unfold getDataClient. rewrite Hcl. rewrite app_nil_l.
  cbn [callAll run].
  assert (Hsets : map (fun '(key, v) => SET key v (RedisCacheClient.mset_ttl ms options c))
                    (map (fun e => (RedisCacheClient.generateKey c e.1,
                                    serialize (Required.serializer (config c)) e.2))
                         (e0 :: entries)) = sets).
  { subst sets. rewrite map_map. reflexivity. }
  assert (Htouch : TOUCH (map fst
                    (map (fun e => (RedisCacheClient.generateKey c e.1,
                                    serialize (Required.serializer (config c)) e.2))
                         (e0 :: entries))) = touch).
  { subst touch. rewrite map_map. reflexivity. }
  rewrite Hsets, Htouch. rewrite exec_all_logging.
  destruct (all_settled (exec_all b cl sets st).1) as [e|oks].
  - cbn. done.
  - cbn [call]. rewrite run_logging_await.
    destruct (exec b cl touch (exec_all b cl sets st).2) as [[e|n] st2]; cbn;
      by rewrite <- app_assoc.
Qed.

Lemma mset_commands_witness :
  (backend_state
     (run (logging Fixtures.store)
        (RedisCacheClient.mset Fixtures.ms [("a", VNumber 1)] None Fixtures.client)
        (∅, []))).2 =
  [sent DataSession (SET "cache:a" (Fixtures.pack (VNumber 1))
                       (RedisCacheClient.getTtlFromString Fixtures.ms "1 hour"));
   sent DataSession (TOUCH ["cache:a"])].
Proof.
  exact (mset_commands Fixtures.ms Fixtures.client
           {| url := "redis://localhost:6379"; session := DataSession |}
           [("a", VNumber 1)] None _ Fixtures.store ∅ []
           eq_refl eq_refl ltac:(discriminate)).
Defined.

(** ** [mdel], [delete] *)

(** X7.  In Ready state [mdel] first asks the store to delete all the
    physical keys in one [DEL].  When the store has answered, whatever count
    it reports, the local slots of exactly those keys are deleted and every
    other slot is left alone.  When the [DEL] is rejected the call fails with
    that error and the local cache is not touched. *)
Theorem mdel_effect (c : Client) (cl : RedisClientType) (keys : list string) :
  RedisCacheClient.isReady c = inr tt ->
  dataClient (redisConnectionManager c) = Some cl ->
  let fullKeys := map (RedisCacheClient.generateKey c) keys in
  exists k,
    RedisCacheClient.mdel keys c = Await cl (DEL fullKeys) c k /\
    (forall (n : Z) (c1 : Client), exists c2,
       k (inr n) c1 = Done (inr tt) c2 /\
       (forall fk, localCacheManager c2 !! fk =
                   if decide (fk ∈ fullKeys) then None else localCacheManager c1 !! fk) /\
       emitted c2 = emitted c1 /\ connected c2 = connected c1) /\
    (forall (e : Error) (c1 : Client), k (inl e) c1 = Done (inl e) c1).
Proof.
  intros Hready Hcl fullKeys. unfold RedisCacheClient.mdel. rewrite Hready.
  unfold getDataClient. rewrite Hcl. simpl. fold fullKeys.
  eexists. split; [reflexivity|]. split; [|done].
  intros n c1. eexists. split; [reflexivity|]. simpl.
  split; [|done]. intros fk. apply foldl_delete_lookup.
Qed.

Lemma mdel_effect_witness :
  exists k,
    RedisCacheClient.mdel ["a"; "b"] Fixtures.client =
      Await {| url := "redis://localhost:6379"; session := DataSession |}
        (DEL ["cache:a"; "cache:b"]) Fixtures.client k.
Proof.
  destruct (mdel_effect Fixtures.client
              {| url := "redis://localhost:6379"; session := DataSession |}
              ["a"; "b"] eq_refl eq_refl) as (k & Hk & _).
  exists k. exact Hk.
Defined.

(** X8.  Deleting a key that has no local slot: in Ready state, run alone
    against a store that accepts the [DEL], [delete(k)] succeeds and leaves
    the client exactly as it was. *)
Theorem delete_absent_key (c : Client) (key : string)
    (St : Type) (b : Backend St) (st : St) :
  RedisCacheClient.isReady c = inr tt ->
  localCacheManager c !! RedisCacheClient.generateKey c key = None ->
  (forall cl ks s, exists n s', exec b cl (DEL ks) s = (inr n, s')) ->
  is_Some (dataClient (redisConnectionManager c)) ->
  let r := run b (RedisCacheClient.delete key c) st in
  outcome r = inr tt /\ final r = c.
Proof.
  intros Hready Habsent Hdel [cl Hcl] r. subst r.
  unfold RedisCacheClient.delete, RedisCacheClient.mdel. rewrite Hready.
  unfold getDataClient. rewrite Hcl. cbn [call bind run map].
  destruct (Hdel cl [RedisCacheClient.generateKey c key] st) as (n & s' & ->).
  cbn. split; [done|].
  unfold final, ILocalCacheManager.delete. simpl.
  rewrite delete_id by done. apply with_cache_same.
Qed.

Lemma delete_absent_key_witness :
  final (run Fixtures.store (RedisCacheClient.delete "k" Fixtures.client) ∅)
    = Fixtures.client.
Proof.
  apply (delete_absent_key Fixtures.client "k" _ Fixtures.store ∅).
  - reflexivity.
  - reflexivity.
  - intros cl ks s. eexists _, _. reflexivity.
  - eexists. reflexivity.
Defined.

(** ** [ttl] *)

(** X9.  [ttl(k)] keeps the mirror honest.  In Ready state, with a value
    cached for [k], run alone: it returns what the store reports; when the
    store reports -2 (no such key) the local slot is evicted, so that the next
    [get(k)] reads the store again; on any other report the client is left
    exactly as it was and [get(k)], for a key other than ["__proto__"], is
    still served from the local cache. *)
Theorem ttl_evicts_missing_key (c : Client) (cl : RedisClientType) (key : string)
    (v : value) (t : Z) (St : Type) (b : Backend St) (st st' : St) :
  RedisCacheClient.isReady c = inr tt ->
  dataClient (redisConnectionManager c) = Some cl ->
  key <> "__proto__" ->
  ILocalCacheManager.get (localCacheManager c) (RedisCacheClient.generateKey c key)
    = Plain v ->
  v <> VUndefined ->
  exec b cl (TTL_QUERY (RedisCacheClient.generateKey c key)) st = (inr t, st') ->
  let r := run b (RedisCacheClient.ttl key c) st in
  outcome r = inr t /\
  (t = (-2)%Z ->
   localCacheManager (final r) !! RedisCacheClient.generateKey c key = None /\
   settled (RedisCacheClient.get key (final r)) = None) /\
  (t <> (-2)%Z ->
   final r = c /\
   RedisCacheClient.get key (final r) = Done (inr (nullish v VNull)) c).
Proof.
  intros Hready Hcl Hkey Hhit Hv Hexec r. subst r.
  unfold RedisCacheClient.ttl. rewrite Hready. unfold getDataClient. rewrite Hcl.
  cbn [call run]. rewrite Hexec.
  destruct (Z.eqb_spec t (-2)) as [->|Hne]; cbn.
  - split; [done|]. split; [|done]. intros _.
    assert (Hgone : localCacheManager
              (with_cache c (ILocalCacheManager.delete (localCacheManager c)
                               (RedisCacheClient.generateKey c key)))
              !! RedisCacheClient.generateKey c key = None)
      by apply lookup_delete_eq.
    split; [exact Hgone|].
    rewrite (get_miss key _ cl); [done|done|done|].
    unfold ILocalCacheManager.get.
    change (RedisCacheClient.generateKey (with_cache c _) key)
      with (RedisCacheClient.generateKey c key).
    by rewrite Hgone.
  - split; [done|]. split; [done|]. intros _. split; [done|].
    unfold final. simpl. by apply get_hit.
Qed.

Lemma ttl_evicts_missing_key_witness :
  let c := final Fixtures.after_set_a in
  localCacheManager (final (run Fixtures.store (RedisCacheClient.ttl "a" c) ∅))
    !! "cache:a" = None.
Proof.
  intros c.
  apply (ttl_evicts_missing_key c
           {| url := "redis://localhost:6379"; session := DataSession |}
           "a" (VNumber 1) (-2) _ Fixtures.store ∅ ∅); reflexivity || discriminate.
Defined.

(** ** [keys] *)

Lemma slice_app (p k : string) : slice (String.length p) (p +:+ k) = k.
Proof. induction p as [|a p IH]; simpl; [by destruct k|exact IH]. Qed.

Lemma foldl_Set_add_NoDup (f : string -> string) (l acc : list string) :
  NoDup acc -> NoDup (foldl (fun acc key => Set_add acc (f key)) acc l).
Proof.
  revert acc. induction l as [|key l IH]; intros acc Hacc; simpl; [done|].
  apply IH. unfold Set_add. destruct (decide (f key ∈ acc)); [done|].
  apply NoDup_app. split; [done|]. split; [|apply NoDup_singleton].
  intros x Hx Hx'. apply list_elem_of_singleton in Hx'. by subst.
Qed.

Lemma foldl_Set_add_elem (f : string -> string) (l acc : list string) (x : string) :
  x ∈ foldl (fun acc key => Set_add acc (f key)) acc l <->
  x ∈ acc \/ exists key, key ∈ l /\ x = f key.
Proof.
  revert acc. induction l as [|key l IH]; intros acc; simpl.
  - split; [by left|]. intros [?|(key & Hkey & _)]; [done|].
    by apply elem_of_nil in Hkey.
  - rewrite IH. unfold Set_add. split.
    + intros [Hx|(key' & Hin & ->)].
      * destruct (decide (f key ∈ acc)); [by left|].
        apply elem_of_app in Hx as [Hx|Hx]; [by left|].
        apply list_elem_of_singleton in Hx. right. exists key. split; [by left|done].
      * right. exists key'. split; [by right|done].
    + intros [Hx|(key' & Hin & ->)].
      * left. destruct (decide (f key ∈ acc)); [done|].
        apply elem_of_app. by left.
      * apply elem_of_cons in Hin as [->|Hin].
        -- left. destruct (decide (f key ∈ acc)); [done|].
           apply elem_of_app. right. by apply list_elem_of_singleton.
        -- right. by exists key'.
Qed.

Lemma foldl_Set_add_fresh (f : string -> string) (l acc : list string) :
  NoDup (map f l) -> (forall x, x ∈ map f l -> x ∉ acc) ->
  foldl (fun acc key => Set_add acc (f key)) acc l = acc ++ map f l.
Proof.
  revert acc. induction l as [|key l IH]; intros acc Hnd Hfresh; simpl.
  - by rewrite app_nil_r.
  - simpl in Hnd. apply NoDup_cons in Hnd as [Hkey Hnd].
    unfold Set_add. rewrite decide_False by (apply Hfresh; by left).
    rewrite IH; [by rewrite <- app_assoc|done|].
    intros x Hx Hx'. apply elem_of_app in Hx' as [Hx'|Hx'].
    + apply (Hfresh x); [by right|done].
    + apply list_elem_of_singleton in Hx'. by subst.
Qed.

(** X10.  In Ready state [keys(pattern)] asks the data session for one scan
    of the pattern under the prefix (["*"] when no pattern is given) with the
    configured count, and leaves the client as it finds it.  What it returns
    has no duplicates and consists exactly of the yielded keys with the first
    [prefix.length] characters cut off; in particular, when the store yields
    the physical keys of distinct logical keys, it returns those logical keys
    in the order yielded. *)
Theorem keys_result (c : Client) (cl : RedisClientType) (pattern : option string) :
  RedisCacheClient.isReady c = inr tt ->
  dataClient (redisConnectionManager c) = Some cl ->
  let p := Required.prefix (config c) in
  exists k,
    RedisCacheClient.keys pattern c =
      Await cl (SCAN_ITERATOR (p +:+ default "*" pattern)
                  (Required.scanKeysCount (config c))) c k /\
    forall (yielded : list string) (c1 : Client), exists result,
      k (inr yielded) c1 = Done (inr result) c1 /\
      NoDup result /\
      (forall x, x ∈ result <->
                 exists key, key ∈ yielded /\ x = slice (String.length p) key) /\
      (forall logical, NoDup logical ->
         yielded = map (RedisCacheClient.generateKey c) logical ->
         result = logical).
Proof.
  intros Hready Hcl p. unfold RedisCacheClient.keys. rewrite Hready.
  unfold getDataClient. rewrite Hcl. simpl. fold p.
  eexists. split; [reflexivity|]. intros yielded c1. eexists. split; [reflexivity|].
  split; [apply foldl_Set_add_NoDup, NoDup_nil_2|]. split.
  - intros x. rewrite foldl_Set_add_elem. split.
    + intros [Hx|H]; [by apply elem_of_nil in Hx|done].
    + intros H. by right.
  - intros logical Hnd ->.
    assert (Hmap : map (slice (String.length p)) (map (RedisCacheClient.generateKey c) logical)
                   = logical).
    { rewrite map_map. rewrite <- (map_id logical) at 2. apply map_ext.
      intros k. apply slice_app. }
    rewrite foldl_Set_add_fresh; rewrite Hmap; [done|done|].
    intros x _ Hx. by apply elem_of_nil in Hx.
Qed.

Lemma keys_result_witness :
  exists k,
    RedisCacheClient.keys None Fixtures.client =
      Await {| url := "redis://localhost:6379"; session := DataSession |}
        (SCAN_ITERATOR "cache:*" 10000) Fixtures.client k.
Proof.
  destruct (keys_result Fixtures.client
              {| url := "redis://localhost:6379"; session := DataSession |}
              None eq_refl eq_refl) as (k & Hk & _).
  exists k. exact Hk.
Defined.

(** ** The first loop of [mget] *)

(** The three cases of a round of the first loop. *)
Lemma mget_scan_body_marked (keys fullKeys : list string) (i : nat)
    (m : gmap string entry) (r : object) (u : list string) :
  ILocalCacheManager.get m (fullKeys !!! i) = CACHING_IN_PROGRESS ->
  RedisCacheClient.mget_scan_body keys fullKeys i (m, r, u) =
    (m, assign r (keys !!! i) VUndefined, u).
Proof. intros H. unfold RedisCacheClient.mget_scan_body. by rewrite H. Qed.

Lemma mget_scan_body_miss (keys fullKeys : list string) (i : nat)
    (m : gmap string entry) (r : object) (u : list string) :
  ILocalCacheManager.get m (fullKeys !!! i) = Plain VUndefined ->
  RedisCacheClient.mget_scan_body keys fullKeys i (m, r, u) =
    (mark m (fullKeys !!! i), r, u ++ [fullKeys !!! i]).
Proof. intros H. unfold RedisCacheClient.mget_scan_body. by rewrite H. Qed.

Lemma mget_scan_body_hit (keys fullKeys : list string) (i : nat)
    (m : gmap string entry) (r : object) (u : list string) (v : value) :
  ILocalCacheManager.get m (fullKeys !!! i) = Plain v -> v <> VUndefined ->
  RedisCacheClient.mget_scan_body keys fullKeys i (m, r, u) =
    (m, assign r (keys !!! i) v, u).
Proof. intros H Hv. unfold RedisCacheClient.mget_scan_body. rewrite H. by destruct v. Qed.

(** While ["__proto__"] is not among the keys, [result] keeps the
    prototype it was created with. *)
Lemma scan_prototype (keys fullKeys : list string) (m0 : gmap string entry) (n : nat) :
  "__proto__" ∉ keys -> n <= length keys ->
  prototype (for_range n (RedisCacheClient.mget_scan_body keys fullKeys) (m0, ∅, [])).1.2
    = Object_prototype.
Proof.
  intros Hord. induction n as [|n IH]; intros Hn; [done|].
  rewrite for_range_S.
  destruct (for_range n _ _) as [[m r] u]. simpl in IH.
  destruct (lookup_lt_is_Some_2 keys n) as [k Hk]; [lia|].
  assert (k <> "__proto__").
  { intros ->. apply Hord. by eapply list_elem_of_lookup_2. }
  unfold RedisCacheClient.mget_scan_body.
  rewrite (list_lookup_total_correct _ _ _ Hk).
  destruct (ILocalCacheManager.get m (fullKeys !!! n)) as [[]|]; simpl;
    rewrite ?prototype_assign by done; apply IH; lia.
Qed.

Section ScanGeneral.
Variable c : Client.
Variable keys : list string.

Lemma scan_general (n : nat) :
  n <= length keys ->
  exists m r u,
    for_range n
      (RedisCacheClient.mget_scan_body keys (map (RedisCacheClient.generateKey c) keys))
      (localCacheManager c, ∅, []) = (m, r, u) /\
    NoDup u /\
    m = foldl mark (localCacheManager c) u /\
    (forall fk, fk ∈ u <->
       fk ∈ take n (map (RedisCacheClient.generateKey c) keys) /\
       ILocalCacheManager.get (localCacheManager c) fk = Plain VUndefined) /\
    (forall k, k ∉ take n keys -> r !! k = None) /\
    (forall k v, k ∈ take n keys -> k <> "__proto__" ->
       ILocalCacheManager.get (localCacheManager c) (RedisCacheClient.generateKey c k)
         = Plain v ->
       v <> VUndefined -> r !! k = Some v) /\
    (forall k, k ∈ take n keys -> k <> "__proto__" ->
       ILocalCacheManager.get (localCacheManager c) (RedisCacheClient.generateKey c k)
         = CACHING_IN_PROGRESS ->
       r !! k = Some VUndefined).
Proof.
  induction n as [|n IH]; intros Hn.
  - exists (localCacheManager c), ∅, []. split; [done|]. split; [apply NoDup_nil_2|].
    split; [done|]. split.
    { intros fk. split; [intros H; by apply elem_of_nil in H|].
      intros [H _]. by apply elem_of_nil in H. }
    split; [done|]. split; intros k; [intros v|]; intros H; by apply elem_of_nil in H.
  - destruct IH as (m & r & u & Hrun & Hnd & Hm & Hu & Hout & Hhit & Hmark); [lia|].
    rewrite for_range_S, Hrun.
    destruct (lookup_lt_is_Some_2 keys n) as [k Hk]; [lia|].
    assert (Hfk : map (RedisCacheClient.generateKey c) keys !! n
                  = Some (RedisCacheClient.generateKey c k))
      by by rewrite list_lookup_fmap, Hk.
    rewrite (take_S_r _ _ _ Hk), (take_S_r _ _ _ Hfk).
    assert (Helem : forall (l : list string) (x y : string),
              x ∈ l ++ [y] <-> x ∈ l \/ x = y).
    { intros l x y. rewrite elem_of_app, list_elem_of_singleton. done. }
    destruct (decide ((RedisCacheClient.generateKey c k) ∈ u)) as [Hin|Hnin].
    + (* asked before in this call and missed then: now marked *)
      pose proof (proj1 (Hu (RedisCacheClient.generateKey c k)) Hin) as [_ Hmiss0].
      rewrite mget_scan_body_marked
        by (rewrite (list_lookup_total_correct _ _ _ Hfk), Hm; by apply get_foldl_mark_in).
      rewrite (list_lookup_total_correct _ _ _ Hk).
      eexists _, _, _. split; [reflexivity|]. split; [done|]. split; [done|].
      split; [|split; [|split]].
      * intros fk. rewrite Hu, Helem. split; [intros [? ?]; auto|].
        intros [[?| ->] ?]; [done|]. by apply Hu.
      * intros k' Hk'. rewrite Helem in Hk'.
        rewrite lookup_assign_ne by (intros ->; apply Hk'; by right).
        apply Hout. intros ?. apply Hk'. by left.
      * intros k' v Hk' Hord Hv Hne. apply Helem in Hk' as [Hk'| ->].
        -- destruct (decide (k = k')) as [<-|?]; [congruence|].
           rewrite lookup_assign_ne by done. by apply Hhit.
        -- congruence.
      * intros k' Hk' Hord Hv. apply Helem in Hk' as [Hk'| ->].
        -- destruct (decide (k = k')) as [<-|?]; [by apply lookup_assign_eq|].
           rewrite lookup_assign_ne by done. by apply Hmark.
        -- by apply lookup_assign_eq.
    + assert (Hsame : ILocalCacheManager.get m (RedisCacheClient.generateKey c k)
                      = ILocalCacheManager.get (localCacheManager c) (RedisCacheClient.generateKey c k))
        by (rewrite Hm; by apply get_foldl_mark_notin).
      destruct (ILocalCacheManager.get (localCacheManager c) (RedisCacheClient.generateKey c k)) as [v|] eqn:H0.
      * destruct (decide (v = VUndefined)) as [->|Hv].
        -- (* a miss: marked and collected *)
           rewrite mget_scan_body_miss
             by by rewrite (list_lookup_total_correct _ _ _ Hfk).
           rewrite (list_lookup_total_correct _ _ _ Hfk).
           eexists _, _, _. split; [reflexivity|].
           split. { apply NoDup_app. split; [done|]. split; [|apply NoDup_singleton].
                    intros x Hx Hx'. apply list_elem_of_singleton in Hx'. by subst. }
           split. { by rewrite foldl_app, <- Hm. }
           split; [|split; [|split]].
           ++ intros fk. rewrite !Helem, Hu. split.
              ** intros [[? ?]| ->]; auto.
              ** intros [[?| ->] ?]; auto.
           ++ intros k' Hk'. rewrite Helem in Hk'. apply Hout. intros ?. apply Hk'. by left.
           ++ intros k' v Hk' Hord Hv Hne. apply Helem in Hk' as [Hk'| ->]; [by apply Hhit|].
              congruence.
           ++ intros k' Hk' Hord Hv. apply Helem in Hk' as [Hk'| ->]; [by apply Hmark|].
              congruence.
        -- (* a hit *)
           rewrite (mget_scan_body_hit _ _ _ _ _ _ v)
             by (by rewrite ?(list_lookup_total_correct _ _ _ Hfk)).
           rewrite (list_lookup_total_correct _ _ _ Hk).
           eexists _, _, _. split; [reflexivity|]. split; [done|]. split; [done|].
           split; [|split; [|split]].
           ++ intros fk. rewrite Hu, Helem. split; [intros [? ?]; auto|].
              intros [[?| ->] ?]; [done|]. congruence.
           ++ intros k' Hk'. rewrite Helem in Hk'.
              rewrite lookup_assign_ne by (intros ->; apply Hk'; by right).
              apply Hout. intros ?. apply Hk'. by left.
           ++ intros k' v' Hk' Hord Hv' Hne. apply Helem in Hk' as [Hk'| ->].
              ** destruct (decide (k = k')) as [<-|?].
                 { rewrite lookup_assign_eq by done. congruence. }
                 rewrite lookup_assign_ne by done. by apply Hhit.
              ** rewrite lookup_assign_eq by done. congruence.
           ++ intros k' Hk' Hord Hv'. apply Helem in Hk' as [Hk'| ->].
              ** destruct (decide (k = k')) as [<-|?]; [congruence|].
                 rewrite lookup_assign_ne by done. by apply Hmark.
              ** congruence.
      * (* marked by another call *)
        rewrite mget_scan_body_marked
          by by rewrite (list_lookup_total_correct _ _ _ Hfk).
        rewrite (list_lookup_total_correct _ _ _ Hk).
        eexists _, _, _. split; [reflexivity|]. split; [done|]. split; [done|].
        split; [|split; [|split]].
        -- intros fk. rewrite Hu, Helem. split; [intros [? ?]; auto|].
           intros [[?| ->] ?]; [done|]. congruence.
        -- intros k' Hk'. rewrite Helem in Hk'.
           rewrite lookup_assign_ne by (intros ->; apply Hk'; by right).
           apply Hout. intros ?. apply Hk'. by left.
        -- intros k' v' Hk' Hord Hv' Hne. apply Helem in Hk' as [Hk'| ->].
           ++ destruct (decide (k = k')) as [<-|?]; [congruence|].
              rewrite lookup_assign_ne by done. by apply Hhit.
           ++ congruence.
        -- intros k' Hk' Hord Hv'. apply Helem in Hk' as [Hk'| ->].
           ++ destruct (decide (k = k')) as [<-|?]; [by apply lookup_assign_eq|].
              rewrite lookup_assign_ne by done. by apply Hmark.
           ++ by apply lookup_assign_eq.
Qed.
End ScanGeneral.

(** X13.  The batch of an [mget]: in Ready state the keys it asks the store
    for are exactly the requested physical keys that read as a miss in the
    local cache, each once even when asked twice (keys that hit, or that
    another request is fetching, are not in the batch).  When it first yields,
    exactly the keys of the batch hold the marker and every other slot is as
    before.  With an empty batch the call ends without any store access and
    leaves the client as it was. *)
Theorem mget_batch (c : Client) (cl : RedisClientType) (keys : list string) :
  RedisCacheClient.isReady c = inr tt ->
  dataClient (redisConnectionManager c) = Some cl ->
  exists batch : list string,
    NoDup batch /\
    (forall fk, fk ∈ batch <->
       fk ∈ map (RedisCacheClient.generateKey c) keys /\
       ILocalCacheManager.get (localCacheManager c) fk = Plain VUndefined) /\
    (forall fk,
       ILocalCacheManager.get
         (localCacheManager (first_state (RedisCacheClient.mget keys c))) fk =
       if decide (fk ∈ batch) then CACHING_IN_PROGRESS
       else ILocalCacheManager.get (localCacheManager c) fk) /\
    (batch = [] -> exists result, RedisCacheClient.mget keys c = Done (inr result) c) /\
    (batch <> [] -> exists c1 k,
       RedisCacheClient.mget keys c =
         Await cl (MGET (requiresBuffer (Required.serializer (config c))) batch) c1 k).
Proof.
  intros Hready Hcl.
  destruct (scan_general c keys (length keys)) as (m & r & u & Hrun & Hnd & Hm & Hu & _);
    [done|].
  rewrite firstn_all2 in Hu by (by rewrite length_map).
  exists u. split; [done|]. split; [done|].
  unfold RedisCacheClient.mget, RedisCacheClient.mget_scan. rewrite Hready.
  rewrite length_map, Hrun.
  assert (Hslots : forall fk,
            ILocalCacheManager.get m fk =
            if decide (fk ∈ u) then CACHING_IN_PROGRESS
            else ILocalCacheManager.get (localCacheManager c) fk).
  { intros fk. rewrite Hm. destruct (decide (fk ∈ u)).
    - by apply get_foldl_mark_in.
    - by apply get_foldl_mark_notin. }
  destruct u as [|fk0 u]; simpl.
  - split; [exact Hslots|]. split; [|done]. intros _. exists r.
    rewrite Hm. simpl. by rewrite with_cache_same.
  - unfold getDataClient. rewrite Hcl. simpl.
    split; [exact Hslots|]. split; [done|]. intros _. by eexists _, _.
Qed.

Lemma mget_batch_witness :
  exists batch : list string,
    NoDup batch /\
    (forall fk, fk ∈ batch <->
       fk ∈ map (RedisCacheClient.generateKey Fixtures.client) ["a"; "a"] /\
       ILocalCacheManager.get (localCacheManager Fixtures.client) fk = Plain VUndefined).
Proof.
  destruct (mget_batch Fixtures.client
              {| url := "redis://localhost:6379"; session := DataSession |}
              ["a"; "a"] eq_refl eq_refl) as (batch & Hnd & Hbatch & _).
  exists batch. split; [exact Hnd|exact Hbatch].
Defined.

(** X14.  An [mget] whose keys all have a defined value in the local cache
    is served from it: in Ready state it ends without any store access and
    leaves the client exactly as it was.  When ["__proto__"] is not among
    the keys, the record it returns has the cached value of each requested
    key as an own property, no other own property, and [Object.prototype] as
    prototype. *)
Theorem mget_all_hits (c : Client) (keys : list string) :
  RedisCacheClient.isReady c = inr tt ->
  "__proto__" ∉ keys ->
  (forall k, k ∈ keys -> exists v,
     ILocalCacheManager.get (localCacheManager c) (RedisCacheClient.generateKey c k)
       = Plain v /\ v <> VUndefined) ->
  exists result,
    RedisCacheClient.mget keys c = Done (inr result) c /\
    (forall k v, k ∈ keys ->
       ILocalCacheManager.get (localCacheManager c) (RedisCacheClient.generateKey c k)
         = Plain v -> result !! k = Some v) /\
    (forall k, k ∉ keys -> result !! k = None) /\
    prototype result = Object_prototype.
Proof.
  intros Hready Hord Hhits.
  pose proof (scan_prototype keys (map (RedisCacheClient.generateKey c) keys)
                (localCacheManager c) (length keys) Hord ltac:(done)) as Hproto.
  destruct (scan_general c keys (length keys))
    as (m & r & u & Hrun & Hnd & Hm & Hu & Hout & Hhit & _); [done|].
  rewrite Hrun in Hproto. simpl in Hproto.
  rewrite firstn_all in Hout, Hhit.
  rewrite firstn_all2 in Hu by (by rewrite length_map).
  assert (u = []) as ->.
  { destruct u as [|fk u]; [done|]. exfalso.
    destruct (proj1 (Hu fk) ltac:(by left)) as [Hin Hmiss].
    apply list_elem_of_fmap in Hin as (k & -> & Hk).
    destruct (Hhits k Hk) as (v & Hv & Hne). congruence. }
  exists r. split.
  - unfold RedisCacheClient.mget, RedisCacheClient.mget_scan. rewrite Hready.
    rewrite length_map, Hrun. simpl. rewrite Hm. simpl. by rewrite with_cache_same.
  - split; [|by split]. intros k v Hk Hv. apply Hhit; [done| |done|].
    + by intros ->.
    + destruct (Hhits k Hk) as (v' & Hv' & Hne). congruence.
Qed.

Lemma mget_all_hits_witness :
  exists result,
    RedisCacheClient.mget ["a"; "b"; "a"] (final Fixtures.after_mset) =
      Done (inr result) (final Fixtures.after_mset).
Proof.
  destruct (mget_all_hits (final Fixtures.after_mset) ["a"; "b"; "a"] eq_refl)
    as (result & Hres & _).
  - not_among.
  - intros k Hk.
    apply elem_of_cons in Hk as [->|Hk]; [exists (VNumber 1); by split|].
    apply elem_of_cons in Hk as [->|Hk]; [exists (VNumber 2); by split|].
    apply list_elem_of_singleton in Hk as ->. exists (VNumber 1). by split.
  - exists result. exact Hres.
Defined.

(** ** [setLocal] *)

(** X11.  [setLocal] is local only: it sends nothing to the store, and in
    Ready state a [get] of the key that follows is served from the local cache
    with the value written (any key other than ["__proto__"], any value other
    than [undefined]).  The entry lives in the local cache alone: on a client
    with an ['error'] listener, after an ['error'] event of either session
    has emptied the cache, [get] of the key has to go to the store. *)
Theorem setLocal_is_local_only (ms : TTL -> Q) (c : Client) (cl : RedisClientType)
    (key : string) (v : value) (options : option SetOptions.t)
    (s : Session) (e : Error) :
  RedisCacheClient.isReady c = inr tt ->
  dataClient (redisConnectionManager c) = Some cl ->
  error_listeners c <> 0%nat ->
  key <> "__proto__" ->
  v <> VUndefined ->
  let m := RedisCacheClient.setLocal ms key v options c in
  let c1 := first_state m in
  settled m = Some (inr tt) /\
  RedisCacheClient.get key c1 = Done (inr (nullish v VNull)) c1 /\
  settled (RedisCacheClient.get key
             (RedisCacheClient.on_session_event s (OnError e) c1)) = None.
Proof.
  intros Hready Hcl Hl Hkey Hv m c1. subst m c1. simpl. split; [done|]. split.
  - apply get_hit; [done| |done|done]. simpl. apply cache_get_set.
  - set (c1 := with_cache c _).
    destruct (error_event_handled s e c1 Hl) as (Hc' & Hcache & Hconn & Hrec & Hcfg & Hmgr).
    rewrite (get_miss key _ cl); [done| | |].
    + apply isReady_ok in Hready as [? ?]. apply isReady_ok. by rewrite Hconn, Hrec.
    + by rewrite Hmgr.
    + unfold ILocalCacheManager.get. by rewrite Hcache.
Qed.

Lemma setLocal_is_local_only_witness :
  let c1 := first_state (RedisCacheClient.setLocal Fixtures.ms "k" (VNumber 1) None
                           Fixtures.client) in
  RedisCacheClient.get "k" c1 = Done (inr (VNumber 1)) c1.
Proof.
  apply (setLocal_is_local_only Fixtures.ms Fixtures.client
           {| url := "redis://localhost:6379"; session := DataSession |}
           "k" (VNumber 1) None DataSession (StoreError "lost")).
  - reflexivity.
  - reflexivity.
  - discriminate.
  - discriminate.
  - discriminate.
Defined.

(** ** Expiry in the two tiers *)

(** *** The nearest double *)

Lemma two_pow_pos (z : Z) : (0 < 2 ^ z)%Q.
Proof. apply Qpower_0_lt. reflexivity. Qed.

(** [ilog2] does not overshoot. *)
Lemma ilog2_le (x : Q) : (0 < x)%Q -> (2 ^ ilog2 x <= x)%Q.
Proof.
  intros Hx. unfold ilog2.
  set (n := Qnum x). set (d := Z.pos (Qden x)).
  destruct (Qle_bool (2 ^ (Z.log2 n - Z.log2 d)) x) eqn:E.
  - apply Qle_bool_iff; exact E.
  - assert (Hn : (0 < n)%Z).
    { unfold Qlt in Hx. simpl in Hx. lia. }
    assert (Hd : (0 < d)%Z) by (subst d; lia).
    destruct (Z.log2_spec n Hn) as [Hn1 _].
    destruct (Z.log2_spec d Hd) as [_ Hd2].
    pose proof (Z.log2_nonneg n). pose proof (Z.log2_nonneg d).
    replace (Z.log2 n - Z.log2 d - 1)%Z with (Z.log2 n - Z.succ (Z.log2 d))%Z by lia.
    rewrite Qpower_minus by (intros H1; discriminate H1).
    rewrite <- !(Zpower_Qpower 2) by lia.
    assert (Hxq : (x == inject_Z n / inject_Z d)%Q).
    { subst n d. rewrite <- Qmake_Qdiv. destruct x; reflexivity. }
    rewrite Hxq.
    assert (H2d : (0 < 2 ^ Z.succ (Z.log2 d))%Z) by (apply Z.pow_pos_nonneg; lia).
    apply Qle_shift_div_l. { rewrite <- (Zlt_Qlt 0). exact Hd. }
    unfold Qdiv. rewrite <- Qmult_assoc, (Qmult_comm (/ _)).
    rewrite Qmult_assoc. apply Qle_shift_div_r. { rewrite <- (Zlt_Qlt 0). exact H2d. }
    rewrite <- !inject_Z_mult. rewrite <- Zle_Qle. nia.
Qed.

Lemma round_half_even_error (s : Q) :
  (- (1 # 2) <= inject_Z (round_half_even s) - s <= 1 # 2)%Q.
Proof.
  unfold round_half_even.
  pose proof (Qfloor_le s) as Hlo. pose proof (Qlt_floor s) as Hhi.
  rewrite inject_Z_plus in Hhi. change (inject_Z 1) with 1%Q in Hhi.
  destruct (Qcompare_spec (s - inject_Z (Qfloor s)) (1 # 2)) as [H|H|H].
  - destruct (Z.even (Qfloor s)); rewrite ?inject_Z_plus; change (inject_Z 1) with 1%Q; lra.
  - lra.
  - rewrite inject_Z_plus. change (inject_Z 1) with 1%Q. lra.
Qed.

(** Rounding to 53 significant bits moves a positive number by at most one
    part in [2 ^ 53]. *)
Lemma nearest_error (x : Q) :
  (0 < x)%Q -> (- (x * (1 # 2 ^ 53)) <= nearest x - x <= x * (1 # 2 ^ 53))%Q.
Proof.
  intros Hx. unfold nearest.
  set (q := (ilog2 x - 52)%Z).
  pose proof (two_pow_pos q) as Hp.
  pose proof (ilog2_le x Hx) as Hlog.
  replace (ilog2 x) with (q + 52)%Z in Hlog by (subst q; lia).
  rewrite Qpower_plus in Hlog by (intros H1; discriminate H1).
  change (2 ^ 52)%Q with (4503599627370496 # 1)%Q in Hlog.
  pose proof (round_half_even_error (x / 2 ^ q)) as Hr.
  set (m := inject_Z (round_half_even (x / 2 ^ q))) in *.
  set (p := (2 ^ q)%Q) in *.
  assert (Hs : (x / p * p == x)%Q) by (field; lra).
  set (s := (x / p)%Q) in *.
  change (1 # 2 ^ 53)%Q with (1 # 9007199254740992)%Q.
  clearbody m s p. clear q.
  split; nra.
Qed.

Lemma binary64_proper (x y : Q) : (x == y)%Q -> binary64 x = binary64 y.
Proof. intros H. unfold binary64. rewrite (Qred_complete _ _ H). reflexivity. Qed.

Lemma binary64_error (x : Q) :
  (0 < x)%Q -> (- (x * (1 # 2 ^ 53)) <= binary64 x - x <= x * (1 # 2 ^ 53))%Q.
Proof.
  intros Hx. unfold binary64.
  assert (Hred : (0 < Qred x)%Q) by (rewrite Qred_correct; exact Hx).
  destruct (Qcompare_spec (Qred x) 0) as [H|H|H]; [rewrite H in Hred; lra|lra|].
  pose proof (nearest_error (Qred x) Hred) as He.
  pose proof (Qred_correct x) as Hxx.
  pose proof (Qred_correct (nearest (Qred x))) as Hnn.
  change (1 # 2 ^ 53)%Q with (1 # 9007199254740992)%Q in *.
  set (r := Qred x) in *. set (n := nearest r) in *. set (b := Qred n) in *.
  clearbody r n b. lra.
Qed.

(** The quotient by 1000 multiplied back by 1000, both in floating point,
    against the number one started from. *)
Lemma scaled_back_error (M : Q) :
  (0 < M)%Q ->
  (- (M * (1 # 2 ^ 51)) <= binary64 (binary64 (M / 1000) * 1000) - M
     <= M * (1 # 2 ^ 51))%Q.
Proof.
  intros HM.
  assert (Ha : (0 < M / 1000)%Q) by (apply Qlt_shift_div_l; lra).
  pose proof (binary64_error (M / 1000) Ha) as HA.
  set (A := binary64 (M / 1000)) in *.
  assert (Hy : (0 < A * 1000)%Q).
  { change (1 # 2 ^ 53)%Q with (1 # 9007199254740992)%Q in HA.
    assert (M / 1000 * 1000 == M)%Q by field.
    set (a := (M / 1000)%Q) in *. clearbody a A. nra. }
  pose proof (binary64_error (A * 1000) Hy) as HY.
  set (Y := binary64 (A * 1000)) in *.
  change (1 # 2 ^ 53)%Q with (1 # 9007199254740992)%Q in *.
  change (1 # 2 ^ 51)%Q with (1 # 2251799813685248)%Q.
  assert (M / 1000 * 1000 == M)%Q by field.
  set (a := (M / 1000)%Q) in *. clearbody a A Y. split; nra.
Qed.

(** X12.  The local entry written by [set] records its own time to live,
    computed in floating point from the expiry in seconds.  With a supplied
    duration it is the double [fl(fl(max(ms(ttl), 1000) / 1000) * 1000)]
    milliseconds: within one part in [2 ^ 51] of [max(ms(ttl), 1000)] and
    exactly 1000 for a duration of at most one second, but not always the
    clamped duration itself: for 1001 ms it is [1001 - 2 ^ -43]
    (1000.9999999999999).  Without a supplied duration the local entry has no
    time to live at all, while the store entry gets the default expiry of the
    client. *)
Theorem local_ttl_of_set (ms : TTL -> Q) (c : Client) (key : string) (v : value)
    (options : option SetOptions.t) :
  RedisCacheClient.isReady c = inr tt ->
  let c1 := first_state (RedisCacheClient.set ms key v options c) in
  exists local : option Q,
    localCacheManager c1 !! RedisCacheClient.generateKey c key
      = Some {| stored := Plain v; ttl_ms := local |} /\
    (forall t, options = Some {| SetOptions.ttl := Some t |} -> truthy t = true ->
       let M := Qmax (ms t) 1000 in
       exists x, local = Some x /\
         x = binary64 (binary64 (RedisCacheClient.mset_ttl ms options c) * 1000) /\
         (- (M * (1 # 2 ^ 51)) <= x - M <= M * (1 # 2 ^ 51))%Q /\
         ((ms t <= 1000)%Q -> x = 1000%Q) /\
         ((ms t == 1001)%Q ->
          x = (8804889115230207 # 8796093022208)%Q /\
          (x == 1001 - (1 # 2 ^ 43))%Q /\ ~ (x == Qmax (ms t) 1000)%Q)) /\
    (options = None \/ options = Some {| SetOptions.ttl := None |} ->
       local = None /\ RedisCacheClient.mset_ttl ms options c = default_ttl c).
Proof.
  intros Hready c1. subst c1. rewrite set_first_state by done. simpl.
  eexists. split; [apply lookup_insert_eq|]. split.
  - intros t -> Ht.
    unfold RedisCacheClient.convertOptions, RedisCacheClient.mset_ttl.
    cbn [SetOptions.ttl mjoin option_join]. rewrite Ht.
    eexists. split; [reflexivity|].
    split; [reflexivity|]. unfold RedisCacheClient.getTtlFromString.
    set (M := Qmax (ms t) 1000).
    split; [|split].
    + apply scaled_back_error. subst M. pose proof (Q.le_max_r (ms t) 1000). lra.
    + intros Hle.
      assert (HM : (M / 1000 == 1)%Q).
      { subst M. rewrite Q.max_r by done. reflexivity. }
      rewrite (binary64_proper _ _ HM). vm_compute. reflexivity.
    + intros H1001.
      assert (HM : (M == 1001)%Q).
      { subst M. rewrite H1001. reflexivity. }
      assert (HM' : (M / 1000 == 1001 # 1000)%Q) by (rewrite HM; reflexivity).
      rewrite (binary64_proper _ _ HM').
      split; [vm_compute; reflexivity|]. split; [vm_compute; reflexivity|].
      rewrite HM. vm_compute. discriminate.
  - intros [->| ->]; done.
Qed.

Lemma local_ttl_of_set_witness :
  exists local : option Q,
    localCacheManager
      (first_state (RedisCacheClient.set Fixtures.ms "k" (VNumber 1)
                      (Some {| SetOptions.ttl := Some "1001ms" |}) Fixtures.client))
      !! "cache:k" = Some {| stored := Plain (VNumber 1); ttl_ms := local |} /\
    exists x, local = Some x /\ x = (8804889115230207 # 8796093022208)%Q.
Proof.
  destruct (local_ttl_of_set Fixtures.ms Fixtures.client "k" (VNumber 1)
              (Some {| SetOptions.ttl := Some "1001ms" |}) eq_refl)
    as (local & Hlocal & Hsupplied & _).
  exists local. split; [exact Hlocal|].
  destruct (Hsupplied "1001ms" eq_refl eq_refl) as (x & Hx & _ & _ & _ & H1001).
  exists x. split; [exact Hx|]. apply H1001. reflexivity.
Defined.

(** ** [get] of a key that misses *)

(** X15.  A [get] of a key other than ["__proto__"] that misses the local
    cache, in Ready state: it marks the key and awaits one [MGET] of its
    physical key.  When the read settles with the marker still in place: a
    value that deserializes is cached without time to live and returned; no
    value deletes the slot and gives [null]; a failed read, or a value that
    does not deserialize, is emitted as an ['error'] event.  When somebody
    listens to these events the slot is then deleted and the call gives
    [null] without throwing; when nobody does, the [emit] throws, the call
    fails with the error and the marker stays in the local cache. *)
Theorem get_miss_resolves (c : Client) (cl : RedisClientType) (key : string) :
  RedisCacheClient.isReady c = inr tt ->
  dataClient (redisConnectionManager c) = Some cl ->
  key <> "__proto__" ->
  ILocalCacheManager.get (localCacheManager c) (RedisCacheClient.generateKey c key)
    = Plain VUndefined ->
  let fullKey := RedisCacheClient.generateKey c key in
  exists c1 k,
    RedisCacheClient.get key c =
      Await cl (MGET (requiresBuffer (Required.serializer (config c))) [fullKey]) c1 k /\
    ILocalCacheManager.get (localCacheManager c1) fullKey = CACHING_IN_PROGRESS /\
    forall c2,
      ILocalCacheManager.get (localCacheManager c2) fullKey = CACHING_IN_PROGRESS ->
      (forall s v, deserialize (Required.serializer (config c2)) s = inr v ->
         k (inr [Some s]) c2 =
           Done (inr (nullish v VNull))
             (with_cache c2 (ILocalCacheManager.set (localCacheManager c2) fullKey
                               (Plain v) None))) /\
      k (inr [None]) c2 =
        Done (inr VNull)
          (with_cache c2 (ILocalCacheManager.delete (localCacheManager c2) fullKey)) /\
      (forall r e,
         r = inl e \/
         (exists s, r = inr [Some s] /\
                    deserialize (Required.serializer (config c2)) s = inl e) ->
         (error_listeners c2 <> 0%nat ->
          k r c2 =
            Done (inr VNull)
              (with_cache (deliver c2 (EvError e))
                 (ILocalCacheManager.delete (localCacheManager c2) fullKey))) /\
         (error_listeners c2 = 0%nat -> k r c2 = Done (inl e) c2)).
Proof.
  intros Hready Hcl Hkey Hmiss fullKey.
  rewrite (get_miss key c cl) by done. fold fullKey.
  eexists _, _. split; [reflexivity|]. split; [simpl; apply cache_get_set|].
  intros c2 Hmark.
  destruct (mget_settle_single key fullKey c2 Hkey Hmark) as (Hval & Hnone & Herr).
  split; [|split].
  - intros s v Hs. rewrite (Hval s v Hs). simpl. by rewrite property_define.
  - rewrite Hnone. simpl. by rewrite property_define.
  - intros r e Hr. destruct (Herr r e Hr) as [Hl Hu]. split; intros H.
    + rewrite (Hl H). simpl. by rewrite property_define.
    + by rewrite (Hu H).
Qed.

Lemma get_miss_resolves_witness :
  exists c1 k,
    RedisCacheClient.get "k" Fixtures.client =
      Await {| url := "redis://localhost:6379"; session := DataSession |}
        (MGET true ["cache:k"]) c1 k.
Proof.
  destruct (get_miss_resolves Fixtures.client
              {| url := "redis://localhost:6379"; session := DataSession |}
              "k" eq_refl eq_refl ltac:(discriminate) eq_refl) as (c1 & k & Hk & _).
  exists c1, k. exact Hk.
Defined.

(** X16.  An invalidation that arrives while the read of a [get] is in
    flight removes the marker.  When the read then settles with a value, the
    call (for a key other than ["__proto__"]) returns the reply as the store
    sent it, not deserialized, and writes nothing to the local cache. *)
Theorem get_invalidated_in_flight (c : Client) (cl : RedisClientType) (key s : string) :
  RedisCacheClient.isReady c = inr tt ->
  dataClient (redisConnectionManager c) = Some cl ->
  key <> "__proto__" ->
  ILocalCacheManager.get (localCacheManager c) (RedisCacheClient.generateKey c key)
    = Plain VUndefined ->
  let fullKey := RedisCacheClient.generateKey c key in
  exists c1 k,
    RedisCacheClient.get key c =
      Await cl (MGET (requiresBuffer (Required.serializer (config c))) [fullKey]) c1 k /\
    let c2 := invalidation_listener (MArray [fullKey]) c1 in
    k (inr [Some s]) c2 =
      Done (inr (RedisCacheClient.raw (Required.serializer (config c)) s)) c2 /\
    localCacheManager c2 !! fullKey = None.
Proof.
  intros Hready Hcl Hkey Hmiss fullKey.
  rewrite (get_miss key c cl) by done. fold fullKey.
  eexists _, _. split; [reflexivity|]. simpl.
  unfold RedisCacheClient.mget_settle, for_range_try. simpl.
  unfold ILocalCacheManager.get, ILocalCacheManager.delete, ILocalCacheManager.set.
  rewrite lookup_delete_eq. simpl. split; [|done].
  rewrite assign_ordinary by done. rewrite property_define.
  unfold RedisCacheClient.raw.
  destruct (requiresBuffer (Required.serializer (config c))); simpl;
    by rewrite with_cache_same.
Qed.

Lemma get_invalidated_in_flight_witness :
  exists c1 k,
    RedisCacheClient.get "k" Fixtures.client =
      Await {| url := "redis://localhost:6379"; session := DataSession |}
        (MGET true ["cache:k"]) c1 k /\
    k (inr [Some "i3"]) (invalidation_listener (MArray ["cache:k"]) c1) =
      Done (inr (VBuffer "i3")) (invalidation_listener (MArray ["cache:k"]) c1).
Proof.
  destruct (get_invalidated_in_flight Fixtures.client
              {| url := "redis://localhost:6379"; session := DataSession |}
              "k" "i3" eq_refl eq_refl ltac:(discriminate) eq_refl)
    as (c1 & k & Hk & Hraw & _).
  exists c1, k. split; [exact Hk|exact Hraw].
Defined.

(** ** [close] when a session refuses to quit *)

(** X17.  In Ready state, when the data session is there and its [QUIT] is
    rejected, [close()] fails with that error at once: the invalidation
    session is not asked to quit, the client stays connected and its local
    cache is not cleared. *)
Theorem close_quit_rejected (c : Client) (d : RedisClientType) (e : Error)
    (St : Type) (b : Backend St) (st st' : St) (log : list issued) :
  RedisCacheClient.isReady c = inr tt ->
  dataClient (redisConnectionManager c) = Some d ->
  exec b d QUIT st = (inl e, st') ->
  let r := run (logging b) (RedisCacheClient.close c) (st, log) in
  outcome r = inl e /\
  final r = c /\
  (backend_state r).2 = log ++ [sent (session d) QUIT].
Proof.
  intros Hready Hd Hexec r. subst r.
  unfold RedisCacheClient.close, ConnectionManager.closeClients.
  rewrite Hready, Hd. cbn [bind]. rewrite run_logging_await, Hexec. done.
Qed.

Lemma close_quit_rejected_witness :
  final (run (logging Fixtures.broken) (RedisCacheClient.close Fixtures.client) (tt, []))
    = Fixtures.client.
Proof.
  apply (close_quit_rejected Fixtures.client
           {| url := "redis://localhost:6379"; session := DataSession |}
           (StoreError "connection lost") _ Fixtures.broken tt tt []);
    reflexivity.
Defined.

(** ** Witness for the deduplication of simultaneous [get]s *)

Lemma get_deduplicated_witness :
  let c1 := first_state (RedisCacheClient.get "k" Fixtures.client) in
  RedisCacheClient.get "k" c1 = Done (inr VNull) c1.
Proof.
  apply (get_deduplicated "k" Fixtures.client
           {| url := "redis://localhost:6379"; session := DataSession |});
    reflexivity || discriminate.
Defined.

(** ** [mget] of distinct keys that all miss, from call to result *)

(** X18.  An [mget] of distinct keys, ["__proto__"] not among them, that
    all miss the local cache, in Ready state: it marks every key and awaits
    one [MGET] of all the physical keys in the order asked.  Run alone, when
    the read answers with one reply per key and every value deserializes,
    each key with a value gets it deserialized in the record and in its own
    slot, and each key without one is [undefined] in the record and has its
    slot deleted.  When the read fails and somebody listens to the errors of
    the client, the error is emitted, every key is [undefined] in the record
    and has its slot deleted, and the call does not throw; when nobody
    listens the call fails with the error of the read and every marker
    stays. *)
Theorem mget_all_misses_resolved (c : Client) (cl : RedisClientType) (keys : list string) :
  RedisCacheClient.isReady c = inr tt ->
  dataClient (redisConnectionManager c) = Some cl ->
  keys <> [] ->
  NoDup keys ->
  "__proto__" ∉ keys ->
  (forall k, k ∈ keys ->
     ILocalCacheManager.get (localCacheManager c) (RedisCacheClient.generateKey c k)
       = Plain VUndefined) ->
  let fullKeys := map (RedisCacheClient.generateKey c) keys in
  exists c1 k,
    RedisCacheClient.mget keys c =
      Await cl (MGET (requiresBuffer (Required.serializer (config c))) fullKeys) c1 k /\
    (forall vs,
       length vs = length keys ->
       (forall s, Some s ∈ vs ->
          exists v, deserialize (Required.serializer (config c)) s = inr v) ->
       exists m result,
         k (inr vs) c1 = Done (inr result) (with_cache c1 m) /\
         forall i key, keys !! i = Some key ->
           match vs !! i with
           | Some (Some s) =>
               exists v, deserialize (Required.serializer (config c)) s = inr v /\
                         result !! key = Some v /\
                         ILocalCacheManager.get m (RedisCacheClient.generateKey c key)
                           = Plain v
           | _ => result !! key = Some VUndefined /\
                  m !! RedisCacheClient.generateKey c key = None
           end) /\
    (forall e,
       (error_listeners c <> 0%nat ->
        exists m result,
          k (inl e) c1 = Done (inr result) (with_cache (deliver c1 (EvError e)) m) /\
          forall key, key ∈ keys ->
            result !! key = Some VUndefined /\
            m !! RedisCacheClient.generateKey c key = None) /\
       (error_listeners c = 0%nat ->
        k (inl e) c1 = Done (inl e) c1 /\
        forall key, key ∈ keys ->
          ILocalCacheManager.get (localCacheManager c1) (RedisCacheClient.generateKey c key)
            = CACHING_IN_PROGRESS)).
Proof.
  intros Hready Hcl Hne Hnodup Hord Hmiss fullKeys.
  rewrite (mget_all_misses c keys Hnodup Hmiss cl Hready Hcl Hne). fold fullKeys.
  eexists _, _. split; [reflexivity|].
  set (c1 := with_cache c (foldl mark (localCacheManager c) fullKeys)).
  assert (Hmarked : forall key, key ∈ keys ->
            ILocalCacheManager.get (localCacheManager c1) (RedisCacheClient.generateKey c key)
              = CACHING_IN_PROGRESS).
  { intros key Hkey. subst c1. simpl. apply get_foldl_mark_in.
    subst fullKeys. apply list_elem_of_fmap. by exists key. }
  split.
  - intros vs Hlen Hdes.
    by apply (mget_settle_all_misses c1 keys vs Hnodup Hord Hlen Hdes).
  - intros e. split; intros Hl.
    + by apply (mget_settle_all_misses_failed c1 keys e Hnodup Hord).
    + split; [|done]. by apply mget_settle_unhandled.
Qed.

Lemma mget_all_misses_resolved_witness :
  exists c1 k,
    RedisCacheClient.mget ["a"; "b"] Fixtures.client =
      Await {| url := "redis://localhost:6379"; session := DataSession |}
        (MGET true ["cache:a"; "cache:b"]) c1 k.
Proof.
  destruct (mget_all_misses_resolved Fixtures.client
              {| url := "redis://localhost:6379"; session := DataSession |}
              ["a"; "b"] eq_refl eq_refl) as (c1 & k & Hk & _).
  - discriminate.
  - apply NoDup_cons. split; [|apply NoDup_singleton].
    intros H. by apply list_elem_of_singleton in H.
  - not_among.
  - intros key Hkey. apply elem_of_cons in Hkey as [->|Hkey]; [reflexivity|].
    apply list_elem_of_singleton in Hkey as ->. reflexivity.
  - exists c1, k. exact Hk.
Defined.

(** ** Connecting and reconnecting *)

Lemma run_task_bind {St A B : Type} (s : Reconnection.Server St)
    (m : Reconnection.Task A) (f : A -> Client -> Reconnection.Task B) (st : St) :
  Reconnection.run_task s (Reconnection.task_bind m f) st =
  match Reconnection.run_task s m st with
  | Some (inr a, c, st') => Reconnection.run_task s (f a c) st'
  | Some (inl e, c, st') => Some (inl e, c, st')
  | None => None
  end.
Proof.
  revert B f st.
  induction m as [A r c|A R on req c k IH|A R reqs c k IH|A ms c k IH|A child _ rest IH|A c];
    intros B f st; simpl.
  - by destruct r.
  - destruct (Reconnection.answer s on req st) as [r st']. apply IH.
  - destruct (Reconnection.answer_all s reqs st) as [rs st']. apply IH.
  - apply IH.
  - done.
  - done.
Qed.

Lemma run_task_catch {St A : Type} (s : Reconnection.Server St)
    (m : Reconnection.Task A) (h : Error -> Client -> Reconnection.Task A) (st : St) :
  Reconnection.run_task s (Reconnection.task_catch m h) st =
  match Reconnection.run_task s m st with
  | Some (inl e, c, st') => Reconnection.run_task s (h e c) st'
  | Some (inr a, c, st') => Some (inr a, c, st')
  | None => None
  end.
Proof.
  revert h st.
  induction m as [A r c|A R on req c k IH|A R reqs c k IH|A ms c k IH|A child _ rest IH|A c];
    intros h st; simpl.
  - by destruct r.
  - destruct (Reconnection.answer s on req st) as [r st']. apply IH.
  - destruct (Reconnection.answer_all s reqs st) as [rs st']. apply IH.
  - apply IH.
  - done.
  - done.
Qed.

(** [connectClients] and [configureTracking] leave the listeners of the
    client alone. *)
Lemma connectClients_listeners {St : Type} (s : Reconnection.Server St) (c : Client)
    (st : St) r c1 st1 :
  Reconnection.run_task s (Reconnection.connectClients c) st = Some (r, c1, st1) ->
  error_listeners c1 = error_listeners c.
Proof.
  unfold Reconnection.connectClients.
  destruct (dataClient (redisConnectionManager c)) as [d|]; [|by intros [= <- <- <-]].
  destruct (invalidationClient (redisConnectionManager c)) as [i|]; [|done].
  cbn [Reconnection.run_task].
  destruct (Reconnection.answer_all s [(d, Reconnection.CONNECT); (i, Reconnection.CONNECT)] st)
    as [rs st'].
  destruct (all_settled rs); cbn; by intros [= <- <- <-].
Qed.

Lemma configureTracking_listeners {St : Type} (s : Reconnection.Server St) (c : Client)
    (st : St) r c1 st1 :
  Reconnection.run_task s (Reconnection.configureTracking c) st = Some (r, c1, st1) ->
  error_listeners c1 = error_listeners c.
Proof.
  unfold Reconnection.configureTracking, Reconnection.task_call,
    getDataClient, getInvalidationClient.
  destruct (invalidationClient (redisConnectionManager c)) as [i|];
    [|by intros [= <- <- <-]].
  cbn. destruct (Reconnection.answer s i _ st) as [[e|id] st2]; cbn;
    [by intros [= <- <- <-]|].
  destruct (Reconnection.falsy id); cbn; [by intros [= <- <- <-]|].
  destruct (dataClient (redisConnectionManager c)) as [d|]; cbn;
    [|by intros [= <- <- <-]].
  destruct (Reconnection.answer s d _ st2) as [[e|x] st3]; cbn;
    [by intros [= <- <- <-]|].
  destruct (Reconnection.answer s i _ st3) as [[e|y] st4]; cbn;
    by intros [= <- <- <-].
Qed.

Section Flaky.
Variable id : option Z.
Variable self : Client -> Reconnection.Task unit.
Variable c : Client.
Variables d i : RedisClientType.
Hypothesis Hd : dataClient (redisConnectionManager c) = Some d.
Hypothesis Hi : invalidationClient (redisConnectionManager c) = Some i.
Hypothesis Hsd : session d = DataSession.
Hypothesis Hsi : session i = InvalidationSession.

Lemma connect_refused (n : nat) (log : list Reconnection.asked) :
  error_listeners c <> 0%nat ->
  Reconnection.run_task (Reconnection.flaky id) (Reconnection.connect self c) (S n, log) =
  Reconnection.run_task (Reconnection.flaky id)
    (self (deliver c (EvError (StoreError "connection refused"))))
    (n, log ++ Reconnection.refused_attempts 1).
Proof.
  intros Hl.
  unfold Reconnection.connect, Reconnection.connectClients. rewrite Hd, Hi.
  cbn. rewrite Hsd, Hsi. cbn. unfold Reconnection.emit_error.
  rewrite emit_listened by done. by rewrite <- app_assoc.
Qed.

Lemma connect_accepted (z : Z) (log : list Reconnection.asked) :
  id = Some z -> z <> 0%Z ->
  Reconnection.run_task (Reconnection.flaky id) (Reconnection.connect self c) (0%nat, log) =
  Some (inr tt,
        with_connected (Reconnection.with_invalidationClientId c (Some z)) true,
        (0%nat, log ++ Reconnection.handshake z)).
Proof.
  intros -> Hz.
  unfold Reconnection.connect, Reconnection.connectClients,
    Reconnection.configureTracking, getDataClient, getInvalidationClient.
  rewrite Hd, Hi. cbn. rewrite Hsd, Hsi. cbn.
  rewrite Hd, Hi. cbn.
  destruct (Z.eqb_spec z 0) as [?|_]; [done|]. cbn.
  rewrite Hsd, Hsi. cbn. by rewrite <- !app_assoc.
Qed.

(** [connect] up to the [catch] that follows a missing identifier. *)
Lemma connect_missing_id (log : list Reconnection.asked) :
  Reconnection.falsy id = true ->
  Reconnection.run_task (Reconnection.flaky id) (Reconnection.connect self c) (0%nat, log) =
  Reconnection.run_task (Reconnection.flaky id)
    (Reconnection.emit_error CacheErrors.MissingClientId
       (Reconnection.with_invalidationClientId c id) self)
    (0%nat, log ++ [Reconnection.Asked DataSession Reconnection.CONNECT;
                    Reconnection.Asked InvalidationSession Reconnection.CONNECT;
                    Reconnection.Asked InvalidationSession
                      (Reconnection.SEND_COMMAND ["CLIENT"; "ID"])]).
Proof.
  intros Hid.
  unfold Reconnection.connect, Reconnection.connectClients,
    Reconnection.configureTracking, getDataClient, getInvalidationClient.
  rewrite Hd, Hi. cbn. rewrite Hsd, Hsi. cbn.
  rewrite Hd, Hi. cbn. rewrite Hid. cbn. rewrite Hsi. by rewrite <- !app_assoc.
Qed.
End Flaky.

Lemma isReady_reconnecting (c : Client) :
  reconnecting c = true -> RedisCacheClient.isReady c = inl CacheErrors.NotReady.
Proof. intros H. apply isReady_not. by right. Qed.

(** One call of [attemptReconnect] with fuel left, run alone on a client
    with an ['error'] listener: it emits the [NotReady] of [close()], then
    does what its [connect()] does. *)
Lemma attemptReconnect_step {St : Type} (s : Reconnection.Server St) (fuel : nat)
    (c : Client) (st : St) :
  error_listeners c <> 0%nat ->
  Reconnection.run_task s (Reconnection.attemptReconnect (S fuel) c) st =
  match Reconnection.run_task s
          (Reconnection.connect (Reconnection.attemptReconnect fuel)
             (deliver (with_reconnecting c true) (EvError CacheErrors.NotReady))) st with
  | Some (inr _, c2, st') => Some (inr tt, with_reconnecting c2 false, st')
  | Some (inl e, c2, st') =>
      if (error_listeners c2 =? 0)%nat then Some (inl e, c2, st') else None
  | None => None
  end.
Proof.
  intros Hl.
  cbn [Reconnection.attemptReconnect Reconnection.reconnect_loop].
  change (reconnecting (with_reconnecting c true)) with true. cbv iota.
  rewrite run_task_bind. unfold Reconnection.reconnect_round.
  rewrite run_task_catch, run_task_bind, run_task_catch.
  unfold RedisCacheClient.close.
  rewrite (isReady_reconnecting (with_reconnecting c true)) by done.
  cbn [Reconnection.lift Reconnection.run_task].
  unfold Reconnection.emit_error at 1.
  rewrite (emit_listened (with_reconnecting c true)) by done.
  cbn [Reconnection.run_task].
  rewrite run_task_bind.
  destruct (Reconnection.run_task s _ st) as [[[[e|[]] c2] st']|]; [| |done].
  - unfold Reconnection.emit_error, emit.
    destruct (error_listeners c2 =? 0)%nat; cbn; done.
  - cbn. by destruct fuel.
Qed.

(** With no ['error'] listener the first round of [attemptReconnect] ends
    the call: the [NotReady] of [close()] is thrown by the [emit] of the
    inner [catch], and again by the [emit] of the outer one. *)
Lemma attemptReconnect_unhandled {St : Type} (s : Reconnection.Server St) (fuel : nat)
    (c : Client) (st : St) :
  error_listeners c = 0%nat ->
  Reconnection.run_task s (Reconnection.attemptReconnect (S fuel) c) st =
  Some (inl CacheErrors.NotReady, with_reconnecting c true, st).
Proof.
  intros Hl.
  cbn [Reconnection.attemptReconnect Reconnection.reconnect_loop].
  change (reconnecting (with_reconnecting c true)) with true. cbv iota.
  rewrite run_task_bind. unfold Reconnection.reconnect_round.
  rewrite run_task_catch, run_task_bind, run_task_catch.
  unfold RedisCacheClient.close.
  rewrite (isReady_reconnecting (with_reconnecting c true)) by done.
  cbn [Reconnection.lift Reconnection.run_task].
  unfold Reconnection.emit_error.
  rewrite (emit_unhandled (with_reconnecting c true)) by done.
  cbn [Reconnection.run_task].
  rewrite (emit_unhandled (with_reconnecting c true)) by done.
  reflexivity.
Qed.

(** [attemptReconnect] against the server that refuses [n] connections. *)
Lemma attemptReconnect_flaky (z : Z) (n fuel : nat) (c : Client)
    (d i : RedisClientType) (log : list Reconnection.asked) :
  z <> 0%Z ->
  (n < fuel)%nat ->
  error_listeners c <> 0%nat ->
  dataClient (redisConnectionManager c) = Some d ->
  invalidationClient (redisConnectionManager c) = Some i ->
  session d = DataSession ->
  session i = InvalidationSession ->
  Reconnection.run_task (Reconnection.flaky (Some z))
    (Reconnection.attemptReconnect fuel c) (n, log) =
  Some (inr tt,
        {| invalidationClientId := Some z; config := config c;
           localCacheManager := localCacheManager c;
           redisConnectionManager := redisConnectionManager c;
           reconnecting := false; connected := true;
           default_ttl := default_ttl c;
           error_listeners := error_listeners c;
           emitted := emitted c ++ Reconnection.failed_rounds n
                        ++ [EvError CacheErrors.NotReady] |},
        (0%nat, log ++ Reconnection.refused_attempts n ++ Reconnection.handshake z)).
Proof.
  intros Hz. revert fuel c log.
  induction n as [|n IH]; intros fuel c log Hfuel Hl Hd Hi Hsd Hsi;
    (destruct fuel as [|fuel]; [lia|]); rewrite attemptReconnect_step by done.
  - rewrite (connect_accepted (Some z) _
               (deliver (with_reconnecting c true) (EvError CacheErrors.NotReady))
               d i Hd Hi Hsd Hsi z log eq_refl Hz). done.
  - rewrite (connect_refused (Some z) _
               (deliver (with_reconnecting c true) (EvError CacheErrors.NotReady))
               d i Hd Hi Hsd Hsi n log Hl).
    rewrite IH by (done || lia). simpl.
    unfold Reconnection.failed_rounds, Reconnection.refused_attempts. simpl.
    by rewrite <- !app_assoc.
Qed.

Lemma connect_returns_connected {St : Type} (s : Reconnection.Server St)
    (self : Client -> Reconnection.Task unit) (c : Client) (st : St) r c' st' :
  error_listeners c <> 0%nat ->
  (forall c0 st0 r0 c1 st1,
     error_listeners c0 <> 0%nat ->
     Reconnection.run_task s (self c0) st0 = Some (r0, c1, st1) ->
     r0 = inr tt /\ connected c1 = true) ->
  Reconnection.run_task s (Reconnection.connect self c) st = Some (r, c', st') ->
  r = inr tt /\ connected c' = true.
Proof.
  intros Hl Hself. unfold Reconnection.connect.
  rewrite run_task_catch, run_task_bind.
  destruct (Reconnection.run_task s (Reconnection.connectClients c) st)
    as [[[[e|a] c1] st1]|] eqn:H1; [| |done].
  { apply connectClients_listeners in H1. unfold Reconnection.emit_error.
    rewrite emit_listened by congruence. apply Hself. simpl. congruence. }
  apply connectClients_listeners in H1.
  rewrite run_task_bind.
  destruct (Reconnection.run_task s (Reconnection.configureTracking c1) st1)
    as [[[[e|[]] c2] st2]|] eqn:H2; [| |done].
  { apply configureTracking_listeners in H2. unfold Reconnection.emit_error.
    rewrite emit_listened by congruence. apply Hself. simpl. congruence. }
  cbn. by intros [= <- <- <-].
Qed.

(** X21.  The reconnect loop on a client with an ['error'] listener, run
    alone against a server that refuses the next [n] connections of the data
    session and accepts every other connection, repeated ones included: with
    enough fuel, [attemptReconnect] returns
    with the client Ready and the identifier of the invalidation session
    recorded.  Every round has emitted the [NotReady] of its [close()], which
    is refused because the client is reconnecting, so that no session is ever
    asked to quit, and every failed round the error of its [connect()]; the
    retries follow one another without any timer; the local cache is what it
    was before. *)
Theorem reconnect_until_connected (z : Z) (n fuel : nat) (c : Client)
    (d i : RedisClientType) (log : list Reconnection.asked) :
  z <> 0%Z ->
  (n < fuel)%nat ->
  error_listeners c <> 0%nat ->
  dataClient (redisConnectionManager c) = Some d ->
  invalidationClient (redisConnectionManager c) = Some i ->
  session d = DataSession ->
  session i = InvalidationSession ->
  exists c',
    Reconnection.run_task (Reconnection.flaky (Some z))
      (Reconnection.attemptReconnect fuel c) (n, log) =
    Some (inr tt, c',
          (0%nat, log ++ Reconnection.refused_attempts n ++ Reconnection.handshake z)) /\
    RedisCacheClient.isReady c' = inr tt /\
    invalidationClientId c' = Some z /\
    localCacheManager c' = localCacheManager c /\
    config c' = config c /\
    emitted c' = emitted c ++ Reconnection.failed_rounds n
                   ++ [EvError CacheErrors.NotReady].
Proof.
  intros Hz Hfuel Hl Hd Hi Hsd Hsi.
  rewrite (attemptReconnect_flaky z n fuel c d i log Hz Hfuel Hl Hd Hi Hsd Hsi).
  eexists. split; [reflexivity|]. done.
Qed.

Lemma reconnect_until_connected_witness :
  exists c' log,
    Reconnection.run_task (Reconnection.flaky (Some 7%Z))
      (Reconnection.attemptReconnect 3 (final Fixtures.after_set_a)) (2%nat, []) =
    Some (inr tt, c', (0%nat, log)) /\
    RedisCacheClient.isReady c' = inr tt.
Proof.
  destruct (reconnect_until_connected 7 2 3 (final Fixtures.after_set_a)
              {| url := "redis://localhost:6379"; session := DataSession |}
              {| url := "redis://localhost:6379"; session := InvalidationSession |} [])
    as (c' & Hrun & Hready & _); try reflexivity; try lia; try discriminate.
  exists c', (Reconnection.refused_attempts 2 ++ Reconnection.handshake 7).
  split; [exact Hrun|exact Hready].
Defined.

(** X22.  On a client with an ['error'] listener, whatever the server
    answers, when [attemptReconnect] returns, run alone, it has not failed and
    the client is Ready: the errors of the rounds are emitted, not raised.
    On a client without one, [attemptReconnect] fails in its first round
    with the [NotReady] of its own [close()], before anything is asked of
    the server, and leaves the client reconnecting, hence not Ready. *)
Theorem reconnect_returns_ready {St : Type} (s : Reconnection.Server St) (fuel : nat)
    (c : Client) (st : St) :
  (error_listeners c <> 0%nat ->
   forall (r : Error + unit) (c' : Client) (st' : St),
     Reconnection.run_task s (Reconnection.attemptReconnect fuel c) st = Some (r, c', st') ->
     r = inr tt /\ RedisCacheClient.isReady c' = inr tt) /\
  (error_listeners c = 0%nat ->
   Reconnection.run_task s (Reconnection.attemptReconnect (S fuel) c) st =
     Some (inl CacheErrors.NotReady, with_reconnecting c true, st) /\
   RedisCacheClient.isReady (with_reconnecting c true) = inl CacheErrors.NotReady).
Proof.
  split.
  - revert c st. induction fuel as [|fuel IH]; intros c st Hl r c' st'; [done|].
    rewrite attemptReconnect_step by done.
    destruct (Reconnection.run_task s _ st) as [[[[e|[]] c2] st2]|] eqn:Hrun; [| |done].
    + apply connect_returns_connected in Hrun as [? _]; [done|done|].
      intros c0 st0 r0 c1 st1 Hl0 H0. apply IH in H0 as [-> Hready]; [|done].
      split; [done|]. by apply isReady_ok in Hready as [? _].
    + intros [= <- <- <-]. split; [done|].
      apply connect_returns_connected in Hrun as [_ Hconn]; [|done|].
      * apply isReady_ok. by split.
      * intros c0 st0 r0 c1 st1 Hl0 H0. apply IH in H0 as [-> Hready]; [|done].
        split; [done|]. by apply isReady_ok in Hready as [? _].
  - intros Hl. split; [by apply attemptReconnect_unhandled|].
    by apply isReady_reconnecting.
Qed.

Lemma reconnect_returns_ready_witness :
  exists c' st',
    Reconnection.run_task (Reconnection.flaky (Some 7%Z))
      (Reconnection.attemptReconnect 2 Fixtures.client) (1%nat, []) =
      Some (inr tt, c', st') /\
    RedisCacheClient.isReady c' = inr tt.
Proof.
  eexists _, _. split; [reflexivity|].
  destruct (reconnect_returns_ready (Reconnection.flaky (Some 7%Z)) 2 Fixtures.client
              (1%nat, [])) as [H _].
  eapply H; [discriminate|reflexivity].
Defined.

(** X23.  When the invalidation session reports no identifier ([null] or
    0), [connect] does not enable tracking and does not subscribe: after the
    two connections and [CLIENT ID] it records the identifier reported and
    emits [MissingClientId], with [connected] left as it was.  On a client
    with an ['error'] listener it then hands over to [attemptReconnect]; on a
    client without one the [emit] throws, [connect] fails with
    [MissingClientId] and [attemptReconnect] is not called. *)
Theorem connect_without_client_id (id : option Z) (self : Client -> Reconnection.Task unit)
    (c : Client) (d i : RedisClientType) (log : list Reconnection.asked) :
  Reconnection.falsy id = true ->
  dataClient (redisConnectionManager c) = Some d ->
  invalidationClient (redisConnectionManager c) = Some i ->
  session d = DataSession ->
  session i = InvalidationSession ->
  let asked := log ++ [Reconnection.Asked DataSession Reconnection.CONNECT;
                       Reconnection.Asked InvalidationSession Reconnection.CONNECT;
                       Reconnection.Asked InvalidationSession
                         (Reconnection.SEND_COMMAND ["CLIENT"; "ID"])] in
  let c1 := Reconnection.with_invalidationClientId c id in
  (error_listeners c <> 0%nat ->
   Reconnection.run_task (Reconnection.flaky id) (Reconnection.connect self c) (0%nat, log) =
   Reconnection.run_task (Reconnection.flaky id)
     (self (deliver c1 (EvError CacheErrors.MissingClientId))) (0%nat, asked)) /\
  (error_listeners c = 0%nat ->
   Reconnection.run_task (Reconnection.flaky id) (Reconnection.connect self c) (0%nat, log) =
   Some (inl CacheErrors.MissingClientId, c1, (0%nat, asked))).
Proof.
  intros Hid Hd Hi Hsd Hsi asked c1.
  rewrite (connect_missing_id id self c d i Hd Hi Hsd Hsi log Hid).
  fold asked c1. unfold Reconnection.emit_error. split; intros Hl.
  - by rewrite emit_listened.
  - by rewrite emit_unhandled.
Qed.

Lemma connect_without_client_id_witness :
  Reconnection.run_task (Reconnection.flaky (Some 0%Z))
    (Reconnection.connect (fun c => Reconnection.Finished (inr tt) c) Fixtures.fresh)
    (0%nat, []) =
  Some (inl CacheErrors.MissingClientId,
        Reconnection.with_invalidationClientId Fixtures.fresh (Some 0%Z),
        (0%nat, [Reconnection.Asked DataSession Reconnection.CONNECT;
                 Reconnection.Asked InvalidationSession Reconnection.CONNECT;
                 Reconnection.Asked InvalidationSession
                   (Reconnection.SEND_COMMAND ["CLIENT"; "ID"])])).
Proof.
  destruct (connect_without_client_id (Some 0%Z)
              (fun c => Reconnection.Finished (inr tt) c) Fixtures.fresh
              {| url := "redis://localhost:6379"; session := DataSession |}
              {| url := "redis://localhost:6379"; session := InvalidationSession |} []
              eq_refl eq_refl eq_refl eq_refl eq_refl) as [_ H].
  apply H. reflexivity.
Defined.

(** X24.  A client fresh from the constructor that connects to a server
    accepting everything becomes Ready: [connect] asks both sessions to
    connect, asks the invalidation session for its identifier, enables
    tracking on the data session redirected to that identifier with
    [NOLOOP], subscribes the invalidation session to the invalidation channel,
    in this order, records the identifier, emits nothing and never calls
    [attemptReconnect]. *)
Theorem connect_establishes_tracking ms pack unpack (cfg : CacheConfig.t) (z : Z)
    (self : Client -> Reconnection.Task unit) (log : list Reconnection.asked) :
  z <> 0%Z ->
  let c := RedisCacheClient.new ms pack unpack cfg in
  let c' := with_connected (Reconnection.with_invalidationClientId c (Some z)) true in
  Reconnection.run_task (Reconnection.flaky (Some z)) (Reconnection.connect self c)
    (0%nat, log) = Some (inr tt, c', (0%nat, log ++ Reconnection.handshake z)) /\
  RedisCacheClient.isReady c' = inr tt /\
  emitted c' = [] /\
  localCacheManager c' = CacheConfig.localCacheManager cfg.
Proof.
  intros Hz c c'. split.
  - apply (connect_accepted (Some z) self c
             {| url := Required.uri (config c); session := DataSession |}
             {| url := Required.uri (config c); session := InvalidationSession |});
      try reflexivity; try done.
  - subst c' c. unfold RedisCacheClient.new, merge_config. simpl.
    by destruct (endsWith _ _).
Qed.

Lemma connect_establishes_tracking_witness :
  RedisCacheClient.isReady
    (with_connected
       (Reconnection.with_invalidationClientId Fixtures.fresh (Some 7%Z)) true) = inr tt.
Proof.
  apply (connect_establishes_tracking Fixtures.ms Fixtures.pack Fixtures.unpack
           Fixtures.cfg 7 (fun c => Reconnection.Finished (inr tt) c) []).
  discriminate.
Defined.

(** X25.  Connection loss, from the event to the end of the reconnection,
    on a client with an ['error'] listener, run alone against a server that
    refuses [n] connections and then accepts: a Ready client emits
    ['reconnecting'], goes through the rounds of the loop and is Ready again.
    Its local cache is never cleared on the way: a value cached before the
    loss (under a key other than ["__proto__"]) is served by [get] after the
    reconnection without any store access. *)
Theorem connection_lost_then_reconnected (z : Z) (n fuel : nat) (c : Client)
    (d i : RedisClientType) (log : list Reconnection.asked) (key : string) (v : value) :
  z <> 0%Z ->
  (n < fuel)%nat ->
  RedisCacheClient.isReady c = inr tt ->
  error_listeners c <> 0%nat ->
  dataClient (redisConnectionManager c) = Some d ->
  invalidationClient (redisConnectionManager c) = Some i ->
  session d = DataSession ->
  session i = InvalidationSession ->
  key <> "__proto__" ->
  ILocalCacheManager.get (localCacheManager c) (RedisCacheClient.generateKey c key)
    = Plain v ->
  v <> VUndefined ->
  exists c',
    Reconnection.run_task (Reconnection.flaky (Some z))
      (Reconnection.handleConnectionLost fuel c) (n, log) =
    Some (inr tt, c',
          (0%nat, log ++ Reconnection.refused_attempts n ++ Reconnection.handshake z)) /\
    RedisCacheClient.isReady c' = inr tt /\
    localCacheManager c' = localCacheManager c /\
    emitted c' = emitted c ++ [EvReconnecting] ++ Reconnection.failed_rounds n
                   ++ [EvError CacheErrors.NotReady] /\
    RedisCacheClient.get key c' = Done (inr (nullish v VNull)) c'.
Proof.
  intros Hz Hfuel Hready Hl Hd Hi Hsd Hsi Hkey Hhit Hv.
  apply isReady_ok in Hready as [Hconn Hrec].
  unfold Reconnection.handleConnectionLost.
  change (reconnecting (with_connected c false)) with (reconnecting c).
  rewrite Hrec. cbn [negb emit].
  rewrite (attemptReconnect_flaky z n fuel
             (deliver (with_connected c false) EvReconnecting) d i log
             Hz Hfuel Hl Hd Hi Hsd Hsi).
  eexists. split; [reflexivity|]. simpl.
  split; [done|]. split; [done|]. split; [by rewrite <- !app_assoc|].
  by apply get_hit.
Qed.

Lemma connection_lost_then_reconnected_witness :
  exists c',
    Reconnection.run_task (Reconnection.flaky (Some 7%Z))
      (Reconnection.handleConnectionLost 2 (final Fixtures.after_set_a)) (1%nat, []) =
    Some (inr tt, c',
          (0%nat, Reconnection.refused_attempts 1 ++ Reconnection.handshake 7)) /\
    RedisCacheClient.get "a" c' = Done (inr (VNumber 1)) c'.
Proof.
  destruct (connection_lost_then_reconnected 7 1 2 (final Fixtures.after_set_a)
              {| url := "redis://localhost:6379"; session := DataSession |}
              {| url := "redis://localhost:6379"; session := InvalidationSession |}
              [] "a" (VNumber 1))
    as (c' & Hrun & _ & _ & _ & Hget); try reflexivity; try lia; try discriminate.
  exists c'. split; [exact Hrun|exact Hget].
Defined.
